(** * Api-automation: the Excel test-case compiler and the results reconciler

    A shallow embedding of [src/excel_postman_generator.py] and of the part of
    [src/newman_runner.py] that decides whether executions are returned.

    Conventions of the embedding
    - a Python [str] is a Rocq [string] (a byte string); [lower], [upper] and
      [strip] act on ASCII letters and ASCII white space, so the embedding
      is that of the code on ASCII text: a text with a letter or a white
      space outside ASCII, which Python's [lower], [upper] and [strip]
      would change, is outside it, and a statement that relates two letter
      cases of a text is made for ASCII text;
    - a Python [dict] is an insertion-ordered association list with unique
      keys ([PyDict]); assignment to an existing key keeps its position;
    - the mutable loop variables of the generator ([last_method], ...,
      [folders], [row_links]) are threaded as explicit state;
    - a worksheet is a grid of cells addressed from 1, as openpyxl does;
    - functions of the Python standard library whose full behaviour is not
      part of this repository ([json.loads], [json.dumps], [urlparse], ...)
      are fields of the class [PyLib]; every theorem holds for every
      instance, and [pylib] is an executable instance used to evaluate the
      code on concrete sheets. *)

From Stdlib Require Import ZArith String Ascii List Bool Arith Lia.
From Stdlib Require Import Numbers.DecimalString Numbers.DecimalPos.
From Stdlib Require Import Sorting.Permutation.
Import ListNotations.

Open Scope string_scope.
Open Scope list_scope.

Infix "+++" := String.append (at level 60, right associativity).

(** ** Python string methods *)

Module PyStr.

(** White space removed by [str.strip()] in the ASCII range.  The white
    space of Unicode outside it (U+0085, U+00A0, ...) is not removed. *)
Definition is_space (c : ascii) : bool :=
  let n := nat_of_ascii c in
  ((n =? 32) || ((9 <=? n) && (n <=? 13)) || ((28 <=? n) && (n <=? 31)))%nat.

Definition is_empty (s : string) : bool :=
  match s with EmptyString => true | String _ _ => false end.

(** [str.lower()] and [str.upper()] on the letters of ASCII; every other
    character is left as it is. *)
Definition lower_char (c : ascii) : ascii :=
  let n := nat_of_ascii c in
  if ((65 <=? n) && (n <=? 90))%nat then ascii_of_nat (n + 32) else c.

Definition upper_char (c : ascii) : ascii :=
  let n := nat_of_ascii c in
  if ((97 <=? n) && (n <=? 122))%nat then ascii_of_nat (n - 32) else c.

Fixpoint map_chars (f : ascii -> ascii) (s : string) : string :=
  match s with
  | EmptyString => EmptyString
  | String c s' => String (f c) (map_chars f s')
  end.

Definition lower : string -> string := map_chars lower_char.
Definition upper : string -> string := map_chars upper_char.

(** [s.lstrip(chars)] and [s.rstrip(chars)] for a set of characters given as
    a predicate. *)
Fixpoint lstrip_by (p : ascii -> bool) (s : string) : string :=
  match s with
  | EmptyString => EmptyString
  | String c s' => if p c then lstrip_by p s' else s
  end.

Fixpoint rstrip_by (p : ascii -> bool) (s : string) : string :=
  match s with
  | EmptyString => EmptyString
  | String c s' =>
      let r := rstrip_by p s' in
      if p c && is_empty r then EmptyString else String c r
  end.

Definition strip (s : string) : string := rstrip_by is_space (lstrip_by is_space s).

Definition is_slash (c : ascii) : bool := Ascii.eqb c "/".
Definition rstrip_slash : string -> string := rstrip_by is_slash.
Definition lstrip_slash : string -> string := lstrip_by is_slash.

(** [c in s] for a one-character string [c]. *)
Fixpoint contains_char (c : ascii) (s : string) : bool :=
  match s with
  | EmptyString => false
  | String d s' => Ascii.eqb c d || contains_char c s'
  end.

(** [s.startswith(p)]. *)
Definition startswith (p s : string) : bool := String.prefix p s.

(** [s.split(d)] for a one-character separator. *)
Fixpoint split_on (d : ascii) (s : string) : list string :=
  match s with
  | EmptyString => [EmptyString]
  | String c s' =>
      if Ascii.eqb c d then EmptyString :: split_on d s'
      else match split_on d s' with
           | h :: t => String c h :: t
           | [] => [String c EmptyString]
           end
  end.

(** [s.split(d, 1)] when [d in s]: the text before and after the first [d]. *)
Fixpoint split1 (d : ascii) (s : string) : option (string * string) :=
  match s with
  | EmptyString => None
  | String c s' =>
      if Ascii.eqb c d then Some (EmptyString, s')
      else match split1 d s' with
           | Some (k, v) => Some (String c k, v)
           | None => None
           end
  end.

Fixpoint drop (n : nat) (s : string) : string :=
  match n, s with
  | O, _ => s
  | S n', String _ s' => drop n' s'
  | S _, EmptyString => EmptyString
  end.

(** [s.replace(old, new)] for a non-empty [old]: occurrences are replaced from
    left to right without overlap.  [fuel] bounds the number of steps; the
    length of [s] plus one is enough. *)
Fixpoint replace_fuel (fuel : nat) (old new s : string) : string :=
  match fuel with
  | O => s
  | S f =>
      match s with
      | EmptyString => EmptyString
      | String c s' =>
          if String.prefix old s
          then new +++ replace_fuel f old new (drop (String.length old) s)
          else String c (replace_fuel f old new s')
      end
  end.

Fixpoint interleave (new s : string) : string :=
  match s with
  | EmptyString => EmptyString
  | String c s' => String c (new +++ interleave new s')
  end.

Definition replace (old new s : string) : string :=
  if is_empty old then new +++ interleave new s
  else replace_fuel (S (String.length s)) old new s.

(** [str(n)] for an integer. *)
Definition of_Z (z : Z) : string := NilZero.string_of_int (Z.to_int z).

(** Substring test, used to tell generated script lines apart. *)
Fixpoint substringb (m t : string) : bool :=
  String.prefix m t ||
  match t with
  | EmptyString => false
  | String _ t' => substringb m t'
  end.

End PyStr.

(** ** Insertion-ordered dictionaries *)

Module PyDict.

Definition t (V : Type) : Type := list (string * V).

Section Ops.
Context {V : Type}.

Fixpoint get (k : string) (d : t V) : option V :=
  match d with
  | [] => None
  | (k', v) :: d' => if String.eqb k k' then Some v else get k d'
  end.

Definition mem (k : string) (d : t V) : bool :=
  match get k d with Some _ => true | None => false end.

(** [d[k] = v]: an existing key keeps its position, a new key goes last. *)
Fixpoint set (k : string) (v : V) (d : t V) : t V :=
  match d with
  | [] => [(k, v)]
  | (k', v') :: d' =>
      if String.eqb k k' then (k, v) :: d' else (k', v') :: set k v d'
  end.

(** [d.update(e)], and [dict(pairs)] / a dict comprehension over pairs. *)
Definition update (d e : list (string * V)) : t V :=
  fold_left (fun acc kv => set (fst kv) (snd kv) acc) e d.

Definition of_pairs (l : list (string * V)) : t V := update [] l.

Definition keys (d : t V) : list string := map fst d.
Definition values (d : t V) : list V := map snd d.

End Ops.

Definition map_values {V W : Type} (f : V -> W) (d : t V) : t W :=
  map (fun kv => (fst kv, f (snd kv))) d.

End PyDict.

(** ** Cell values, JSON values and the library interface *)

(** What [cell.value] holds: nothing, text, or an integer. *)
Inductive Value : Type :=
| VNone
| VStr (s : string)
| VInt (z : Z).

(** [str(v)] *)
Definition py_str (v : Value) : string :=
  match v with
  | VNone => "None"
  | VStr s => s
  | VInt z => PyStr.of_Z z
  end.

(** Truth value of [v], as in [if v:] and [v or w]. *)
Definition truthy (v : Value) : bool :=
  match v with
  | VNone => false
  | VStr s => negb (PyStr.is_empty s)
  | VInt z => negb (z =? 0)%Z
  end.

(** [v not in (None, "")] *)
Definition not_blank (v : Value) : bool :=
  match v with
  | VNone => false
  | VStr s => negb (PyStr.is_empty s)
  | VInt _ => true
  end.

(** [a or b] *)
Definition py_or (a b : Value) : Value := if truthy a then a else b.

(** Values produced by [json.loads].  A float is carried by its [repr]. *)
#[local] Set Warnings "-register-all".
Inductive JValue : Type :=
| JNull
| JBool (b : bool)
| JInt (z : Z)
| JFloat (repr : string)
| JStr (s : string)
| JArr (items : list JValue)
| JObj (members : list (string * JValue)).

(** The six components of [urllib.parse.ParseResult]. *)
Record ParseResult : Type := mkParseResult {
  scheme : string;
  netloc : string;
  path : string;
  params : string;
  query : string;
  fragment : string
}.

(** Functions of the Python standard library used by the generator.  [None]
    stands for a raised exception.  [urlparse] is taken as total: a URL whose
    bracketed host it refuses is outside the model. *)
Class PyLib : Type := {
  json_loads : string -> option JValue;
  (** [str(v)] for a JSON value that is not itself a [str] *)
  json_repr : JValue -> string;
  (** [json.dumps(v, ensure_ascii=False)] *)
  json_dumps : JValue -> string;
  (** [int(s)] *)
  py_int : string -> option Z;
  urlparse : string -> ParseResult;
  urlunparse : ParseResult -> string;
  parse_qsl : string -> list (string * string);
  urlencode : list (string * string) -> string
}.

(** [str(v)] for a value held in a parsed mapping. *)
Definition jstr `{PyLib} (v : JValue) : string :=
  match v with
  | JStr s => s
  | _ => json_repr v
  end.

(** [isinstance(obj, dict)], with the members read as a dict: a repeated key
    keeps its first position and its last value. *)
Definition as_dict (v : JValue) : option (PyDict.t JValue) :=
  match v with
  | JObj members => Some (PyDict.of_pairs members)
  | _ => None
  end.

(** ** Schema resolver *)

Definition SYNONYMS : PyDict.t (list string) :=
  [ ("name", ["name"; "testname"; "case"; "title"; "apiname"; "api name"; "testcasename"]);
    ("method", ["method"; "httpmethod"; "verb"; "http method"]);
    ("url", ["url"; "fullurl"; "requesturl"]);
    ("base_url", ["baseurl"; "base_url"; "host"]);
    ("path", ["path"; "endpoint"; "route"; "uri"]);
    ("headers", ["headers"; "requestheaders"]);
    ("payload", ["payload"; "body"; "requestbody"; "data"]);
    ("expected_status", ["expectedstatus"; "expected_status"; "status"; "expected"; "expectedcode"; "code"]);
    ("path_params", ["pathparams"; "path_parameters"; "path_param"; "routeparams"]);
    ("query_params", ["queryparams"; "query_parameters"; "query"; "params"]);
    ("folder", ["folder"; "group"; "suite"; "collection"; "module"]);
    ("auth", ["auth"; "authorization"; "token"]);
    ("assertions", ["expectedresponseassertions"; "responseassertions"; "assertions"; "expected_response_assertions"]);
    ("id", ["id"; "testcaseid"; "testcase_id"; "test_id"; "tcid"]) ].

(** [_norm] (line 27) *)
Definition _norm (v : Value) : string :=
  match v with
  | VNone => ""
  | _ => PyStr.lower (PyStr.strip (py_str v))
  end.

(** [enumerate(l)] from a start index. *)
Fixpoint enumerate {A : Type} (start : nat) (l : list A) : list (nat * A) :=
  match l with
  | [] => []
  | x :: l' => (start, x) :: enumerate (S start) l'
  end.

(** [_build_header_map] (lines 31-33), on the values of the header cells: a
    header that occurs twice keeps the index of its last column. *)
Definition _build_header_map (header_values : list Value) : PyDict.t nat :=
  PyDict.of_pairs
    (map (fun p => (snd p, fst p))
       (filter (fun p => negb (PyStr.is_empty (snd p)))
          (enumerate 0 (map _norm header_values)))).

Fixpoint first_some {A B : Type} (f : A -> option B) (l : list A) : option B :=
  match l with
  | [] => None
  | x :: l' => match f x with Some y => Some y | None => first_some f l' end
  end.

Definition synonyms_of (logical : string) : list string :=
  match PyDict.get logical SYNONYMS with
  | Some syns => syns
  | None => [logical]
  end.

(** [_find_idx] (lines 36-42) *)
Definition _find_idx (header_to_idx : PyDict.t nat) (logical_keys : list string) : option nat :=
  first_some
    (fun logical =>
       first_some (fun syn => PyDict.get (_norm (VStr syn)) header_to_idx)
         (synonyms_of logical))
    logical_keys.

(** ** Parameter parsing *)

Section Parsing.
Context `{PyLib}.

Definition kv_pairs (sep : ascii) (parts : list string) : list (string * JValue) :=
  flat_map
    (fun part =>
       match PyStr.split1 sep part with
       | Some (k, v) => [(PyStr.strip k, JStr (PyStr.strip v))]
       | None => []
       end)
    parts.

Definition split_parts (s : string) (parts : list string) (d : ascii) : list string :=
  if PyStr.contains_char d s then flat_map (PyStr.split_on d) parts else parts.

Definition newline : ascii := ascii_of_nat 10.

(** [_parse_kv_text] (lines 45-74) *)
Definition _parse_kv_text (text : Value) : PyDict.t JValue :=
  if negb (truthy text) then []
  else
    let s := PyStr.strip (py_str text) in
    if PyStr.is_empty s then []
    else
      match match json_loads s with Some obj => as_dict obj | None => None end with
      | Some d => d
      | None =>
          if PyStr.contains_char "&" s && PyStr.contains_char "=" s
          then PyDict.of_pairs (kv_pairs "=" (PyStr.split_on "&" s))
          else
            let parts := fold_left (split_parts s) [";"%char; newline; ","%char] [s] in
            PyDict.of_pairs (kv_pairs ":" parts)
      end.

(** [_safe_int] (lines 77-83) *)
Definition _safe_int (value : Value) : option Z :=
  match value with
  | VNone => None
  | _ =>
      let s := PyStr.strip (py_str value) in
      if PyStr.is_empty s then None
      else py_int (hd "" (PyStr.split_on "." s))
  end.

End Parsing.

(** A cell: its value and, once the reconciler has styled it, its fill. *)
Inductive Fill : Type := GREEN | RED.

Record Cell : Type := mkCell {
  value : Value;
  fill : option Fill
}.

Definition blank_cell : Cell := {| value := VNone; fill := None |}.

(** [_get_cell(row, idx)] (lines 86-90); openpyxl yields rows of the sheet's full width, so
    a position past the stored cells of a row is an empty cell. *)
Definition _get_cell (row : list Cell) (idx : option nat) : Value :=
  match idx with
  | None => VNone
  | Some i => value (nth i row blank_cell)
  end.

(** ** Assertion compiler *)

Section Generator.
Context `{PyLib}.

Definition backslash : string := String (ascii_of_nat 92) EmptyString.

(** [_escape_js_string] (lines 93-94) *)
Definition _escape_js_string (v : string) : string :=
  PyStr.replace "'" (backslash +++ "'")
    (PyStr.replace backslash (backslash +++ backslash) v).

Definition _js_value_literal (v : JValue) : string := json_dumps v.

Definition json_check_line : string := "pm.test('Response is valid JSON', function () {".

Definition null_check_line : string :=
  "    pm.expect(jsonData, 'Response JSON').to.not.be.null;".

(** The nine lines every call of [_build_assertion_tests] starts with. *)
Definition preamble : list string :=
  [ "let jsonData = null;";
    "try {";
    "    jsonData = pm.response.json();";
    "} catch (e) {";
    "    jsonData = null;";
    "}";
    json_check_line;
    null_check_line;
    "});" ].

(** One [script_lines.extend([...])] block of the operator chain. *)
Definition test_block (title value_expr expectation : string) : list string :=
  [ "pm.test('" +++ title +++ "', function () {";
    null_check_line;
    "    pm.expect(" +++ value_expr +++ ")" +++ expectation;
    "});" ].

Definition op_in (op : string) (names : list string) : bool :=
  existsb (String.eqb op) names.

(** The operator chain of lines 120-198 for one (operator, expected value)
    of a field. *)
Definition condition_tests (field value_expr op : string) (expected : JValue) : list string :=
  let op_lower := PyStr.lower op in
  let shown := jstr expected in
  let expected_literal := _js_value_literal expected in
  if op_in op_lower ["equals"; "equal"; "eq"; "=="] then
    test_block (field +++ " equals " +++ shown) value_expr
      (".to.eql(" +++ expected_literal +++ ");")
  else if op_in op_lower ["notequals"; "not_equals"; "!="; "ne"] then
    test_block (field +++ " not equals " +++ shown) value_expr
      (".to.not.eql(" +++ expected_literal +++ ");")
  else if op_in op_lower ["notempty"; "not_empty"] then
    test_block (field +++ " is not empty") value_expr ".to.not.be.empty;"
  else if op_in op_lower ["greaterthanorequal"; "greater_than_or_equal"; "gte"] then
    test_block (field +++ " >= " +++ shown) value_expr
      (".to.be.at.least(" +++ expected_literal +++ ");")
  else if op_in op_lower ["greaterthan"; "greater_than"; "gt"] then
    test_block (field +++ " > " +++ shown) value_expr
      (".to.be.above(" +++ expected_literal +++ ");")
  else if op_in op_lower ["lessthanorequal"; "less_than_or_equal"; "lte"] then
    test_block (field +++ " <= " +++ shown) value_expr
      (".to.be.at.most(" +++ expected_literal +++ ");")
  else if op_in op_lower ["lessthan"; "less_than"; "lt"] then
    test_block (field +++ " < " +++ shown) value_expr
      (".to.be.below(" +++ expected_literal +++ ");")
  else if op_in op_lower ["contains"; "includes"] then
    test_block (field +++ " contains " +++ shown) value_expr
      (".to.include(" +++ expected_literal +++ ");")
  else if op_in op_lower ["true"; "istrue"] then
    test_block (field +++ " is true") value_expr ".to.be.true;"
  else if op_in op_lower ["false"; "isfalse"] then
    test_block (field +++ " is false") value_expr ".to.be.false;"
  else if op_in op_lower ["exists"] then
    test_block (field +++ " exists") value_expr ".to.not.be.undefined;"
  else [].

(** The body of the loop over [assertions_dict.items()] (lines 114-198):
    nothing when the conditions of a field are not a mapping. *)
Definition field_tests (entry : string * JValue) : list string :=
  let (field, conditions) := entry in
  match as_dict conditions with
  | None => []
  | Some conds =>
      let field_path := _escape_js_string field in
      let value_expr := "_.get(jsonData, '" +++ field_path +++ "')" in
      flat_map (fun c => condition_tests field value_expr (fst c) (snd c)) conds
  end.

(** [_build_assertion_tests] (lines 101-199) *)
Definition _build_assertion_tests (assertions_dict : PyDict.t JValue) : list string :=
  preamble ++ flat_map field_tests assertions_dict.

(** The three lines of the status assertion (lines 451-455). *)
Definition status_lines (expected_status : Z) : list string :=
  let n := PyStr.of_Z expected_status in
  [ "pm.test('Status code is " +++ n +++ "', function () {";
    "    pm.response.to.have.status(" +++ n +++ ");";
    "});" ].

(** [script_lines] as assembled in the row loop (lines 449-458). *)
Definition build_script (expected_status : option Z) (assertions_dict : PyDict.t JValue) : list string :=
  (match expected_status with
   | Some n => status_lines n
   | None => []
   end)
  ++
  (match assertions_dict with
   | [] => []
   | _ :: _ => _build_assertion_tests assertions_dict
   end).

End Generator.

(** ** Row normalizer and collection assembler *)

(** Column indices resolved from a sheet's header row. *)
Record Columns : Type := mkColumns {
  idx_name : option nat;
  idx_method : option nat;
  idx_url : option nat;
  idx_base : option nat;
  idx_path : option nat;
  idx_headers : option nat;
  idx_payload : option nat;
  idx_expected : option nat;
  idx_path_params : option nat;
  idx_query_params : option nat;
  idx_folder : option nat;
  idx_assertions : option nat;
  idx_testcase_name : option nat
}.

Definition resolve_columns (header_to_idx : PyDict.t nat) : Columns :=
  {| idx_name := _find_idx header_to_idx ["name"];
     idx_method := _find_idx header_to_idx ["method"];
     idx_url := _find_idx header_to_idx ["url"];
     idx_base := _find_idx header_to_idx ["base_url"];
     idx_path := _find_idx header_to_idx ["path"];
     idx_headers := _find_idx header_to_idx ["headers"];
     idx_payload := _find_idx header_to_idx ["payload"];
     idx_expected := _find_idx header_to_idx ["expected_status"];
     idx_path_params := _find_idx header_to_idx ["path_params"];
     idx_query_params := _find_idx header_to_idx ["query_params"];
     idx_folder := _find_idx header_to_idx ["folder"];
     idx_assertions := _find_idx header_to_idx ["assertions"];
     idx_testcase_name := _find_idx header_to_idx ["testcasename"] |}.

(** The carried values [last_*] of the row loop. *)
Record Sticky : Type := mkSticky {
  last_method : option string;
  last_path : option string;
  last_raw_url : option string;
  last_base_url : option string;
  last_folder : Value;
  last_name : Value
}.

Definition initial_sticky (default_folder_name : string) : Sticky :=
  {| last_method := None;
     last_path := None;
     last_raw_url := None;
     last_base_url := None;
     last_folder := VStr default_folder_name;
     last_name := VNone |}.

(** The [url] object of a request; a component that is absent is omitted. *)
Record UrlDict : Type := mkUrlDict {
  raw : string;
  protocol : option string;
  host : option (list string);
  url_path : option (list string);
  url_query : option (list (string * string))
}.

(** A compiled request.  Headers, body and auth are not modelled: no property
    below reads them.  [origin] is ghost state: the (sheet, row) the request
    was compiled from; it is not part of the emitted document. *)
Record Item : Type := mkItem {
  item_name : string;
  item_method : string;
  item_url : UrlDict;
  item_event : option (list string);
  origin : string * nat
}.

Record Folder : Type := mkFolder {
  folder_name : string;
  folder_items : list Item
}.

(** Truth value of an optional string ([None] and the empty string are
    false). *)
Definition some_text (o : option string) : bool :=
  match o with
  | Some s => negb (PyStr.is_empty s)
  | None => false
  end.

(** A sticky text cell: the cell when it is not blank, else the carried
    value.  Returns the value to use and the new carried value. *)
Definition carry_text (cell : Value) (last : option string) : option string * option string :=
  if not_blank cell then (Some (py_str cell), Some (py_str cell))
  else (last, last).

(** [str(o)] for an optional string. *)
Definition text_of (o : option string) : string :=
  match o with
  | Some s => s
  | None => "None"
  end.

(** The precedence chain that determines [url] (lines 341-350). *)
Definition resolve_url (base_url_override raw_url_value base_url_value path_value : option string)
  : option string :=
  if some_text base_url_override && some_text path_value then
    Some (PyStr.rstrip_slash (text_of base_url_override) +++ "/"
            +++ PyStr.lstrip_slash (text_of path_value))
  else if some_text raw_url_value
          && negb (PyStr.is_empty (PyStr.strip (text_of raw_url_value))) then
    Some (PyStr.strip (text_of raw_url_value))
  else if some_text base_url_value && some_text path_value then
    Some (PyStr.rstrip_slash (text_of base_url_value) +++ "/"
            +++ PyStr.lstrip_slash (text_of path_value))
  else if some_text path_value
          && PyStr.startswith "http" (PyStr.lower (text_of path_value)) then
    Some (text_of path_value)
  else None.

(** Lines 299-305: the name of a row. *)
Definition pick_name (name_raw testcase_name_raw last : Value) : Value :=
  let name := if not_blank name_raw then name_raw else VNone in
  let name := if negb (truthy name) && not_blank testcase_name_raw
              then testcase_name_raw else name in
  let name := if negb (truthy name) && not_blank name_raw then name_raw else name in
  if negb (truthy name)
  then py_or testcase_name_raw (py_or last (VStr "Unnamed"))
  else name.

Definition row_is_blank (row : list Cell) : bool :=
  forallb (fun c => PyStr.is_empty (_norm (value c))) row.

(** The sticky values one row uses. *)
Record RowValues : Type := mkRowValues {
  rv_name : Value;
  rv_method : string;
  rv_raw_url : option string;
  rv_base_url : option string;
  rv_path : option string
}.

Section RowLoop.
Context `{PyLib}.

(** Lines 375-382 *)
Definition parse_path_params (path_params_raw : Value) : PyDict.t JValue :=
  if truthy path_params_raw then
    match json_loads (py_str path_params_raw) with
    | Some obj => match as_dict obj with Some d => d | None => [] end
    | None => _parse_kv_text path_params_raw
    end
  else [].

(** Lines 383-384: every placeholder of a parameter is replaced, in the
    order of the mapping. *)
Definition substitute_path_params (path_params : PyDict.t JValue) (url : string) : string :=
  fold_left
    (fun u kv => PyStr.replace ("{" +++ fst kv +++ "}") (jstr (snd kv)) u)
    path_params url.

(** [combined_query] (lines 388-389): the pairs of the URL's query as a
    dict, then [update] with the row's parameters rendered by [str]. *)
Definition merge_query (existing : list (string * string)) (query_params : PyDict.t JValue)
  : PyDict.t string :=
  PyDict.update (PyDict.of_pairs existing) (PyDict.map_values jstr query_params).

Definition nonempty_opt (s : string) : option string :=
  if PyStr.is_empty s then None else Some s.

(** Lines 387-393 and 415-425: the merged query is serialized back into the
    URL, and the request's [url] object is read off the result. *)
Definition build_url_dict (url : string) (query_params : PyDict.t JValue) : UrlDict :=
  let parsed_url := urlparse url in
  let combined_query := merge_query (parse_qsl (query parsed_url)) query_params in
  let raw_url :=
    urlunparse
      {| scheme := scheme parsed_url;
         netloc := netloc parsed_url;
         path := path parsed_url;
         params := params parsed_url;
         query := urlencode combined_query;
         fragment := fragment parsed_url |} in
  let parsed_final_url := urlparse raw_url in
  {| raw := raw_url;
     protocol := nonempty_opt (scheme parsed_final_url);
     host := option_map (fun n => [n]) (nonempty_opt (netloc parsed_final_url));
     url_path :=
       option_map
         (fun p => filter (fun seg => negb (PyStr.is_empty seg)) (PyStr.split_on "/" p))
         (nonempty_opt (path parsed_final_url));
     url_query :=
       match combined_query with
       | [] => None
       | _ :: _ => Some combined_query
       end |}.

(** Lines 406-413 *)
Definition parse_assertions (assertions_raw : Value) : PyDict.t JValue :=
  if truthy assertions_raw then
    match json_loads (py_str assertions_raw) with
    | Some obj => match as_dict obj with Some d => d | None => [] end
    | None => []
    end
  else [].

Variable base_url_override : option string.
Variable cols : Columns.
(** [sheet.title], which is also [default_folder_name] *)
Variable sheet_title : string.

(** Lines 297-338: the sticky fields of a row that is not skipped.  Returns
    the carried values after the row (the folder is not touched here) and the
    values the row uses. *)
Definition normalize_row (st : Sticky) (row : list Cell) : Sticky * RowValues :=
  let name :=
    pick_name (_get_cell row (idx_name cols)) (_get_cell row (idx_testcase_name cols))
      (last_name st) in
  let method_val := _get_cell row (idx_method cols) in
  let method :=
    if not_blank method_val then py_str method_val
    else if some_text (last_method st) then text_of (last_method st) else "GET" in
  let new_method :=
    if not_blank method_val then Some (py_str method_val) else last_method st in
  let (raw_url_value, new_raw_url) :=
    carry_text (_get_cell row (idx_url cols)) (last_raw_url st) in
  let (base_url_value, new_base_url) :=
    carry_text (_get_cell row (idx_base cols)) (last_base_url st) in
  let (path_value, new_path) :=
    carry_text (_get_cell row (idx_path cols)) (last_path st) in
  ({| last_method := new_method;
      last_path := new_path;
      last_raw_url := new_raw_url;
      last_base_url := new_base_url;
      last_folder := last_folder st;
      last_name := name |},
   {| rv_name := name;
      rv_method := PyStr.upper method;
      rv_raw_url := raw_url_value;
      rv_base_url := base_url_value;
      rv_path := path_value |}).

(** Lines 360-365: the folder of a row that resolved a URL, and the carried
    folder after it. *)
Definition pick_folder (folder_candidate last : Value) : Value * Value :=
  if not_blank folder_candidate then (folder_candidate, folder_candidate)
  else (py_or last (VStr sheet_title), last).

(** One iteration of the row loop (lines 293-475): the new carried values
    and, unless the row is skipped or dropped, the folder key, the folder's
    display name and the compiled request. *)
Definition process_row (st : Sticky) (row_num : nat) (row : list Cell)
  : Sticky * option (string * string * Item) :=
  if row_is_blank row then (st, None)
  else
    let (st1, rv) := normalize_row st row in
    match resolve_url base_url_override (rv_raw_url rv) (rv_base_url rv) (rv_path rv) with
    | None => (st1, None)
    | Some url =>
        if PyStr.is_empty url then (st1, None)
        else
          let (folder, new_folder) :=
            pick_folder (_get_cell row (idx_folder cols)) (last_folder st1) in
          let url := substitute_path_params
                       (parse_path_params (_get_cell row (idx_path_params cols))) url in
          let query_params := _parse_kv_text (_get_cell row (idx_query_params cols)) in
          let expected_status := _safe_int (_get_cell row (idx_expected cols)) in
          let assertions_dict := parse_assertions (_get_cell row (idx_assertions cols)) in
          let script_lines := build_script expected_status assertions_dict in
          let item :=
            {| item_name := py_str (rv_name rv);
               item_method := rv_method rv;
               item_url := build_url_dict url query_params;
               item_event := match script_lines with [] => None | _ :: _ => Some script_lines end;
               origin := (sheet_title, row_num) |} in
          let folder_key :=
            if PyStr.is_empty (_norm folder) then _norm (VStr sheet_title) else _norm folder in
          ({| last_method := last_method st1;
              last_path := last_path st1;
              last_raw_url := last_raw_url st1;
              last_base_url := last_base_url st1;
              last_folder := new_folder;
              last_name := last_name st1 |},
           Some (folder_key, py_str (py_or folder (VStr sheet_title)), item))
    end.

End RowLoop.

(** A worksheet: [grid] holds the rows from row 1 (the header row); a cell
    that was never written is absent from its row's list and reads as
    [blank_cell]. *)
Record Worksheet : Type := mkWorksheet {
  title : string;
  sheet_state : string;
  grid : list (list Cell)
}.

(** [next(sheet.iter_rows(min_row=1, max_row=1))] *)
Definition first_row (g : list (list Cell)) : list Cell := hd [] g.

(** [enumerate(sheet.iter_rows(min_row=2), start=2)] *)
Definition data_rows (g : list (list Cell)) : list (nat * list Cell) :=
  enumerate 2 (tl g).

(** [folders] and [row_links] of the generator. *)
Record GenState : Type := mkGenState {
  folders : PyDict.t Folder;
  row_links : list (string * nat)
}.

(** Lines 470-473: create the folder on first use, then append the item. *)
Definition add_item (folder_key display : string) (item : Item) (fs : PyDict.t Folder)
  : PyDict.t Folder :=
  let fs1 :=
    if PyDict.mem folder_key fs then fs
    else PyDict.set folder_key {| folder_name := display; folder_items := [] |} fs in
  match PyDict.get folder_key fs1 with
  | Some f =>
      PyDict.set folder_key
        {| folder_name := folder_name f; folder_items := folder_items f ++ [item] |} fs1
  | None => fs1
  end.

Section Assembler.
Context `{PyLib}.
Variable base_url_override : option string.

(** One iteration with its effect on [folders] and [row_links]
    (lines 470-475). *)
Definition row_step (cols : Columns) (sheet_title : string)
    (acc : Sticky * GenState) (r : nat * list Cell) : Sticky * GenState :=
  let (st, gs) := acc in
  match process_row base_url_override cols sheet_title st (fst r) (snd r) with
  | (st', None) => (st', gs)
  | (st', Some (folder_key, display, item)) =>
      (st',
       {| folders := add_item folder_key display item (folders gs);
          row_links := row_links gs ++ [(sheet_title, fst r)] |})
  end.

(** The body of the first loop over [wb.worksheets] (lines 259-475). *)
Definition process_sheet (gs : GenState) (sheet : Worksheet) : GenState :=
  if negb (String.eqb (sheet_state sheet) "visible") then gs
  else
    let header_to_idx := _build_header_map (map value (first_row (grid sheet))) in
    match header_to_idx with
    | [] => gs
    | _ :: _ =>
        snd (fold_left (row_step (resolve_columns header_to_idx) (title sheet))
               (data_rows (grid sheet))
               (initial_sticky (title sheet), gs))
    end.

(** The first loop over the worksheets, from empty [folders] and
    [row_links]. *)
Definition compile_workbook (wb : list Worksheet) : GenState :=
  fold_left process_sheet wb {| folders := []; row_links := [] |}.

End Assembler.

(** [collection["item"] = list(folders.values())] *)
Definition collection_items (gs : GenState) : list Folder := PyDict.values (folders gs).

(** The requests of a collection in the order a runner walks them: folder by
    folder, each folder's requests in append order. *)
Definition flat_requests (items : list Folder) : list Item := flat_map folder_items items.

(** ** Worksheet operations used by the reconciler *)

Definition Grid : Type := list (list Cell).

Definition max_row (g : Grid) : nat := Nat.max 1 (List.length g).

Definition max_column (g : Grid) : nat := Nat.max 1 (list_max (map (@List.length Cell) g)).

(** The cell at a 1-based position. *)
Definition cell_at (g : Grid) (row column : nat) : Cell :=
  nth (column - 1) (nth (row - 1) g []) blank_cell.

Fixpoint update_nth {A : Type} (n : nat) (f : A -> A) (l : list A) : list A :=
  match l, n with
  | [], _ => []
  | x :: l', O => f x :: l'
  | x :: l', S n' => x :: update_nth n' f l'
  end.

Definition pad {A : Type} (n : nat) (d : A) (l : list A) : list A :=
  l ++ repeat d (n - List.length l).

(** [sheet.cell(row, column)] followed by an assignment to the cell: cells
    missing up to that position are created empty. *)
Definition update_cell (row column : nat) (f : Cell -> Cell) (g : Grid) : Grid :=
  update_nth (row - 1)
    (fun r => update_nth (column - 1) f (pad column blank_cell r))
    (pad row [] g).

Definition set_value (row column : nat) (v : Value) : Grid -> Grid :=
  update_cell row column (fun c => {| value := v; fill := fill c |}).

Definition set_fill (row column : nat) (f : Fill) : Grid -> Grid :=
  update_cell row column (fun c => {| value := value c; fill := Some f |}).

(** [sheet.insert_cols(idx, amount)]: in every row the cells from column
    [idx] on move [amount] columns to the right. *)
Definition insert_cols (idx amount : nat) (g : Grid) : Grid :=
  map (fun r =>
         if (idx <=? List.length r)%nat
         then firstn (idx - 1) r ++ repeat blank_cell amount ++ skipn (idx - 1) r
         else r)
      g.

Fixpoint index_of (x : string) (l : list string) : option nat :=
  match l with
  | [] => None
  | y :: l' => if String.eqb x y then Some 0 else option_map S (index_of x l')
  end.

(** The loops over [SYNONYMS["expected_status"]] and [SYNONYMS["id"]]
    (lines 511-523): the 1-based column of the first synonym that occurs in [headers_norm]. *)
Definition find_synonym_col (logical : string) (headers_norm : list string) : option nat :=
  first_some
    (fun syn => option_map S (index_of (_norm (VStr syn)) headers_norm))
    (match PyDict.get logical SYNONYMS with Some syns => syns | None => [] end).

Definition value_is (name : string) (v : Value) : bool :=
  match v with
  | VStr s => String.eqb s name
  | _ => false
  end.

Fixpoint find_from (name : string) (col_idx : nat) (row : list Cell) : option nat :=
  match row with
  | [] => None
  | c :: row' => if value_is name (value c) then Some col_idx else find_from name (S col_idx) row'
  end.

(** The local function [find_col] (lines 526-534). *)
Definition find_col (g : Grid) (name : string) : option nat :=
  find_from name 1 (first_row g).

(** Lines 536-569: resolve or insert the two result columns.  Returns the
    sheet and the columns [actual_idx] and [status_idx]. *)
Definition place_columns (g : Grid) (expected_idx : option nat) : Grid * nat * nat :=
  let actual_idx := find_col g "ActualStatus" in
  let status_idx := find_col g "Status" in
  match expected_idx with
  | Some e =>
      match actual_idx, status_idx with
      | None, None =>
          let g := insert_cols (e + 1) 2 g in
          let g := set_value 1 (e + 1) (VStr "ActualStatus") g in
          let g := set_value 1 (e + 2) (VStr "Status") g in
          (g, e + 1, e + 2)
      | _, _ =>
          let '(g1, a1, s1) :=
            match actual_idx with
            | None =>
                let g' := set_value 1 (e + 1) (VStr "ActualStatus") (insert_cols (e + 1) 1 g) in
                (g', e + 1, find_col g' "Status")
            | Some a => (g, a, status_idx)
            end in
          match s1 with
          | None =>
              let insert_at := (if a1 =? 0 then e else a1)%nat + 1 in
              (set_value 1 insert_at (VStr "Status") (insert_cols insert_at 1 g1), a1, insert_at)
          | Some s => (g1, a1, s)
          end
      end
  | None =>
      let max_col := max_column g in
      let '(g1, a1, max_col1) :=
        match actual_idx with
        | None => (set_value 1 (max_col + 1) (VStr "ActualStatus") g, max_col + 1, max_col + 1)
        | Some a => (g, a, max_col)
        end in
      match status_idx with
      | None => (set_value 1 (max_col1 + 1) (VStr "Status") g1, a1, max_col1 + 1)
      | Some s => (g1, a1, s)
      end
  end.

(** ** Results reconciler *)

(** One assertion outcome of an execution record: its name and its error
    ([None] for JSON [null]). *)
Record Assertion : Type := mkAssertion {
  assertion : string;
  error : option string
}.

(** An execution record of the runner: [item.name], [response.code] and
    [assertions] (a missing key reads as absent or empty). *)
Record Execution : Type := mkExecution {
  exec_name : option string;
  response_code : option Z;
  assertions : list Assertion
}.

Inductive Verdict : Type := PASSED | FAILED.

Definition verdict_text (v : Verdict) : string :=
  match v with
  | PASSED => "PASSED"
  | FAILED => "FAILED"
  end.

(** Lines 581-585: [FAILED] at the first assertion with an error. *)
Fixpoint verdict_of (l : list Assertion) : Verdict :=
  match l with
  | [] => PASSED
  | a :: l' =>
      match error a with
      | Some _ => FAILED
      | None => verdict_of l'
      end
  end.

Definition fill_of (v : Verdict) : Fill :=
  match v with
  | PASSED => GREEN
  | FAILED => RED
  end.

(** [(sheet.title, row_num) in row_links] *)
Definition linked (links : list (string * nat)) (sheet_title : string) (row_num : nat) : bool :=
  existsb (fun l => String.eqb (fst l) sheet_title && (snd l =? row_num)%nat) links.

Definition status_value (code : option Z) : Value :=
  match code with
  | Some z => VInt z
  | None => VNone
  end.

(** Lines 587-590: the three writes for one linked row. *)
Definition write_result (actual_idx status_idx row_num : nat) (e : Execution) (g : Grid) : Grid :=
  let result := verdict_of (assertions e) in
  let g := set_value row_num actual_idx (status_value (response_code e)) g in
  let g := set_value row_num status_idx (VStr (verdict_text result)) g in
  set_fill row_num status_idx (fill_of result) g.

(** Lines 592-602: what is appended to [failed_test_case_ids] for one row.
    The cell is read at [id_idx] in the sheet as it is after the writes. *)
Definition failure_id (id_idx : option nat) (row_num : nat) (e : Execution) (g : Grid)
  : list string :=
  match verdict_of (assertions e) with
  | PASSED => []
  | FAILED =>
      let recorded :=
        match id_idx with
        | Some i =>
            let id_val := value (cell_at g row_num i) in
            if not_blank id_val then Some (py_str id_val) else None
        | None => None
        end in
      match recorded with
      | Some s => [s]
      | None =>
          match exec_name e with
          | Some n => if PyStr.is_empty n then [] else [n]
          | None => []
          end
      end
  end.

Section RowWrites.
Variable links : list (string * nat).
Variable sheet_title : string.
Variables actual_idx status_idx : nat.
Variable id_idx : option nat.

(** The loop over [range(2, sheet.max_row + 1)] (lines 572-602).  [exec_iter] is the list of
    executions not yet consumed; [next(exec_iter)] on the empty list raises
    [StopIteration], which the loop catches and answers with [break]. *)
Fixpoint write_rows (rows : list nat) (g : Grid) (exec_iter : list Execution)
  : Grid * list Execution * list string :=
  match rows with
  | [] => (g, exec_iter, [])
  | row_num :: rest =>
      if negb (linked links sheet_title row_num) then write_rows rest g exec_iter
      else
        match exec_iter with
        | [] => (g, [], [])
        | exec_item :: exec_iter' =>
            let g' := write_result actual_idx status_idx row_num exec_item g in
            let ids := failure_id id_idx row_num exec_item g' in
            let '(g'', it, more) := write_rows rest g' exec_iter' in
            (g'', it, ids ++ more)
        end
  end.

End RowWrites.

(** The body of the second loop over the worksheets (lines 501-602), for a
    visible sheet. *)
Definition reconcile_sheet (links : list (string * nat)) (sheet : Worksheet)
    (exec_iter : list Execution) : Worksheet * list Execution * list string :=
  let headers_norm := map (fun c => _norm (value c)) (first_row (grid sheet)) in
  let expected_idx := find_synonym_col "expected_status" headers_norm in
  let id_idx := find_synonym_col "id" headers_norm in
  let '(g, actual_idx, status_idx) := place_columns (grid sheet) expected_idx in
  let '(g', it, ids) :=
    write_rows links (title sheet) actual_idx status_idx id_idx
      (seq 2 (max_row g - 1)) g exec_iter in
  ({| title := title sheet; sheet_state := sheet_state sheet; grid := g' |}, it, ids).

(** The second loop over [wb.worksheets]: the iterator is shared by all the
    sheets. *)
Fixpoint reconcile (links : list (string * nat)) (wb : list Worksheet)
    (exec_iter : list Execution) : list Worksheet * list string :=
  match wb with
  | [] => ([], [])
  | sheet :: rest =>
      if negb (String.eqb (sheet_state sheet) "visible") then
        let (rest', ids) := reconcile links rest exec_iter in
        (sheet :: rest', ids)
      else
        let '(sheet', it, ids) := reconcile_sheet links sheet exec_iter in
        let (rest', more) := reconcile links rest it in
        (sheet' :: rest', ids ++ more)
  end.

(** ** The runner wrapper and the whole run *)

(** What the external process leaves behind: its exit status and, when it
    wrote one, the executions of [newman_results.json]. *)
Record NewmanRun : Type := mkNewmanRun {
  returncode : Z;
  artifact : option (list Execution)
}.

(** Observable effects, in order.  Printed texts are kept without their
    emoji. *)
Inductive Event : Type :=
| Printed (msg : string)
| CollectionWritten (file : string) (items : list Folder)
| ReportSaved (file : string) (rows : list (option string * Value * Verdict))
| ArtifactRemoved
| ResultsSaved (file : string) (wb : list Worksheet).

Inductive Outcome (A : Type) : Type :=
| Returned (a : A)
| Raised (exn : string).

Arguments Returned {A} a.
Arguments Raised {A} exn.

(** The two shapes of the runner wrapper's return value. *)
Inductive RunnerReturn : Type :=
| ReportOnly (report : option string)
| WithExecutions (report : option string) (executions : list Execution).

(** The verdict loop of the runner's own report (newman_runner.py, lines
    100-107; no [break]). *)
Definition report_verdict (l : list Assertion) : Verdict :=
  fold_left (fun r a => match error a with Some _ => FAILED | None => r end) l PASSED.

(** [run_newman_and_generate_report] (newman_runner.py).  That the command
    itself cannot be started is not modelled. *)
Definition run_newman_and_generate_report (run : NewmanRun) (collection_file : string)
    (report_excel_name : option string) (return_executions keep_json : bool)
  : list Event * Outcome RunnerReturn :=
  let started := [Printed ("Running Newman for collection: " +++ collection_file)] in
  let aborted :=
    negb (returncode run =? 0)%Z
    && match artifact run with None => true | Some _ => false end in
  let ran :=
    if (returncode run =? 0)%Z
    then [Printed "Newman execution completed successfully."]
    else [Printed "Newman completed with test failures - continuing to generate report."] in
  if aborted then
    (started ++ ran ++ [Printed "newman_results.json not found, aborting."],
     Returned (if return_executions then WithExecutions None [] else ReportOnly None))
  else
    match artifact run with
    | None => (started ++ ran, Raised "FileNotFoundError")
    | Some executions =>
        let counted :=
          [Printed ("Total test executions: "
                      +++ PyStr.of_Z (Z.of_nat (List.length executions)))] in
        let report :=
          if some_text report_excel_name then
            [ReportSaved (text_of report_excel_name)
               (map (fun e => (exec_name e, status_value (response_code e),
                               report_verdict (assertions e))) executions);
             Printed ("Excel report generated successfully: " +++ text_of report_excel_name)]
          else [] in
        let cleanup :=
          if keep_json then []
          else [ArtifactRemoved; Printed "Cleaned up temporary JSON file."] in
        (started ++ ran ++ counted ++ report ++ cleanup,
         Returned (if return_executions
                   then WithExecutions report_excel_name executions
                   else ReportOnly report_excel_name))
    end.

Section Run.
Context `{PyLib}.
(** [os.path.splitext] *)
Variable splitext : string -> string * string.
(** The external runner: what it does with the collection it is given. *)
Variable newman : list Folder -> NewmanRun.

(** The whole function (lines 224-610): compile, run, reconcile, save. *)
Definition generate_postman_collection_from_excel (excel_path collection_name : string)
    (base_url_override : option string) (wb : list Worksheet)
  : list Event * Outcome (string * string * list string) :=
  let gs := compile_workbook base_url_override wb in
  let collection_file := collection_name +++ "_postman_collection.json" in
  let written :=
    [CollectionWritten collection_file (collection_items gs);
     Printed ("Generated Postman Collection from Excel: " +++ collection_file)] in
  let (ran, out) :=
    run_newman_and_generate_report (newman (collection_items gs)) collection_file
      None true false in
  match out with
  | Raised exn => (written ++ ran, Raised exn)
  | Returned (ReportOnly _) => (written ++ ran, Raised "TypeError")
  | Returned (WithExecutions _ executions) =>
      let (wb', failed_test_case_ids) := reconcile (row_links gs) wb executions in
      let (root, ext) := splitext excel_path in
      let output_excel_path := root +++ "_results" +++ ext in
      (written ++ ran
         ++ [ResultsSaved output_excel_path wb';
             Printed ("Results written to: " +++ output_excel_path)],
       Returned (collection_file, output_excel_path, failed_test_case_ids))
  end.

End Run.

(** ** An executable instance of the library interface

    Enough of [json], [urllib.parse] and [os.path] to run the generator on
    concrete sheets.  Outside these fragments (surrogate pairs in [\u]
    escapes, the [repr] of floats, bracketed hosts, non-ASCII text in query
    strings) the instance is an approximation; the theorems do not depend on
    it. *)

Module Lib.

Definition dquote : ascii := ascii_of_nat 34.
Definition bslash : ascii := ascii_of_nat 92.
Definition char_in (c : ascii) (s : string) : bool := PyStr.contains_char c s.
Definition is_digit (c : ascii) : bool := char_in c "0123456789".
Definition is_alpha (c : ascii) : bool :=
  char_in c "abcdefghijklmnopqrstuvwxyzABCDEFGHIJKLMNOPQRSTUVWXYZ".
Definition is_json_ws (c : ascii) : bool :=
  let n := nat_of_ascii c in ((n =? 32) || (n =? 9) || (n =? 10) || (n =? 13))%nat.

Definition skip_ws : string -> string := PyStr.lstrip_by is_json_ws.

Fixpoint span (p : ascii -> bool) (s : string) : string * string :=
  match s with
  | EmptyString => (EmptyString, EmptyString)
  | String c s' =>
      if p c then let (a, b) := span p s' in (String c a, b) else (EmptyString, s)
  end.

Definition hex_digit (c : ascii) : option nat :=
  let n := nat_of_ascii c in
  if is_digit c then Some (n - 48)
  else if char_in c "abcdef" then Some (n - 87)
  else if char_in c "ABCDEF" then Some (n - 55)
  else None.

Definition hex_char (n : nat) : ascii := nth n (list_ascii_of_string "0123456789ABCDEF") "0"%char.

(** UTF-8 bytes of a code point of the basic plane. *)
Definition utf8 (cp : nat) : string :=
  if (cp <? 128)%nat then String (ascii_of_nat cp) EmptyString
  else if (cp <? 2048)%nat then
    String (ascii_of_nat (192 + cp / 64)) (String (ascii_of_nat (128 + cp mod 64)) EmptyString)
  else
    String (ascii_of_nat (224 + cp / 4096))
      (String (ascii_of_nat (128 + (cp / 64) mod 64))
         (String (ascii_of_nat (128 + cp mod 64)) EmptyString)).

(** The text of a JSON string literal after its opening quote. *)
Fixpoint parse_string (s : string) : option (string * string) :=
  match s with
  | EmptyString => None
  | String c s' =>
      if Ascii.eqb c dquote then Some (EmptyString, s')
      else if Ascii.eqb c bslash then
        match s' with
        | EmptyString => None
        | String e s'' =>
            let plain (t : string) :=
              match parse_string s'' with
              | Some (text, rest) => Some (t +++ text, rest)
              | None => None
              end in
            match e with
            | "n"%char => plain (String (ascii_of_nat 10) EmptyString)
            | "t"%char => plain (String (ascii_of_nat 9) EmptyString)
            | "r"%char => plain (String (ascii_of_nat 13) EmptyString)
            | "b"%char => plain (String (ascii_of_nat 8) EmptyString)
            | "f"%char => plain (String (ascii_of_nat 12) EmptyString)
            | "/"%char => plain "/"
            | "u"%char =>
                match s'' with
                | String h1 (String h2 (String h3 (String h4 s5))) =>
                    match hex_digit h1, hex_digit h2, hex_digit h3, hex_digit h4,
                          parse_string s5 with
                    | Some a, Some b, Some c', Some d, Some (text, rest) =>
                        Some (utf8 (a * 4096 + b * 256 + c' * 16 + d) +++ text, rest)
                    | _, _, _, _, _ => None
                    end
                | _ => None
                end
            | _ =>
                if Ascii.eqb e dquote then plain (String dquote EmptyString)
                else if Ascii.eqb e bslash then plain (String bslash EmptyString)
                else None
            end
        end
      else if (nat_of_ascii c <? 32)%nat then None
      else
        match parse_string s' with
        | Some (text, rest) => Some (String c text, rest)
        | None => None
        end
  end.

(** [int(s)] for an optional sign followed by decimal digits. *)
Definition py_int (s : string) : option Z :=
  let s := PyStr.strip s in
  let (neg, digits) :=
    match s with
    | String "-"%char r => (true, r)
    | String "+"%char r => (false, r)
    | _ => (false, s)
    end in
  let (ds, rest) := span is_digit digits in
  if PyStr.is_empty ds || negb (PyStr.is_empty rest) then None
  else
    match NilZero.uint_of_string ds with
    | Some u => Some (if neg then Z.opp (Z.of_N (N.of_uint u)) else Z.of_N (N.of_uint u))
    | None => None
    end.

(** A JSON number: an integer, or a float kept as its literal. *)
Definition parse_number (s : string) : option (JValue * string) :=
  let (sign, r) :=
    match s with
    | String "-"%char r => ("-", r)
    | _ => (EmptyString, s)
    end in
  let (int_part, r1) :=
    match r with
    | String "0"%char r' => ("0", r')
    | _ => span is_digit r
    end in
  if PyStr.is_empty int_part then None
  else
    let (frac, r2) :=
      match r1 with
      | String "."%char r' =>
          let (ds, r'') := span is_digit r' in
          if PyStr.is_empty ds then (EmptyString, r1) else ("." +++ ds, r'')
      | _ => (EmptyString, r1)
      end in
    let (expo, r3) :=
      match r2 with
      | String e r' =>
          if char_in e "eE" then
            let (sg, r'') :=
              match r' with
              | String g r''' => if char_in g "+-" then (String g EmptyString, r''') else (EmptyString, r')
              | EmptyString => (EmptyString, r')
              end in
            let (ds, r''') := span is_digit r'' in
            if PyStr.is_empty ds then (EmptyString, r2) else (String e (sg +++ ds), r''')
          else (EmptyString, r2)
      | EmptyString => (EmptyString, r2)
      end in
    if PyStr.is_empty frac && PyStr.is_empty expo then
      match py_int (sign +++ int_part) with
      | Some z => Some (JInt z, r3)
      | None => None
      end
    else Some (JFloat (sign +++ int_part +++ frac +++ expo), r3).

Definition parse_literal (s : string) : option (JValue * string) :=
  let try (word : string) (v : JValue) :=
    if String.prefix word s then Some (v, PyStr.drop (String.length word) s) else None in
  match try "null" JNull, try "true" (JBool true), try "false" (JBool false) with
  | Some r, _, _ => Some r
  | _, Some r, _ => Some r
  | _, _, Some r => Some r
  | _, _, _ =>
      match try "NaN" (JFloat "nan"), try "Infinity" (JFloat "inf"), try "-Infinity" (JFloat "-inf") with
      | Some r, _, _ => Some r
      | _, Some r, _ => Some r
      | _, _, Some r => Some r
      | _, _, _ => parse_number s
      end
  end.

(** The value at the head of [s] (no leading white space) and the rest.
    Every call consumes fuel; twice the length of the text is enough. *)
Fixpoint parse_value (fuel : nat) (s : string) : option (JValue * string) :=
  match fuel with
  | O => None
  | S f =>
      match s with
      | String "{"%char r =>
          match skip_ws r with
          | String "}"%char r' => Some (JObj [], r')
          | r' => parse_members f r' []
          end
      | String "["%char r =>
          match skip_ws r with
          | String "]"%char r' => Some (JArr [], r')
          | r' => parse_elems f r' []
          end
      | String c r =>
          if Ascii.eqb c dquote then
            match parse_string r with
            | Some (text, rest) => Some (JStr text, rest)
            | None => None
            end
          else parse_literal s
      | EmptyString => None
      end
  end
with parse_elems (fuel : nat) (s : string) (acc : list JValue) : option (JValue * string) :=
  match fuel with
  | O => None
  | S f =>
      match parse_value f s with
      | None => None
      | Some (v, r) =>
          match skip_ws r with
          | String ","%char r' => parse_elems f (skip_ws r') (v :: acc)
          | String "]"%char r' => Some (JArr (rev (v :: acc)), r')
          | _ => None
          end
      end
  end
with parse_members (fuel : nat) (s : string) (acc : list (string * JValue))
  : option (JValue * string) :=
  match fuel with
  | O => None
  | S f =>
      match s with
      | String c r =>
          if Ascii.eqb c dquote then
            match parse_string r with
            | None => None
            | Some (key, r1) =>
                match skip_ws r1 with
                | String ":"%char r2 =>
                    match parse_value f (skip_ws r2) with
                    | None => None
                    | Some (v, r3) =>
                        match skip_ws r3 with
                        | String ","%char r4 => parse_members f (skip_ws r4) ((key, v) :: acc)
                        | String "}"%char r4 => Some (JObj (rev ((key, v) :: acc)), r4)
                        | _ => None
                        end
                    end
                | _ => None
                end
            end
          else None
      | EmptyString => None
      end
  end.

Definition json_loads (s : string) : option JValue :=
  match parse_value (2 * String.length s + 2) (skip_ws s) with
  | Some (v, rest) => if PyStr.is_empty (skip_ws rest) then Some v else None
  | None => None
  end.

(** [repr] of a JSON value; text inside a container is shown in single
    quotes. *)
Fixpoint json_repr (v : JValue) : string :=
  match v with
  | JNull => "None"
  | JBool true => "True"
  | JBool false => "False"
  | JInt z => PyStr.of_Z z
  | JFloat r => r
  | JStr t => "'" +++ t +++ "'"
  | JArr l => "[" +++ String.concat ", " (map json_repr l) +++ "]"
  | JObj m =>
      "{" +++ String.concat ", "
                (map (fun kv => match kv with (k, x) => "'" +++ k +++ "': " +++ json_repr x end) m)
          +++ "}"
  end.

Definition escape_json_char (c : ascii) : string :=
  let n := nat_of_ascii c in
  if Ascii.eqb c dquote then String bslash (String dquote EmptyString)
  else if Ascii.eqb c bslash then String bslash (String bslash EmptyString)
  else if (n =? 10)%nat then String bslash "n"
  else if (n =? 13)%nat then String bslash "r"
  else if (n =? 9)%nat then String bslash "t"
  else if (n =? 8)%nat then String bslash "b"
  else if (n =? 12)%nat then String bslash "f"
  else if (n <? 32)%nat then
    String bslash ("u00" +++ String (hex_char (n / 16)) (String (PyStr.lower_char (hex_char (n mod 16))) EmptyString))
  else String c EmptyString.

Fixpoint escape_json (t : string) : string :=
  match t with
  | EmptyString => EmptyString
  | String c t' => escape_json_char c +++ escape_json t'
  end.

Definition quoted (t : string) : string :=
  String dquote (escape_json t +++ String dquote EmptyString).

(** [json.dumps(v, ensure_ascii=False)] *)
Fixpoint json_dumps (v : JValue) : string :=
  match v with
  | JNull => "null"
  | JBool true => "true"
  | JBool false => "false"
  | JInt z => PyStr.of_Z z
  | JFloat r => r
  | JStr t => quoted t
  | JArr l => "[" +++ String.concat ", " (map json_dumps l) +++ "]"
  | JObj m =>
      "{" +++ String.concat ", "
                (map (fun kv => match kv with (k, x) => quoted k +++ ": " +++ json_dumps x end) m)
          +++ "}"
  end.

(** *** [urllib.parse] *)

Definition is_scheme_char (c : ascii) : bool := is_alpha c || is_digit c || char_in c "+-.".

Definition all_chars (p : ascii -> bool) (s : string) : bool :=
  PyStr.is_empty (snd (span p s)).

Definition uses_params : list string :=
  [ EmptyString; "ftp"; "hdl"; "prospero"; "http"; "imap"; "https"; "shttp"; "rtsp"; "rtspu";
    "sip"; "sips"; "mms"; "sftp"; "tel" ].

Definition uses_netloc : list string :=
  [ EmptyString; "ftp"; "http"; "gopher"; "nntp"; "telnet"; "imap"; "wais"; "file"; "mms";
    "https"; "shttp"; "snews"; "prospero"; "rtsp"; "rtspu"; "rsync"; "svn"; "svn+ssh";
    "sftp"; "nfs"; "git"; "git+ssh"; "ws"; "wss" ].

Definition cut (d : ascii) (s : string) : string * string :=
  match PyStr.split1 d s with
  | Some (a, b) => (a, b)
  | None => (s, EmptyString)
  end.

Definition split_scheme (url : string) : string * string :=
  match PyStr.split1 ":" url with
  | Some (String c pre, rest) =>
      if is_alpha c && all_chars is_scheme_char pre
      then (PyStr.lower (String c pre), rest)
      else (EmptyString, url)
  | _ => (EmptyString, url)
  end.

Definition split_netloc (url : string) : string * string :=
  match url with
  | String "/"%char (String "/"%char r) => span (fun c => negb (char_in c "/?#")) r
  | _ => (EmptyString, url)
  end.

Definition split_params (url : string) : string * string :=
  let segs := PyStr.split_on "/" url in
  match PyStr.split1 ";" (last segs EmptyString) with
  | Some (a, b) => (String.concat "/" (removelast segs ++ [a]), b)
  | None => (url, EmptyString)
  end.

Definition urlparse (url : string) : ParseResult :=
  let (sch, r0) := split_scheme url in
  let (net, r1) := split_netloc r0 in
  let (r2, frag) := cut "#" r1 in
  let (r3, qs) := cut "?" r2 in
  let (pth, prm) :=
    if existsb (String.eqb sch) uses_params && PyStr.contains_char ";" r3
    then split_params r3 else (r3, EmptyString) in
  {| scheme := sch; netloc := net; path := pth; params := prm; query := qs; fragment := frag |}.

Definition urlunparse (u : ParseResult) : string :=
  let url := if PyStr.is_empty (params u) then path u else path u +++ ";" +++ params u in
  let url :=
    if negb (PyStr.is_empty (netloc u))
       || (negb (PyStr.is_empty (scheme u)) && existsb (String.eqb (scheme u)) uses_netloc
           && negb (String.prefix "//" url))
    then "//" +++ netloc u
           +++ (if negb (PyStr.is_empty url) && negb (String.prefix "/" url)
                then "/" +++ url else url)
    else url in
  let url := if PyStr.is_empty (scheme u) then url else scheme u +++ ":" +++ url in
  let url := if PyStr.is_empty (query u) then url else url +++ "?" +++ query u in
  if PyStr.is_empty (fragment u) then url else url +++ "#" +++ fragment u.

Fixpoint unquote (s : string) : string :=
  match s with
  | EmptyString => EmptyString
  | String c s' =>
      if Ascii.eqb c "%" then
        match s' with
        | String a (String b r) =>
            match hex_digit a, hex_digit b with
            | Some x, Some y => String (ascii_of_nat (16 * x + y)) (unquote r)
            | _, _ => String c (unquote s')
            end
        | _ => String c (unquote s')
        end
      else String c (unquote s')
  end.

Definition plus_to_space (c : ascii) : ascii := if Ascii.eqb c "+" then " "%char else c.

(** [parse_qsl(qs)]: fields without [=] or with an empty value are left
    out. *)
Definition parse_qsl (qs : string) : list (string * string) :=
  flat_map
    (fun name_value =>
       match PyStr.split1 "=" name_value with
       | Some (n, v) =>
           if PyStr.is_empty v then []
           else [(unquote (PyStr.map_chars plus_to_space n),
                  unquote (PyStr.map_chars plus_to_space v))]
       | None => []
       end)
    (PyStr.split_on "&" qs).

Definition quote_plus_char (c : ascii) : string :=
  if is_alpha c || is_digit c || char_in c "_.-~" then String c EmptyString
  else if Ascii.eqb c " " then "+"
  else
    let n := nat_of_ascii c in
    String "%" (String (hex_char (n / 16)) (String (hex_char (n mod 16)) EmptyString)).

Fixpoint quote_plus (s : string) : string :=
  match s with
  | EmptyString => EmptyString
  | String c s' => quote_plus_char c +++ quote_plus s'
  end.

Definition urlencode (q : list (string * string)) : string :=
  String.concat "&" (map (fun kv => quote_plus (fst kv) +++ "=" +++ quote_plus (snd kv)) q).

(** *** [os.path.splitext] with [/] as the separator *)

Fixpoint rsplit1 (d : ascii) (s : string) : option (string * string) :=
  match s with
  | EmptyString => None
  | String c s' =>
      match rsplit1 d s' with
      | Some (a, b) => Some (String c a, b)
      | None => if Ascii.eqb c d then Some (EmptyString, s') else None
      end
  end.

Definition splitext (p : string) : string * string :=
  let base := last (PyStr.split_on "/" p) EmptyString in
  let (dots, body) := span (Ascii.eqb ".") base in
  match rsplit1 "." body with
  | Some (a, b) =>
      (String.substring 0 (String.length p - String.length body + String.length a) p,
       "." +++ b)
  | None => (p, EmptyString)
  end.

End Lib.

Definition pylib : PyLib :=
  {| json_loads := Lib.json_loads;
     json_repr := Lib.json_repr;
     json_dumps := Lib.json_dumps;
     py_int := Lib.py_int;
     urlparse := Lib.urlparse;
     urlunparse := Lib.urlunparse;
     parse_qsl := Lib.parse_qsl;
     urlencode := Lib.urlencode |}.

(** Building sheets for examples. *)
Definition cells (vs : list Value) : list Cell := map (fun v => {| value := v; fill := None |}) vs.

Definition visible_sheet (name : string) (rows : list (list Value)) : Worksheet :=
  {| title := name; sheet_state := "visible"; grid := map cells rows |}.

Definition values_of (g : Grid) : list (list Value) := map (map value) g.

(** ** Vocabulary of the statements about the reconciler *)

(** A row of the sheet, by its 1-based number. *)
Definition row_at (g : Grid) (row : nat) : list Cell := nth (row - 1) g [].

(** A row after [write_result] has written an execution into it. *)
Definition result_row (actual_idx status_idx : nat) (e : Execution) (row : list Cell)
  : list Cell :=
  row_at (write_result actual_idx status_idx 1 e [row]) 1.

Definition headers_norm (g : Grid) : list string :=
  map (fun c => _norm (value c)) (first_row g).

(** The sheet after the placement of the result columns alone, with the two
    columns. *)
Definition placed (g : Grid) : Grid * nat * nat :=
  place_columns g (find_synonym_col "expected_status" (headers_norm g)).

Definition placed_grid (g : Grid) : Grid := fst (fst (placed g)).
Definition actual_col (g : Grid) : nat := snd (fst (placed g)).
Definition status_col (g : Grid) : nat := snd (placed g).

(** The rows of a sheet the reconciler stops at, in reading order. *)
Definition sheet_targets (links : list (string * nat)) (sheet : Worksheet) : list nat :=
  if String.eqb (sheet_state sheet) "visible"
  then filter (linked links (title sheet)) (seq 2 (max_row (grid sheet) - 1))
  else [].

(** The linked rows of a workbook in reading order, as (position of the
    sheet, row number). *)
Fixpoint targets (links : list (string * nat)) (wb : list Worksheet) : list (nat * nat) :=
  match wb with
  | [] => []
  | sheet :: rest =>
      map (fun r => (0, r)) (sheet_targets links sheet)
      ++ map (fun p => (S (fst p), snd p)) (targets links rest)
  end.

(** ** Vocabulary of the statements about placement and scripts *)

(** A header cell as the reconciler writes it. *)
Definition labelled (name : string) : Cell := {| value := VStr name; fill := None |}.

(** The header row has a cell whose value is exactly [name]. *)
Definition has_header (g : Grid) (name : string) : Prop :=
  exists c, In c (first_row g) /\ value_is name (value c) = true.

(** What follows [pm.test('] on the line of the validity check. *)
Definition check_title_tail : string := "Response is valid JSON', function () {".

(** The lines of the status assertion, when there is an expected status. *)
Definition status_part (expected_status : option Z) : list string :=
  match expected_status with
  | Some n => status_lines n
  | None => []
  end.

(** The test script of a request ([exec] of its event, if any). *)
Definition script_of (item : Item) : list string :=
  match item_event item with
  | Some l => l
  | None => []
  end.

(** ** The URL precedence of the specification *)








(** ** Vocabulary of the statement about sticky fields *)

Fixpoint last_opt {A : Type} (l : list A) : option A :=
  match l with
  | [] => None
  | [x] => Some x
  | _ :: l' => last_opt l'
  end.

(** The rows of a sheet that the row loop does not skip. *)
Definition seen_rows (rows : list (list Cell)) : list (list Cell) :=
  filter (fun r => negb (row_is_blank r)) rows.

(** The last non-blank text of a column among the rows that are not
    skipped. *)
Definition last_text (idx : option nat) (rows : list (list Cell)) : option string :=
  last_opt
    (map (fun r => py_str (_get_cell r idx))
       (filter (fun r => not_blank (_get_cell r idx)) (seen_rows rows))).

(** The name a row brings itself: its name cell, else its [testcasename]
    cell. *)
Definition own_name (cols : Columns) (row : list Cell) : option Value :=
  if truthy (_get_cell row (idx_name cols)) then Some (_get_cell row (idx_name cols))
  else if truthy (_get_cell row (idx_testcase_name cols))
       then Some (_get_cell row (idx_testcase_name cols))
       else None.

Definition own_names (cols : Columns) (rows : list (list Cell)) : list Value :=
  flat_map (fun r => match own_name cols r with Some v => [v] | None => [] end)
    (seen_rows rows).

(** The carried values after one more row. *)
Definition after_row `{PyLib} (base_url_override : option string) (cols : Columns)
    (sheet_title : string) (st : Sticky) (row : list Cell) : Sticky :=
  fst (process_row base_url_override cols sheet_title st 0 row).

(** The carried values when the row loop has processed [rows] (the rows of a
    sheet from row 2 on). *)
Definition loop_state `{PyLib} (base_url_override : option string) (cols : Columns)
    (sheet_title : string) (rows : list (list Cell)) : Sticky :=
  fst (fold_left (row_step base_url_override cols sheet_title) (enumerate 2 rows)
         (initial_sticky sheet_title, {| folders := []; row_links := [] |})).

(** The names of the requests compiled from a workbook, in the order of the
    collection. *)
Definition compiled_names `{PyLib} (base_url_override : option string) (wb : list Worksheet)
  : list string :=
  map item_name (flat_requests (collection_items (compile_workbook base_url_override wb))).

(** The methods of the requests compiled from a workbook, in the order of
    the collection. *)
Definition compiled_methods `{PyLib} (base_url_override : option string) (wb : list Worksheet)
  : list string :=
  map item_method (flat_requests (collection_items (compile_workbook base_url_override wb))).

(** ** Runners used to evaluate whole runs *)

(** A runner that executes the requests in the order of the collection and
    reports one failed status assertion for the request called [failing],
    with the response code [code] for every request. *)
Definition runner_in_order (failing : string) (code : Z) (items : list Folder) : NewmanRun :=
  {| returncode := 1;
     artifact :=
       Some (map (fun i =>
                    {| exec_name := Some (item_name i);
                       response_code := Some code;
                       assertions :=
                         [ {| assertion := "Status code is 200";
                              error := if String.eqb (item_name i) failing
                                       then Some "AssertionError" else None |} ] |})
               (flat_requests items)) |}.

(** A runner that exits with status 1 and leaves no output file. *)
Definition runner_without_output (items : list Folder) : NewmanRun :=
  {| returncode := 1; artifact := None |}.

(** The saved results workbooks among the effects of a run. *)
Definition saved_results (events : list Event) : list (string * list (list (list Value))) :=
  flat_map (fun ev =>
              match ev with
              | ResultsSaved file wb => [(file, map (fun sh => values_of (grid sh)) wb)]
              | _ => []
              end)
    events.

Definition is_report (ev : Event) : bool :=
  match ev with
  | ReportSaved _ _ => true
  | _ => false
  end.

(** ** Concrete inputs *)

Definition login_sheet : Worksheet :=
  visible_sheet "Sheet1"
    [[VStr "Name"; VStr "Path"; VStr "ExpectedStatus"; VStr "Assertions"; VStr "Folder"];
     [VStr "Login"; VStr "/login"; VInt 200;
      VStr ("{" +++ Lib.quoted "status" +++ ": {" +++ Lib.quoted "eq" +++ ": "
              +++ Lib.quoted "ok" +++ "}}");
      VStr "Auth"];
     [VStr "Logout"; VStr "/logout"; VInt 204; VNone; VNone]].

Definition login_columns : Columns :=
  resolve_columns (_build_header_map (map value (first_row (grid login_sheet)))).

Definition login_row : list Cell := nth 1 (grid login_sheet) [].
Definition logout_row : list Cell := nth 2 (grid login_sheet) [].

Definition passing_execution : Execution :=
  {| exec_name := Some "Login"; response_code := Some 200%Z; assertions := [] |}.

Definition annotated_grid : Grid :=
  map cells
    [[VStr "ExpectedStatus"; VStr "ActualStatus"; VStr "Status"];
     [VInt 200; VInt 200; VStr "PASSED"]].

Definition status_only_grid : Grid :=
  map cells [[VStr "ExpectedStatus"; VStr "Status"]; [VInt 200; VStr "PASSED"]].

Definition actual_only_grid : Grid :=
  map cells [[VStr "ExpectedStatus"; VStr "ActualStatus"]; [VInt 200; VInt 200]].

Definition plain_grid : Grid :=
  map cells [[VStr "Name"; VStr "Path"]; [VStr "Login"; VStr "/login"]].

(** ** Vocabulary of the statement that ties the linkage to the reconciler *)

(** [s] is [l] with some elements left out. *)
Inductive subseq {A : Type} : list A -> list A -> Prop :=
| subseq_nil : subseq [] []
| subseq_skip (x : A) (s l : list A) : subseq s l -> subseq s (x :: l)
| subseq_take (x : A) (s l : list A) : subseq s l -> subseq (x :: s) (x :: l).

(** The links one sheet contributes to [row_links]. *)
Definition sheet_links `{PyLib} (base_url_override : option string) (sheet : Worksheet)
  : list (string * nat) :=
  row_links (process_sheet base_url_override {| folders := []; row_links := [] |} sheet).

(** A target of the reconciler as a (sheet title, row) pair. *)
Definition target_key (wb : list Worksheet) (p : nat * nat) : string * nat :=
  match nth_error wb (fst p) with
  | Some sheet => (title sheet, snd p)
  | None => (EmptyString, snd p)
  end.

(** * The rest of the generator, the runner's report, and the callers

    Request headers, bearer authentication, the expected status and the
    summary of the runner's own report
    ([src/newman_runner.py]), the token client ([src/auth_client.py]), the
    authentication set-up of [src/main.py] and the attachment type of
    [src/emailer.py]. *)

(** ** Request headers *)

(** An entry of a request's [header] list: [{"key": ..., "value": ...}].
    The generator only builds entries with both fields, both of them text. *)
Record Header : Type := mkHeader {
  header_key : string;
  header_value : string
}.

(** [key_to_index] of [_merge_headers] (lines 206-210): the lower-cased key
    of every header that has one, with the index of the header; a key that
    occurs twice keeps the index of its last header. *)
Definition key_to_index (headers : list Header) : PyDict.t nat :=
  PyDict.of_pairs
    (map (fun p => (snd p, fst p))
       (filter (fun p => negb (PyStr.is_empty (snd p)))
          (enumerate 0 (map (fun h => PyStr.lower (header_key h)) headers)))).

(** The empty text for [None], else [str(value)] (line 215) *)
Definition default_value_text (v : Value) : string :=
  match v with
  | VNone => EmptyString
  | _ => py_str v
  end.

(** One iteration of the loop over [default_headers.items()]
    (lines 211-220).  [index] is [key_to_index], which the loop does not
    update. *)
Definition merge_default (index : PyDict.t nat) (headers : list Header) (kv : Value * Value)
  : list Header :=
  match fst kv with
  | VNone => headers
  | key =>
      let hkey := py_str key in
      let hvalue := default_value_text (snd kv) in
      match PyDict.get (PyStr.lower hkey) index with
      | Some i =>
          update_nth i (fun h => {| header_key := header_key h; header_value := hvalue |}) headers
      | None => headers ++ [ {| header_key := hkey; header_value := hvalue |} ]
      end
  end.

(** [_merge_headers] (lines 202-221).  [default_headers] is [None] or a
    mapping given by its items; the list that is returned is the one that
    was passed in, updated in place. *)
Definition _merge_headers (existing_headers : list Header)
    (default_headers : option (list (Value * Value))) : list Header :=
  match default_headers with
  | None => existing_headers
  | Some [] => existing_headers
  | Some defaults =>
      fold_left (merge_default (key_to_index existing_headers)) defaults existing_headers
  end.

Definition content_type_json : Header :=
  {| header_key := "Content-Type"; header_value := "application/json" |}.

(** Lines 369-373: the [header] list of a row's request. *)
Definition row_headers `{PyLib} (headers_raw : Value) (auth_headers : option (list (Value * Value)))
  : list Header :=
  let headers_dict := _parse_kv_text headers_raw in
  let headers :=
    map (fun kv => {| header_key := fst kv; header_value := jstr (snd kv) |}) headers_dict in
  let headers :=
    match headers with
    | [] => [content_type_json]
    | _ :: _ => headers
    end in
  _merge_headers headers auth_headers.

(** ** Bearer authentication *)

(** [auth_info] as [main] builds it: [{"type": ..., "token": ...}]. *)
Record AuthInfo : Type := mkAuthInfo {
  auth_type : string;
  auth_token : string
}.

(** Lines 244-254 and 435-445: the token of the [bearer] block put on the
    collection and on every request, if any. *)
Definition bearer_auth (auth_info : option AuthInfo) : option string :=
  match auth_info with
  | Some info => if String.eqb (auth_type info) "bearer" then Some (auth_token info) else None
  | None => None
  end.

(** main.py, lines 24-36: the default header and the bearer block made from
    a fetched token.  [header_name] is [None] when the configuration has no
    such key; [header_prefix] is [None] when it has no such key and
    [Some None] when the key holds [null]. *)
Definition auth_of_token (header_name : option string) (header_prefix : option (option string))
    (token : string) : list (Value * Value) * option AuthInfo :=
  let header_name := match header_name with Some n => n | None => "Authorization" end in
  let prefix := match header_prefix with Some p => p | None => Some "Bearer " end in
  let header_value :=
    match prefix with
    | None => token
    | Some p => if PyStr.is_empty p then token else p +++ token
    end in
  let auth_headers := [(VStr header_name, VStr header_value)] in
  let auth_info :=
    if String.eqb (PyStr.lower header_name) "authorization"
       && PyStr.startswith "bearer"
            (PyStr.lower
               (PyStr.strip (if some_text prefix then text_of prefix else EmptyString)))
    then
      let bearer_token :=
        if some_text prefix
        then PyStr.drop (String.length (text_of prefix)) header_value
        else token in
      Some {| auth_type := "bearer";
              auth_token := if PyStr.is_empty bearer_token then token else bearer_token |}
    else None in
  (auth_headers, auth_info).

(** ** The token client (auth_client.py) *)

(** Truth value of a parsed JSON or YAML value.  A float is carried by its
    [repr], so the two zeros are ["0.0"] and ["-0.0"]. *)
Definition j_truthy (v : JValue) : bool :=
  match v with
  | JNull => false
  | JBool b => b
  | JInt z => negb (z =? 0)%Z
  | JFloat r => negb (String.eqb r "0.0" || String.eqb r "-0.0")
  | JStr s => negb (PyStr.is_empty s)
  | JArr items => match items with [] => false | _ :: _ => true end
  | JObj members => match members with [] => false | _ :: _ => true end
  end.

(** [current.get(part)] when [current] is a mapping, else [None]
    (auth_client.py, lines 14-17); [None] is [JNull]. *)
Definition step_into (part : string) (current : JValue) : JValue :=
  match as_dict current with
  | Some d =>
      match PyDict.get part d with
      | Some v => v
      | None => JNull
      end
  | None => JNull
  end.

(** The loop of [_extract_from_path] (lines 13-19): it stops at the first
    [None]. *)
Fixpoint walk_path (parts : list string) (current : JValue) : JValue :=
  match parts with
  | [] => current
  | part :: rest =>
      match step_into part current with
      | JNull => JNull
      | next => walk_path rest next
      end
  end.

(** [_extract_from_path] (auth_client.py, lines 9-20) *)
Definition _extract_from_path `{PyLib} (data path : JValue) : JValue :=
  if negb (j_truthy path) then data
  else walk_path (PyStr.split_on "." (jstr path)) data.

(** What [requests.request] followed by [raise_for_status] gives: an
    exception, or a response with its text. *)
Inductive HttpResult : Type :=
| HttpFailed (exc : string)
| HttpBody (text : string).

Inductive AuthEvent : Type :=
| AuthRequested (method url : string) (body headers timeout verify : JValue)
| AuthPrinted (text : string).

Section AuthClient.
Context `{PyLib}.
(** [urllib.parse.urljoin] *)
Variable urljoin : string -> string -> string.
(** The HTTP call with its six arguments. *)
Variable request : string -> string -> JValue -> JValue -> JValue -> JValue -> HttpResult.

(** [d.get(k)] *)
Definition config_get (k : string) (d : PyDict.t JValue) : JValue :=
  match PyDict.get k d with
  | Some v => v
  | None => JNull
  end.

(** [a or b] *)
Definition j_or (a b : JValue) : JValue := if j_truthy a then a else b.

(** [d.get(k, default)] *)
Definition config_get_default (k : string) (default : JValue) (d : PyDict.t JValue) : JValue :=
  match PyDict.get k d with
  | Some v => v
  | None => default
  end.

(** [fetch_auth_token] (auth_client.py, lines 23-58).  The configuration is
    the mapping read from the YAML file.  A method, base URL or endpoint
    that is not text makes the string method called on it raise
    [AttributeError], before any request is sent. *)
Definition fetch_auth_token (base_url : JValue) (auth_config : PyDict.t JValue)
  : list AuthEvent * Outcome string :=
  if negb (j_truthy base_url) then
    ([], Raised "AuthError: Base URL is required to fetch auth token.")
  else
    match auth_config with
    | [] => ([], Raised "AuthError: Auth configuration missing.")
    | _ :: _ =>
        let endpoint := config_get "endpoint" auth_config in
        if negb (j_truthy endpoint) then
          ([], Raised "AuthError: Auth endpoint not provided in configuration.")
        else
          match j_or (config_get "method" auth_config) (JStr "POST"), base_url, endpoint with
          | JStr m, JStr b, JStr e =>
              let method := PyStr.upper m in
              let body := j_or (config_get "body" auth_config) (JObj []) in
              let headers :=
                j_or (config_get "headers" auth_config)
                  (JObj [("Content-Type", JStr "application/json")]) in
              let verify := config_get_default "verify" (JBool true) auth_config in
              let timeout := config_get_default "timeout" (JInt 30) auth_config in
              let url := urljoin (PyStr.rstrip_slash b +++ "/") (PyStr.lstrip_slash e) in
              let requested := [AuthRequested method url body headers timeout verify] in
              match request method url body headers timeout verify with
              | HttpFailed exc =>
                  (requested, Raised ("AuthError: Failed to call auth endpoint: " +++ exc))
              | HttpBody text =>
                  match json_loads text with
                  | None => (requested, Raised "AuthError: Auth response is not valid JSON.")
                  | Some payload =>
                      let token_path :=
                        config_get_default "token_path" (JStr "token") auth_config in
                      let token := _extract_from_path payload token_path in
                      let printed := requested ++ [AuthPrinted (jstr token)] in
                      if negb (j_truthy token) then
                        (printed,
                         Raised ("AuthError: Token not found at path '"
                                   +++ jstr token_path +++ "'."))
                      else (printed, Returned (jstr token))
                  end
              end
          | _, _, _ => ([], Raised "AttributeError")
          end
    end.

End AuthClient.

(** ** The attachment type (emailer.py) *)

(** [_guess_mime_type] (emailer.py, lines 9-14).  [guess_type] is the first
    component of [mimetypes.guess_type]; [None] as a result stands for the
    [ValueError] of unpacking a type without a slash. *)
Definition _guess_mime_type (guess_type : string -> option string) (file_path : string)
  : option (string * string) :=
  match guess_type file_path with
  | None => Some ("application", "octet-stream")
  | Some mime_type =>
      if PyStr.is_empty mime_type then Some ("application", "octet-stream")
      else PyStr.split1 "/" mime_type
  end.

(** ** The runner's own report (newman_runner.py) *)

Definition status_prefix : string := "Status code is ".

(** The leading ASCII digits of a text. *)
Fixpoint leading_digits (s : string) : string :=
  match s with
  | EmptyString => EmptyString
  | String c s' => if Lib.is_digit c then String c (leading_digits s') else EmptyString
  end.

(** A match of [Status code is (\d+)] at the head of [s]: the digits.  The
    digits are those of the ASCII range. *)
Definition match_status_at (s : string) : option string :=
  if String.prefix status_prefix s then
    let digits := leading_digits (PyStr.drop (String.length status_prefix) s) in
    if PyStr.is_empty digits then None else Some digits
  else None.

(** [re.search(r"Status code is (\d+)", test_name)]: group 1 of the
    leftmost match. *)
Fixpoint search_status (s : string) : option string :=
  match match_status_at s with
  | Some digits => Some digits
  | None =>
      match s with
      | EmptyString => None
      | String _ s' => search_status s'
      end
  end.

(** [int(s)] for a text of ASCII digits. *)
Definition int_of_digits (s : string) : option Z :=
  match NilZero.uint_of_string s with
  | Some u => Some (Z.of_N (N.of_uint u))
  | None => None
  end.

(** [expected_status] of a report row (newman_runner.py, lines 97-113): the
    number in the name of the last assertion that carries one. *)
Definition report_expected_status (l : list Assertion) : option Z :=
  fold_left
    (fun expected_status a =>
       if PyStr.substringb "Status code is" (assertion a) then
         match search_status (assertion a) with
         | Some digits =>
             match int_of_digits digits with
             | Some n => Some n
             | None => expected_status
             end
         | None => expected_status
         end
       else expected_status)
    l None.

(** The [Summary] sheet (newman_runner.py, lines 139-145): total, passed and
    failed.  The rows of the report are one per execution, and column 8
    holds the verdict. *)
Definition report_summary (executions : list Execution) : Z * Z * Z :=
  let total := Z.of_nat (List.length executions) in
  let passed :=
    Z.of_nat
      (List.length
         (filter (fun e => match report_verdict (assertions e) with
                           | PASSED => true
                           | FAILED => false
                           end)
            executions)) in
  (total, passed, (total - passed)%Z).

(** ** Vocabulary of the further statements *)

(** The title of the status assertion (line 452 of the generator), which the
    runner reports as the assertion's name. *)
Definition status_title (expected_status : Z) : string :=
  status_prefix +++ PyStr.of_Z expected_status.

(** The last position of [l] whose element satisfies [p]. *)
Fixpoint last_index_from {A : Type} (p : A -> bool) (i : nat) (l : list A) : option nat :=
  match l with
  | [] => None
  | x :: l' =>
      match last_index_from p (S i) l' with
      | Some j => Some j
      | None => if p x then Some i else None
      end
  end.

Definition last_index {A : Type} (p : A -> bool) (l : list A) : option nat :=
  last_index_from p 0 l.

(** The operator names the assertion compiler knows (lines 122-192). *)
Definition operator_names : list string :=
  [ "equals"; "equal"; "eq"; "==";
    "notequals"; "not_equals"; "!="; "ne";
    "notempty"; "not_empty";
    "greaterthanorequal"; "greater_than_or_equal"; "gte";
    "greaterthan"; "greater_than"; "gt";
    "lessthanorequal"; "less_than_or_equal"; "lte";
    "lessthan"; "less_than"; "lt";
    "contains"; "includes";
    "true"; "istrue";
    "false"; "isfalse";
    "exists" ].

Definition recognised (op : string) : bool := op_in (PyStr.lower op) operator_names.

(** The number of conditions of an assertion mapping whose field holds a
    mapping and whose operator is known. *)
Definition recognised_conditions (assertions_dict : PyDict.t JValue) : nat :=
  list_sum
    (map (fun entry =>
            match as_dict (snd entry) with
            | Some conds => List.length (filter (fun c => recognised (fst c)) conds)
            | None => 0
            end)
       assertions_dict).

(** An execution with at least one assertion that reports an error. *)
Definition has_failure (e : Execution) : bool :=
  existsb (fun a => match error a with Some _ => true | None => false end) (assertions e).

Definition is_visible (sheet : Worksheet) : bool := String.eqb (sheet_state sheet) "visible".

(** A default header that [_merge_headers] takes into account, and the
    lower-cased key it is filed under. *)
Definition default_key (kv : Value * Value) : option string :=
  match fst kv with
  | VNone => None
  | key => Some (PyStr.lower (py_str key))
  end.

(** The defaults of a call, [None] read as no default. *)
Definition defaults_of (default_headers : option (list (Value * Value))) : list (Value * Value) :=
  match default_headers with
  | Some defaults => defaults
  | None => []
  end.

(** The defaults that are written to the existing header at position [i]. *)
Definition written_to (existing : list Header) (i : nat) (kv : Value * Value) : bool :=
  match default_key kv with
  | Some k =>
      match PyDict.get k (key_to_index existing) with
      | Some j => (j =? i)%nat
      | None => false
      end
  | None => false
  end.

(** The defaults that become new headers. *)
Definition appended (existing : list Header) (kv : Value * Value) : bool :=
  match default_key kv with
  | Some k => negb (PyDict.mem k (key_to_index existing))
  | None => false
  end.

(** Text without a backslash and without a single quote. *)
Fixpoint plain_text (s : string) : bool :=
  match s with
  | EmptyString => true
  | String c s' =>
      negb (Ascii.eqb c (ascii_of_nat 92)) && negb (Ascii.eqb c "'") && plain_text s'
  end.

(** The column (0-based) a header name resolves to: the last column whose
    header is the name up to letter case and surrounding white space. *)
Definition column_of (header_values : list Value) (name : string) : option nat :=
  if PyStr.is_empty (_norm (VStr name)) then None
  else last_index (String.eqb (_norm (VStr name))) (map _norm header_values).

(** Every occurrence of one character replaced by a text. *)
Fixpoint replace_char (c : ascii) (new s : string) : string :=
  match s with
  | EmptyString => EmptyString
  | String d s' =>
      if Ascii.eqb d c then new +++ replace_char c new s'
      else String d (replace_char c new s')
  end.

(** A character as a JavaScript string literal in single quotes holds it. *)
Definition escaped_char (c : ascii) : string :=
  if Ascii.eqb c (ascii_of_nat 92) then backslash +++ backslash
  else if Ascii.eqb c "'" then backslash +++ "'"
  else String c EmptyString.

Fixpoint escaped (s : string) : string :=
  match s with
  | EmptyString => EmptyString
  | String c s' => escaped_char c +++ escaped s'
  end.

(** The header a default becomes when it is appended (line 220). *)
Definition header_of_default (kv : Value * Value) : Header :=
  {| header_key := py_str (fst kv); header_value := default_value_text (snd kv) |}.

Definition is_request (ev : AuthEvent) : bool :=
  match ev with
  | AuthRequested _ _ _ _ _ _ => true
  | AuthPrinted _ => false
  end.

(** A JSON value that is a non-empty text. *)
Definition text_present (v : JValue) : bool :=
  match v with
  | JStr s => negb (PyStr.is_empty s)
  | _ => false
  end.

(** Every value of [g] is found in [g'] in its row, at most [k] columns to
    the right of where it was. *)
Definition kept_within (k : nat) (g g' : Grid) : Prop :=
  forall r c,
    1 <= r -> 1 <= c -> value (cell_at g r c) <> VNone ->
    exists c', c <= c' <= c + k /\ cell_at g' r c' = cell_at g r c.

(** Text of the ASCII range.  On such a text Python's [lower], [upper] and
    [strip] are the ones of [PyStr]. *)
Fixpoint ascii_text (s : string) : bool :=
  match s with
  | EmptyString => true
  | String c s' => (nat_of_ascii c <? 128)%nat && ascii_text s'
  end.

(** The header name and the prefix in force for a configuration (main.py,
    lines 24-29): the defaults when the keys are absent, no prefix when the
    prefix is [null]. *)
Definition configured_name (header_name : option string) : string :=
  match header_name with
  | Some n => n
  | None => "Authorization"
  end.

Definition configured_prefix (header_prefix : option (option string)) : string :=
  match header_prefix with
  | None => "Bearer "
  | Some None => EmptyString
  | Some (Some p) => p
  end.

(** ** The pairs of a query string

    The fields of a query string as they are written: the texts between the
    [&], each split at its first [=]; a field without [=] has an empty value
    and an empty field is none. *)
Definition query_fields (qs : string) : list (string * string) :=
  flat_map
    (fun name_value =>
       if PyStr.is_empty name_value then []
       else match PyStr.split1 "=" name_value with
            | Some (n, v) => [(n, v)]
            | None => [(name_value, EmptyString)]
            end)
    (PyStr.split_on "&" qs).

Definition decoded_pair (decode : string -> string) (kv : string * string) : string * string :=
  (decode (fst kv), decode (snd kv)).


(** The pairs [parse_qsl] returns when it is called as on line 388, without
    [keep_blank_values]: those whose value is not empty. *)
Definition has_value (kv : string * string) : bool := negb (PyStr.is_empty (snd kv)).

Definition kept_pairs (decode : string -> string) (qs : string) : list (string * string) :=
  map (decoded_pair decode) (filter has_value (query_fields qs)).

(** The decoding of [parse_qsl]: [+] is a space, then the percent escapes. *)
Definition unquote_plus (s : string) : string :=
  Lib.unquote (PyStr.map_chars Lib.plus_to_space s).

(** An execution of the request "Login" that was answered with 500 and
    whose status assertion failed. *)
Definition failing_execution : Execution :=
  {| exec_name := Some "Login";
     response_code := Some 500%Z;
     assertions := [{| assertion := "Status code is 200"; error := Some "AssertionError" |}] |}.

(** * Properties *)

(** ** Lists updated by position *)

Section ListFacts.
Context {A : Type}.

Lemma update_nth_length (n : nat) (f : A -> A) (l : list A) :
  List.length (update_nth n f l) = List.length l.
Proof.
  revert n; induction l as [|x l IH]; intros [|n]; simpl; auto.
Qed.

Lemma update_nth_hit (n : nat) (f : A -> A) (l : list A) (d : A) :
  n < List.length l -> nth n (update_nth n f l) d = f (nth n l d).
Proof.
  revert n; induction l as [|x l IH]; intros [|n] Hn; simpl in *; try lia; auto.
  apply IH; lia.
Qed.

Lemma update_nth_miss (n m : nat) (f : A -> A) (l : list A) (d : A) :
  n <> m -> nth m (update_nth n f l) d = nth m l d.
Proof.
  revert n m; induction l as [|x l IH]; intros [|n] [|m] Hnm; simpl; auto; try lia.
Qed.

Lemma pad_length (n : nat) (d : A) (l : list A) :
  List.length (pad n d l) = Nat.max n (List.length l).
Proof.
  unfold pad. rewrite length_app, repeat_length. lia.
Qed.

Lemma pad_nth (n i : nat) (d : A) (l : list A) :
  nth i (pad n d l) d = nth i l d.
Proof.
  unfold pad.
  destruct (Nat.lt_ge_cases i (List.length l)) as [Hi|Hi].
  - now rewrite app_nth1.
  - rewrite app_nth2 by lia. rewrite (nth_overflow l) by lia.
    apply nth_repeat.
Qed.

End ListFacts.

(** ** Reading a sheet after a write *)

Lemma update_cell_row (row column : nat) (f : Cell -> Cell) (g : Grid) :
  1 <= row ->
  row_at (update_cell row column f g) row
  = update_nth (column - 1) f (pad column blank_cell (row_at g row)).
Proof.
  intros Hr. unfold row_at, update_cell.
  rewrite update_nth_hit by (rewrite pad_length; lia).
  now rewrite pad_nth.
Qed.

Lemma update_cell_other_row (row row' column : nat) (f : Cell -> Cell) (g : Grid) :
  1 <= row -> 1 <= row' -> row <> row' ->
  row_at (update_cell row column f g) row' = row_at g row'.
Proof.
  intros Hr Hr' Hne. unfold row_at, update_cell.
  rewrite update_nth_miss by lia. apply pad_nth.
Qed.

Lemma update_cell_read (row column : nat) (f : Cell -> Cell) (g : Grid) :
  1 <= row -> 1 <= column ->
  cell_at (update_cell row column f g) row column = f (cell_at g row column).
Proof.
  intros Hr Hc. unfold cell_at.
  fold (row_at (update_cell row column f g) row). rewrite update_cell_row by assumption.
  rewrite update_nth_hit by (rewrite pad_length; lia).
  rewrite pad_nth. reflexivity.
Qed.

Lemma verdict_failed_has_error (l : list Assertion) :
  verdict_of l = FAILED -> exists a, In a l /\ error a <> None.
Proof.
  induction l as [|a l IH]; simpl; [discriminate|].
  destruct (error a) eqn:Ea.
  - intros _. exists a. split; [now left | congruence].
  - intros Hv. destruct (IH Hv) as (b & Hb & Eb). exists b. split; [now right | assumption].
Qed.

(** C10.  An execution without assertions gets the verdict PASSED, and the
    status cell of its row then holds "PASSED" with the success fill; the
    verdict FAILED requires an assertion whose error is not null. *)
Theorem empty_assertions_pass (e : Execution) (actual_idx status_idx row_num : nat) (g : Grid) :
  1 <= row_num -> 1 <= status_idx ->
  (assertions e = [] ->
     verdict_of (assertions e) = PASSED /\
     cell_at (write_result actual_idx status_idx row_num e g) row_num status_idx
     = {| value := VStr "PASSED"; fill := Some GREEN |}) /\
  (verdict_of (assertions e) = FAILED ->
     exists a, In a (assertions e) /\ error a <> None).
Proof.
  intros Hr Hs. split.
  - intros He. split; [now rewrite He|].
    unfold write_result. rewrite He. simpl verdict_of. cbn [verdict_text fill_of].
    unfold set_fill, set_value.
    rewrite !update_cell_read by assumption. reflexivity.
  - apply verdict_failed_has_error.
Qed.

(** ** The row loop of the reconciler *)

Lemma write_result_row (a s r : nat) (e : Execution) (g : Grid) :
  1 <= r -> row_at (write_result a s r e g) r = result_row a s e (row_at g r).
Proof.
  intros Hr. unfold result_row, write_result, set_fill, set_value.
  rewrite !update_cell_row by lia. reflexivity.
Qed.

Lemma write_result_other_row (a s r r' : nat) (e : Execution) (g : Grid) :
  1 <= r -> 1 <= r' -> r <> r' -> row_at (write_result a s r e g) r' = row_at g r'.
Proof.
  intros Hr Hr' Hne. unfold write_result, set_fill, set_value.
  rewrite !update_cell_other_row by assumption. reflexivity.
Qed.

Section RowLoopFacts.
Variable links : list (string * nat).
Variable sheet_title : string.
Variables a s : nat.
Variable id_idx : option nat.

Let run := write_rows links sheet_title a s id_idx.
Let stops := filter (linked links sheet_title).

Lemma write_rows_frame (rows : list nat) :
  forall (g : Grid) (es : list Execution) (r : nat),
    1 <= r -> ~ In r rows -> (forall x, In x rows -> 1 <= x) ->
    row_at (fst (fst (run rows g es))) r = row_at g r.
Proof.
  induction rows as [|x rows IH]; intros g es r Hr Hnot Hpos; simpl; [reflexivity|].
  assert (Hx : 1 <= x) by (apply Hpos; now left).
  assert (Hxr : x <> r) by (intros ->; apply Hnot; now left).
  assert (Hnot' : ~ In r rows) by (intros Hin; apply Hnot; now right).
  assert (Hpos' : forall y, In y rows -> 1 <= y) by (intros y Hy; apply Hpos; now right).
  destruct (linked links sheet_title x); simpl.
  - destruct es as [|e es]; [reflexivity|].
    specialize (IH (write_result a s x e g) es r Hr Hnot' Hpos').
    unfold run in *.
    destruct (write_rows links sheet_title a s id_idx rows (write_result a s x e g) es)
      as [[g2 it] more] eqn:E.
    simpl in *. rewrite IH. now apply write_result_other_row.
  - now apply IH.
Qed.

Lemma write_rows_remaining (rows : list nat) :
  forall (g : Grid) (es : list Execution),
    snd (fst (run rows g es)) = skipn (List.length (stops rows)) es.
Proof.
  induction rows as [|x rows IH]; intros g es; simpl; [reflexivity|].
  unfold stops in *. simpl.
  destruct (linked links sheet_title x); simpl.
  - destruct es as [|e es]; [reflexivity|].
    specialize (IH (write_result a s x e g) es). unfold run in *.
    destruct (write_rows links sheet_title a s id_idx rows (write_result a s x e g) es)
      as [[g2 it] more] eqn:E.
    simpl in *. exact IH.
  - apply IH.
Qed.

Lemma write_rows_rows (rows : list nat) :
  NoDup rows -> (forall x, In x rows -> 1 <= x) ->
  forall (g : Grid) (es : list Execution) (i t : nat),
    nth_error (stops rows) i = Some t ->
    row_at (fst (fst (run rows g es))) t
    = match nth_error es i with
      | Some e => result_row a s e (row_at g t)
      | None => row_at g t
      end.
Proof.
  induction rows as [|x rows IH]; intros Hnd Hpos g es i t Ht.
  - destruct i; discriminate.
  - assert (Hx : 1 <= x) by (apply Hpos; now left).
    assert (Hpos' : forall y, In y rows -> 1 <= y) by (intros y Hy; apply Hpos; now right).
    inversion Hnd as [|? ? Hxnot Hnd']; subst.
    unfold stops in *. simpl in Ht |- *.
    destruct (linked links sheet_title x) eqn:Hl; simpl in *.
    + destruct es as [|e es].
      * simpl. now destruct i.
      * pose proof (write_rows_frame rows (write_result a s x e g) es) as Hframe.
        specialize (IH Hnd' Hpos' (write_result a s x e g) es).
        unfold run in *.
        destruct (write_rows links sheet_title a s id_idx rows (write_result a s x e g) es)
          as [[g2 it] more] eqn:E.
        simpl in *.
        destruct i as [|i]; simpl in *.
        -- injection Ht as <-.
           rewrite (Hframe x Hx Hxnot Hpos'). now apply write_result_row.
        -- rewrite (IH i t Ht).
           assert (Hin : In t rows).
           { apply nth_error_In in Ht. apply filter_In in Ht. tauto. }
           assert (Hne : x <> t) by (intros ->; contradiction).
           rewrite write_result_other_row; auto.
    + now apply IH.
Qed.

End RowLoopFacts.

(** ** Placement keeps the number of rows *)

Lemma insert_cols_max_row (idx amount : nat) (g : Grid) :
  max_row (insert_cols idx amount g) = max_row g.
Proof.
  unfold max_row, insert_cols. now rewrite length_map.
Qed.

Lemma set_value_max_row (c : nat) (v : Value) (g : Grid) :
  max_row (set_value 1 c v g) = max_row g.
Proof.
  unfold max_row, set_value, update_cell.
  rewrite update_nth_length, pad_length. lia.
Qed.

Lemma place_columns_max_row (g : Grid) (e : option nat) :
  max_row (fst (fst (place_columns g e))) = max_row g.
Proof.
  unfold place_columns.
  destruct e as [e|];
    destruct (find_col g "ActualStatus") as [a0|];
    destruct (find_col g "Status") as [s0|]; simpl;
    repeat match goal with
      | |- context [match ?x with Some _ => _ | None => _ end] => destruct x; simpl
      end;
    repeat (rewrite ?set_value_max_row, ?insert_cols_max_row); reflexivity.
Qed.

(** ** One sheet, then the workbook *)

Lemma reconcile_sheet_rows (links : list (string * nat)) (sheet : Worksheet)
    (es : list Execution) (i t : nat) :
  String.eqb (sheet_state sheet) "visible" = true ->
  nth_error (sheet_targets links sheet) i = Some t ->
  row_at (grid (fst (fst (reconcile_sheet links sheet es)))) t
  = match nth_error es i with
    | Some e =>
        result_row (actual_col (grid sheet)) (status_col (grid sheet)) e
          (row_at (placed_grid (grid sheet)) t)
    | None => row_at (placed_grid (grid sheet)) t
    end.
Proof.
  intros Hvis Ht. unfold sheet_targets in Ht. rewrite Hvis in Ht.
  unfold reconcile_sheet, actual_col, status_col, placed_grid, placed, headers_norm.
  pose proof (place_columns_max_row (grid sheet)
                (find_synonym_col "expected_status"
                   (map (fun c => _norm (value c)) (first_row (grid sheet))))) as Hmax.
  destruct (place_columns (grid sheet) _) as [[g a] s] eqn:Ep. simpl in Hmax |- *.
  rewrite Hmax.
  pose proof (write_rows_rows links (title sheet) a s
                (find_synonym_col "id" (map (fun c => _norm (value c)) (first_row (grid sheet))))
                (seq 2 (max_row (grid sheet) - 1))) as Hrows.
  destruct (write_rows links (title sheet) a s _ (seq 2 (max_row (grid sheet) - 1)) g es)
    as [[g' it] ids] eqn:Ew.
  simpl. specialize (Hrows (seq_NoDup _ _)).
  assert (Hpos : forall x, In x (seq 2 (max_row (grid sheet) - 1)) -> 1 <= x).
  { intros x Hx. apply in_seq in Hx. lia. }
  specialize (Hrows Hpos g es i t Ht). rewrite Ew in Hrows. exact Hrows.
Qed.

Lemma reconcile_sheet_remaining (links : list (string * nat)) (sheet : Worksheet)
    (es : list Execution) :
  String.eqb (sheet_state sheet) "visible" = true ->
  snd (fst (reconcile_sheet links sheet es))
  = skipn (List.length (sheet_targets links sheet)) es.
Proof.
  intros Hvis. unfold sheet_targets. rewrite Hvis.
  unfold reconcile_sheet.
  pose proof (place_columns_max_row (grid sheet)
                (find_synonym_col "expected_status"
                   (map (fun c => _norm (value c)) (first_row (grid sheet))))) as Hmax.
  destruct (place_columns (grid sheet) _) as [[g a] s] eqn:Ep. simpl in Hmax.
  pose proof (write_rows_remaining links (title sheet) a s
                (find_synonym_col "id" (map (fun c => _norm (value c)) (first_row (grid sheet))))
                (seq 2 (max_row g - 1)) g es) as Hrem.
  destruct (write_rows links (title sheet) a s _ (seq 2 (max_row g - 1)) g es)
    as [[g' it] ids] eqn:Ew.
  simpl in *. now rewrite <- Hmax.
Qed.

Lemma reconcile_rows (links : list (string * nat)) (wb : list Worksheet) :
  forall (es : list Execution) (i si r : nat),
    nth_error (targets links wb) i = Some (si, r) ->
    exists sheet sheet',
      nth_error wb si = Some sheet /\
      nth_error (fst (reconcile links wb es)) si = Some sheet' /\
      row_at (grid sheet') r
      = match nth_error es i with
        | Some e =>
            result_row (actual_col (grid sheet)) (status_col (grid sheet)) e
              (row_at (placed_grid (grid sheet)) r)
        | None => row_at (placed_grid (grid sheet)) r
        end.
Proof.
  induction wb as [|sheet rest IH]; intros es i si r Ht; simpl in Ht.
  - destruct i; discriminate.
  - simpl.
    destruct (String.eqb (sheet_state sheet) "visible") eqn:Hvis; simpl.
    + pose proof (reconcile_sheet_rows links sheet es) as Hhere.
      pose proof (reconcile_sheet_remaining links sheet es Hvis) as Hrem.
      destruct (reconcile_sheet links sheet es) as [[sheet1 it] ids] eqn:Es.
      simpl in Hhere, Hrem.
      destruct (Nat.lt_ge_cases i (List.length (sheet_targets links sheet))) as [Hi|Hi].
      * rewrite nth_error_app1 in Ht by (now rewrite length_map).
        rewrite nth_error_map in Ht.
        destruct (nth_error (sheet_targets links sheet) i) as [t|] eqn:Et; [|discriminate].
        injection Ht as <- <-.
        destruct (reconcile links rest it) as [rest' more].
        exists sheet, sheet1. repeat split. now apply Hhere.
      * rewrite nth_error_app2 in Ht by (now rewrite length_map).
        rewrite length_map, nth_error_map in Ht.
        destruct (nth_error (targets links rest) (i - List.length (sheet_targets links sheet)))
          as [[sj rj]|] eqn:Et; [|discriminate].
        simpl in Ht. injection Ht as <- <-.
        destruct (IH it _ _ _ Et) as (sh & sh' & Hin & Hout & Hrow).
        destruct (reconcile links rest it) as [rest' more].
        exists sh, sh'. repeat split; auto.
        rewrite Hrow, Hrem, nth_error_skipn.
        replace (List.length (sheet_targets links sheet)
                 + (i - List.length (sheet_targets links sheet))) with i by lia.
        reflexivity.
    + unfold sheet_targets in Ht. rewrite Hvis in Ht. simpl in Ht.
      rewrite nth_error_map in Ht.
      destruct (nth_error (targets links rest) i) as [[sj rj]|] eqn:Et; [|discriminate].
      simpl in Ht. injection Ht as <- <-.
      destruct (IH es _ _ _ Et) as (sh & sh' & Hin & Hout & Hrow).
      destruct (reconcile links rest es) as [rest' more].
      exists sh, sh'. repeat split; auto.
Qed.

(** ** Placement of the result columns *)

Section SpliceFacts.
Context {A : Type}.

Lemma update_nth_middle (f : A -> A) (l1 l2 : list A) (x : A) :
  update_nth (List.length l1) f (l1 ++ x :: l2) = l1 ++ f x :: l2.
Proof.
  induction l1 as [|y l1 IH]; simpl; [reflexivity | now rewrite IH].
Qed.

Lemma update_nth_split (n : nat) (f : A -> A) (l1 l2 : list A) (x : A) :
  List.length l1 = n -> update_nth n f (l1 ++ x :: l2) = l1 ++ f x :: l2.
Proof. intros <-. apply update_nth_middle. Qed.

Lemma pad_enough (n : nat) (d : A) (l : list A) :
  n <= List.length l -> pad n d l = l.
Proof.
  intros Hn. unfold pad. replace (n - List.length l) with 0 by lia.
  simpl. apply app_nil_r.
Qed.

Lemma pad_one_more (n : nat) (d : A) (l : list A) :
  List.length l <= n -> pad (S n) d l = pad n d l ++ [d].
Proof.
  intros Hn. unfold pad. replace (S n - List.length l) with (S (n - List.length l)) by lia.
  rewrite <- app_assoc. f_equal. simpl. apply repeat_cons.
Qed.

End SpliceFacts.

Lemma first_row_is_row_1 (g : Grid) : row_at g 1 = first_row g.
Proof. unfold row_at, first_row. now destruct g. Qed.

Lemma first_row_set_value (c : nat) (v : Value) (g : Grid) :
  first_row (set_value 1 c v g)
  = update_nth (c - 1) (fun x => {| value := v; fill := fill x |}) (pad c blank_cell (first_row g)).
Proof.
  rewrite <- !first_row_is_row_1. unfold set_value. now rewrite update_cell_row.
Qed.

Lemma first_row_insert_cols (idx amount : nat) (g : Grid) :
  1 <= idx ->
  first_row (insert_cols idx amount g)
  = if (idx <=? List.length (first_row g))%nat
    then firstn (idx - 1) (first_row g) ++ repeat blank_cell amount ++ skipn (idx - 1) (first_row g)
    else first_row g.
Proof.
  intros Hidx. unfold first_row, insert_cols.
  destruct g as [|r g]; simpl; [|reflexivity].
  destruct (Nat.leb_spec idx 0); [lia | reflexivity].
Qed.

(** Inserting one column after column [p] and labelling it, seen on the
    header row. *)
Lemma label_after_insert (p : nat) (name : string) (g : Grid) :
  p <= List.length (first_row g) ->
  first_row (set_value 1 (p + 1) (VStr name) (insert_cols (p + 1) 1 g))
  = firstn p (first_row g) ++ labelled name :: skipn p (first_row g).
Proof.
  intros Hp. rewrite first_row_set_value, first_row_insert_cols by lia.
  replace (p + 1 - 1) with p by lia.
  set (H := first_row g) in *.
  assert (Hlen : List.length (firstn p H) = p) by (rewrite length_firstn; lia).
  destruct (Nat.leb_spec (p + 1) (List.length H)) as [Hin|Hout].
  - rewrite pad_enough
      by (rewrite !length_app, Hlen, repeat_length, length_skipn; lia).
    simpl repeat. simpl app at 2.
    now rewrite (update_nth_split p) by exact Hlen.
  - rewrite firstn_all2, skipn_all2 by lia.
    replace (p + 1) with (S p) by lia.
    rewrite pad_one_more, pad_enough by lia.
    now rewrite (update_nth_split p) by lia.
Qed.

(** Inserting two columns after column [p] and labelling both. *)
Lemma label_two_after_insert (p : nat) (n1 n2 : string) (g : Grid) :
  p <= List.length (first_row g) ->
  first_row (set_value 1 (p + 2) (VStr n2)
               (set_value 1 (p + 1) (VStr n1) (insert_cols (p + 1) 2 g)))
  = firstn p (first_row g) ++ labelled n1 :: labelled n2 :: skipn p (first_row g).
Proof.
  intros Hp. rewrite !first_row_set_value, first_row_insert_cols by lia.
  replace (p + 1 - 1) with p by lia. replace (p + 2 - 1) with (S p) by lia.
  set (H := first_row g) in *.
  assert (Hlen : List.length (firstn p H) = p) by (rewrite length_firstn; lia).
  destruct (Nat.leb_spec (p + 1) (List.length H)) as [Hin|Hout].
  - rewrite (pad_enough (p + 1))
      by (rewrite !length_app, Hlen, repeat_length, length_skipn; lia).
    simpl repeat. simpl app at 2.
    rewrite (update_nth_split p) by exact Hlen.
    rewrite pad_enough by (rewrite length_app, Hlen; simpl; rewrite length_skipn; lia).
    change (firstn p H ++ {| value := VStr n1; fill := fill blank_cell |} :: blank_cell :: skipn p H)
      with (firstn p H ++ [labelled n1] ++ blank_cell :: skipn p H).
    rewrite app_assoc.
    rewrite (update_nth_split (S p)) by (rewrite length_app, Hlen; simpl; lia).
    rewrite <- app_assoc. reflexivity.
  - rewrite firstn_all2, skipn_all2 by lia.
    replace (p + 1) with (S p) by lia. replace (p + 2) with (S (S p)) by lia.
    rewrite (pad_one_more p), (pad_enough p) by lia.
    rewrite (update_nth_split p) by lia.
    rewrite pad_one_more, pad_enough by (rewrite length_app; simpl; lia).
    change ({| value := VStr n1; fill := fill blank_cell |}) with (labelled n1).
    rewrite (update_nth_split (S p)) by (rewrite length_app; simpl; lia).
    rewrite <- app_assoc. reflexivity.
Qed.

(** *** Looking up headers *)

Lemma find_from_bounds (name : string) (row : list Cell) :
  forall k i, find_from name k row = Some i -> k <= i < k + List.length row.
Proof.
  induction row as [|c row IH]; intros k i Hf; simpl in *; [discriminate|].
  destruct (value_is name (value c)).
  - injection Hf as <-. lia.
  - apply IH in Hf. lia.
Qed.

Lemma find_from_present (name : string) (row : list Cell) :
  forall k, (exists c, In c row /\ value_is name (value c) = true) ->
            find_from name k row <> None.
Proof.
  induction row as [|c row IH]; intros k (x & Hin & Hx); simpl; [destruct Hin|].
  destruct (value_is name (value c)) eqn:Hc; [discriminate|].
  destruct Hin as [->|Hin]; [congruence|].
  apply IH. now exists x.
Qed.

Lemma find_from_witness (name : string) (row : list Cell) :
  forall k, find_from name k row <> None ->
            exists c, In c row /\ value_is name (value c) = true.
Proof.
  induction row as [|c row IH]; intros k Hf; simpl in *; [congruence|].
  destruct (value_is name (value c)) eqn:Hc.
  - exists c. split; [now left | assumption].
  - destruct (IH _ Hf) as (x & Hin & Hx). exists x. split; [now right | assumption].
Qed.

Lemma index_of_bound (x : string) (l : list string) :
  forall i, index_of x l = Some i -> i < List.length l.
Proof.
  induction l as [|y l IH]; intros i Hi; simpl in *; [discriminate|].
  destruct (String.eqb x y).
  - injection Hi as <-. lia.
  - destruct (index_of x l) as [j|]; [|discriminate].
    injection Hi as <-. specialize (IH j eq_refl). lia.
Qed.

Lemma index_of_present (x : string) (l : list string) :
  In x l -> index_of x l <> None.
Proof.
  induction l as [|y l IH]; intros Hin; simpl; [destruct Hin|].
  destruct (String.eqb_spec x y) as [_|Hne]; [discriminate|].
  destruct Hin as [->|Hin]; [congruence|].
  destruct (index_of x l); [discriminate | now apply IH].
Qed.

Lemma first_some_found {A B : Type} (f : A -> option B) (l : list A) (y : B) :
  first_some f l = Some y -> exists x, In x l /\ f x = Some y.
Proof.
  induction l as [|x l IH]; simpl; [discriminate|].
  destruct (f x) as [z|] eqn:Hx.
  - intros [= <-]. exists x. split; [now left | assumption].
  - intros Hy. destruct (IH Hy) as (w & Hin & Hw). exists w. split; [now right | assumption].
Qed.

Lemma first_some_present {A B : Type} (f : A -> option B) (l : list A) (x : A) :
  In x l -> f x <> None -> first_some f l <> None.
Proof.
  induction l as [|z l IH]; intros Hin Hx; simpl; [destruct Hin|].
  destruct (f z) eqn:Hz; [discriminate|].
  destruct Hin as [->|Hin]; [congruence | now apply IH].
Qed.

Lemma synonym_col_bounds (logical : string) (hs : list string) (e : nat) :
  find_synonym_col logical hs = Some e -> 1 <= e <= List.length hs.
Proof.
  unfold find_synonym_col. intros Hf.
  apply first_some_found in Hf. destruct Hf as (syn & _ & Hsyn).
  destruct (index_of (_norm (VStr syn)) hs) as [i|] eqn:Hi; [|discriminate].
  injection Hsyn as <-. apply index_of_bound in Hi. lia.
Qed.

Lemma headers_norm_length (g : Grid) :
  List.length (headers_norm g) = List.length (first_row g).
Proof. unfold headers_norm. apply length_map. Qed.

(** A header cell that reads exactly [Status] is also a synonym of the
    expected status. *)
Lemma status_header_resolves_expected (g : Grid) :
  find_col g "Status" <> None ->
  find_synonym_col "expected_status" (headers_norm g) <> None.
Proof.
  intros Hs. apply find_from_witness in Hs. destruct Hs as (c & Hin & Hc).
  unfold find_synonym_col. simpl PyDict.get. cbv iota.
  apply first_some_present with (x := "status").
  - simpl. tauto.
  - assert (Hn : In "status" (headers_norm g)).
    { unfold headers_norm. apply in_map_iff. exists c. split; [|assumption].
      destruct (value c) as [|t|z]; simpl in Hc; try discriminate.
      apply String.eqb_eq in Hc. subst t. reflexivity. }
    change (_norm (VStr "status")) with "status".
    destruct (index_of "status" (headers_norm g)) eqn:Hi; [discriminate|].
    exfalso. now apply (index_of_present _ _ Hn).
Qed.

Lemma first_row_within_max_column (g : Grid) :
  List.length (first_row g) <= max_column g.
Proof.
  unfold max_column, first_row, list_max.
  destruct g as [|r g]; cbn [map fold_right hd List.length]; lia.
Qed.

(** Writing a label one column past the right edge. *)
Lemma label_at_edge (m : nat) (name : string) (g : Grid) :
  List.length (first_row g) <= m ->
  first_row (set_value 1 (m + 1) (VStr name) g)
  = pad m blank_cell (first_row g) ++ [labelled name].
Proof.
  intros Hm. rewrite first_row_set_value.
  replace (m + 1 - 1) with m by lia. replace (m + 1) with (S m) by lia.
  rewrite pad_one_more by assumption.
  now rewrite (update_nth_split m) by (rewrite pad_length; lia).
Qed.

(** *** The cases of [place_columns] *)

Lemma find_col_has_header (g : Grid) (name : string) :
  find_col g name <> None <-> has_header g name.
Proof.
  unfold find_col, has_header. split.
  - apply find_from_witness.
  - apply find_from_present.
Qed.

Lemma labelled_is (name : string) : value_is name (value (labelled name)) = true.
Proof. simpl. apply String.eqb_refl. Qed.

Lemma in_splice {A : Type} (p : nat) (x y : A) (l : list A) :
  In y l -> In y (firstn p l ++ x :: skipn p l).
Proof.
  intros Hy. rewrite <- (firstn_skipn p l) in Hy.
  apply in_app_or in Hy. apply in_or_app. simpl. tauto.
Qed.

Lemma place_columns_both_present (g : Grid) (e : option nat) (a0 s0 : nat) :
  find_col g "ActualStatus" = Some a0 -> find_col g "Status" = Some s0 ->
  place_columns g e = (g, a0, s0).
Proof.
  intros Ha Hs. unfold place_columns. rewrite Ha, Hs. now destruct e.
Qed.

Lemma place_only_actual_missing (g : Grid) (e : nat) :
  e <= List.length (first_row g) ->
  find_col g "ActualStatus" = None -> find_col g "Status" <> None ->
  exists s,
    place_columns g (Some e)
    = (set_value 1 (e + 1) (VStr "ActualStatus") (insert_cols (e + 1) 1 g), e + 1, s)
    /\ find_col (set_value 1 (e + 1) (VStr "ActualStatus") (insert_cols (e + 1) 1 g)) "Status"
       = Some s.
Proof.
  intros He Ha Hs. unfold place_columns. rewrite Ha.
  destruct (find_col g "Status") as [s0|] eqn:Es; [clear Hs|congruence].
  set (g1 := set_value 1 (e + 1) (VStr "ActualStatus") (insert_cols (e + 1) 1 g)).
  assert (Hs1 : find_col g1 "Status" <> None).
  { apply find_col_has_header.
    assert (Hh : has_header g "Status") by (apply find_col_has_header; congruence).
    destruct Hh as (c & Hin & Hc). exists c. split; [|assumption].
    unfold g1. rewrite label_after_insert by assumption. now apply in_splice. }
  destruct (find_col g1 "Status") as [s|] eqn:Es1; [|congruence].
  exists s. split; reflexivity.
Qed.

Lemma place_only_status_missing (g : Grid) (e a0 : nat) :
  find_col g "ActualStatus" = Some a0 -> find_col g "Status" = None ->
  place_columns g (Some e)
  = (set_value 1 (a0 + 1) (VStr "Status") (insert_cols (a0 + 1) 1 g), a0, a0 + 1)
  /\ a0 <= List.length (first_row g).
Proof.
  intros Ha Hs. unfold place_columns. rewrite Ha, Hs.
  apply find_from_bounds in Ha.
  destruct (Nat.eqb_spec a0 0) as [Hz|_]; [lia|].
  split; [reflexivity | lia].
Qed.

(** After the placement both labels are in the header row. *)
Lemma placement_leaves_both_headers (g : Grid) :
  has_header (placed_grid g) "ActualStatus" /\ has_header (placed_grid g) "Status".
Proof.
  unfold placed_grid, placed.
  destruct (find_synonym_col "expected_status" (headers_norm g)) as [e|] eqn:EE.
  - assert (He : e <= List.length (first_row g)).
    { apply synonym_col_bounds in EE. rewrite headers_norm_length in EE. lia. }
    destruct (find_col g "ActualStatus") as [a0|] eqn:Ea;
      destruct (find_col g "Status") as [s0|] eqn:Es.
    + rewrite (place_columns_both_present g _ a0 s0) by assumption. cbn [fst snd].
      split; apply find_col_has_header; congruence.
    + destruct (place_only_status_missing g e a0 Ea Es) as [-> Ha0]. cbn [fst snd].
      assert (Hh : has_header g "ActualStatus") by (apply find_col_has_header; congruence).
      destruct Hh as (c & Hin & Hc).
      split; unfold has_header; rewrite label_after_insert by assumption.
      * exists c. split; [now apply in_splice | assumption].
      * exists (labelled "Status"). split; [apply in_or_app; simpl; tauto | apply labelled_is].
    + destruct (place_only_actual_missing g e He Ea) as (s & -> & Hs); [congruence|]. cbn [fst snd].
      split.
      * unfold has_header. rewrite label_after_insert by assumption.
        exists (labelled "ActualStatus").
        split; [apply in_or_app; simpl; tauto | apply labelled_is].
      * apply find_col_has_header. congruence.
    + unfold place_columns. rewrite Ea, Es. cbn [fst snd].
      split; unfold has_header; rewrite label_two_after_insert by assumption.
      * exists (labelled "ActualStatus").
        split; [apply in_or_app; simpl; tauto | apply labelled_is].
      * exists (labelled "Status").
        split; [apply in_or_app; simpl; tauto | apply labelled_is].
  - assert (Es : find_col g "Status" = None).
    { destruct (find_col g "Status") eqn:Es; [|reflexivity].
      exfalso. apply (status_header_resolves_expected g); congruence. }
    pose proof (first_row_within_max_column g) as Hm.
    unfold place_columns. rewrite Es.
    destruct (find_col g "ActualStatus") as [a0|] eqn:Ea; cbn [fst snd].
    + assert (Hh : has_header g "ActualStatus") by (apply find_col_has_header; congruence).
      destruct Hh as (c & Hin & Hc).
      split; unfold has_header; rewrite label_at_edge by assumption.
      * exists c. split; [|assumption]. apply in_or_app. left.
        unfold pad. apply in_or_app. now left.
      * exists (labelled "Status"). split; [apply in_or_app; simpl; tauto | apply labelled_is].
    + split; unfold has_header;
        rewrite label_at_edge by (rewrite label_at_edge, length_app, pad_length by assumption;
                                  simpl; lia);
        rewrite label_at_edge by assumption.
      * exists (labelled "ActualStatus"). split; [|apply labelled_is].
        apply in_or_app. left. unfold pad at 1. apply in_or_app. left.
        apply in_or_app. simpl. tauto.
      * exists (labelled "Status"). split; [apply in_or_app; simpl; tauto | apply labelled_is].
Qed.

(** C6 (amended).  When both an "ActualStatus" and a "Status" header exist the
    sheet is left as it is, and placing the columns a second time changes
    nothing.  When only "ActualStatus" is missing, one column is inserted
    immediately right of the expected-status column; when only "Status" is
    missing and an expected-status column resolves, one column is inserted
    immediately right of "ActualStatus".  When no expected-status column
    resolves, no "Status" header exists either and the missing labels are
    written past the sheet's right edge. *)
Theorem result_columns_placement (g : Grid) :
  (forall a0 s0,
      find_col g "ActualStatus" = Some a0 -> find_col g "Status" = Some s0 ->
      placed g = (g, a0, s0))
  /\ (forall e' : option nat,
        fst (fst (place_columns (placed_grid g) e')) = placed_grid g)
  /\ (forall e s0,
        find_synonym_col "expected_status" (headers_norm g) = Some e ->
        find_col g "ActualStatus" = None -> find_col g "Status" = Some s0 ->
        placed_grid g = set_value 1 (e + 1) (VStr "ActualStatus") (insert_cols (e + 1) 1 g)
        /\ first_row (placed_grid g)
           = firstn e (first_row g) ++ labelled "ActualStatus" :: skipn e (first_row g)
        /\ actual_col g = e + 1)
  /\ (forall e a0,
        find_synonym_col "expected_status" (headers_norm g) = Some e ->
        find_col g "ActualStatus" = Some a0 -> find_col g "Status" = None ->
        placed_grid g = set_value 1 (a0 + 1) (VStr "Status") (insert_cols (a0 + 1) 1 g)
        /\ first_row (placed_grid g)
           = firstn a0 (first_row g) ++ labelled "Status" :: skipn a0 (first_row g)
        /\ actual_col g = a0 /\ status_col g = a0 + 1)
  /\ (find_synonym_col "expected_status" (headers_norm g) = None ->
        find_col g "Status" = None
        /\ first_row (placed_grid g)
           = pad (max_column g) blank_cell (first_row g)
             ++ match find_col g "ActualStatus" with
                | Some _ => [labelled "Status"]
                | None => [labelled "ActualStatus"; labelled "Status"]
                end).
Proof.
  assert (Hbound : forall e,
             find_synonym_col "expected_status" (headers_norm g) = Some e ->
             e <= List.length (first_row g)).
  { intros e He. apply synonym_col_bounds in He. rewrite headers_norm_length in He. lia. }
  assert (Hno_status : find_synonym_col "expected_status" (headers_norm g) = None ->
                       find_col g "Status" = None).
  { intros He. destruct (find_col g "Status") eqn:Es; [|reflexivity].
    exfalso. apply (status_header_resolves_expected g); congruence. }
  split; [|split; [|split; [|split]]].
  - intros a0 s0 Ha Hs. unfold placed. now apply place_columns_both_present.
  - intros e'.
    destruct (placement_leaves_both_headers g) as [Ha Hs].
    apply find_col_has_header in Ha, Hs.
    destruct (find_col (placed_grid g) "ActualStatus") as [a1|] eqn:Ea; [|congruence].
    destruct (find_col (placed_grid g) "Status") as [s1|] eqn:Es; [|congruence].
    now rewrite (place_columns_both_present _ e' a1 s1).
  - intros e s0 He Ha Hs.
    unfold placed_grid, actual_col, placed. rewrite He.
    destruct (place_only_actual_missing g e (Hbound e He) Ha) as (s & -> & _); [congruence|].
    cbn [fst snd]. repeat split. now apply label_after_insert, Hbound.
  - intros e a0 He Ha Hs.
    unfold placed_grid, actual_col, status_col, placed. rewrite He.
    destruct (place_only_status_missing g e a0 Ha Hs) as [-> Ha0].
    cbn [fst snd]. repeat split. now apply label_after_insert.
  - intros He. split; [now apply Hno_status|].
    pose proof (first_row_within_max_column g) as Hm.
    unfold placed_grid, placed, place_columns. rewrite He, (Hno_status He).
    destruct (find_col g "ActualStatus") as [a0|]; cbn [fst snd].
    + now apply label_at_edge.
    + rewrite label_at_edge
        by (rewrite label_at_edge, length_app, pad_length by assumption; simpl; lia).
      rewrite label_at_edge by assumption.
      rewrite pad_enough by (rewrite length_app, pad_length; simpl; lia).
      now rewrite <- app_assoc.
Qed.

(** C6, the claim as stated, fails: with the headers ExpectedStatus, Notes,
    Status the missing "ActualStatus" goes next to the expected-status
    column, two columns away from the "Status" column that exists. *)
Lemma actual_status_not_next_to_status :
  let g := [cells [VStr "ExpectedStatus"; VStr "Notes"; VStr "Status"]] in
  find_col g "ActualStatus" = None
  /\ find_col g "Status" = Some 3
  /\ values_of (placed_grid g)
     = [[VStr "ExpectedStatus"; VStr "ActualStatus"; VStr "Notes"; VStr "Status"]]
  /\ actual_col g = 2 /\ status_col g = 4
  /\ ~ (actual_col g = status_col g + 1 \/ status_col g = actual_col g + 1).
Proof.
  vm_compute. repeat split; try reflexivity. intros [H|H]; discriminate.
Qed.

(** ** Script lines *)

Lemma append_assoc (a b c : string) : (a +++ b) +++ c = a +++ b +++ c.
Proof. induction a as [|x a IH]; simpl; [reflexivity | now rewrite IH]. Qed.

Lemma append_empty_r (a : string) : a +++ EmptyString = a.
Proof. induction a as [|x a IH]; simpl; [reflexivity | now rewrite IH]. Qed.

Lemma prefix_append (m b : string) : String.prefix m (m +++ b) = true.
Proof.
  induction m as [|x m IH]; simpl; [now destruct b|].
  destruct (ascii_dec x x); [assumption | congruence].
Qed.

Lemma substringb_of_prefix (m t : string) :
  String.prefix m t = true -> PyStr.substringb m t = true.
Proof.
  intros Hp. destruct t as [|c t].
  - destruct m; [reflexivity | discriminate].
  - change (PyStr.substringb m (String c t))
      with (String.prefix m (String c t) || PyStr.substringb m t).
    now rewrite Hp.
Qed.

Lemma substringb_middle (a m b : string) : PyStr.substringb m (a +++ m +++ b) = true.
Proof.
  induction a as [|x a IH].
  - change (EmptyString +++ m +++ b) with (m +++ b).
    apply substringb_of_prefix, prefix_append.
  - change (String x a +++ m +++ b) with (String x (a +++ m +++ b)).
    change (PyStr.substringb m (String x (a +++ m +++ b)))
      with (String.prefix m (String x (a +++ m +++ b)) || PyStr.substringb m (a +++ m +++ b)).
    rewrite IH. apply orb_true_r.
Qed.

Section ScriptFacts.
Context `{PyLib}.

(** A test block whose title has a fragment that does not occur in the
    validity check's line cannot produce that line. *)
Lemma test_block_fresh (title field mid rest value_expr tail : string) :
  title = field +++ mid +++ rest ->
  PyStr.substringb mid check_title_tail = false ->
  ~ In json_check_line (test_block title value_expr tail).
Proof.
  intros -> Hmid Hin. unfold test_block in Hin. simpl in Hin.
  destruct Hin as [Heq|[Heq|[Heq|[Heq|[]]]]]; try discriminate.
  unfold json_check_line in Heq. injection Heq as Heq.
  rewrite !append_assoc in Heq.
  pose proof (substringb_middle field mid (rest +++ "', function () {")) as Hsub.
  rewrite Heq in Hsub. unfold check_title_tail in Hmid. congruence.
Qed.

Lemma condition_tests_fresh (field value_expr op : string) (expected : JValue) :
  ~ In json_check_line (condition_tests field value_expr op expected).
Proof.
  unfold condition_tests. cbv zeta.
  repeat match goal with
    | |- ~ In _ (if ?b then _ else _) => destruct b
    end;
    lazymatch goal with
    | |- ~ In _ [] => intros []
    | |- ~ In _ (test_block (?f +++ ?m +++ ?r) _ _) =>
        apply (test_block_fresh _ f m r); [reflexivity | vm_compute; reflexivity]
    | |- ~ In _ (test_block (?f +++ ?m) _ _) =>
        apply (test_block_fresh _ f m EmptyString);
        [now rewrite append_empty_r | vm_compute; reflexivity]
    end.
Qed.

Lemma field_tests_fresh (entry : string * JValue) :
  ~ In json_check_line (field_tests entry).
Proof.
  destruct entry as [field conditions]. unfold field_tests.
  destruct (as_dict conditions) as [conds|]; [|intros []].
  intros Hin. apply in_flat_map in Hin. destruct Hin as (c & _ & Hc).
  now apply condition_tests_fresh in Hc.
Qed.

Lemma fields_fresh (d : PyDict.t JValue) :
  ~ In json_check_line (flat_map field_tests d).
Proof.
  intros Hin. apply in_flat_map in Hin. destruct Hin as (e & _ & He).
  now apply field_tests_fresh in He.
Qed.

Lemma status_lines_fresh (n : Z) : ~ In json_check_line (status_lines n).
Proof.
  unfold status_lines. simpl. intros [Heq|[Heq|[Heq|[]]]]; discriminate.
Qed.

Lemma count_occ_fresh (l : list string) (x : string) :
  ~ In x l -> count_occ string_dec l x = 0.
Proof. apply count_occ_not_In. Qed.

Lemma status_part_fresh (o : option Z) : ~ In json_check_line (status_part o).
Proof. destruct o; [apply status_lines_fresh | intros []]. Qed.

Lemma build_script_shape (expected_status : option Z) (d : PyDict.t JValue) :
  build_script expected_status d
  = status_part expected_status
    ++ match d with
       | [] => []
       | _ :: _ => preamble ++ flat_map field_tests d
       end.
Proof. unfold build_script, status_part, _build_assertion_tests. now destruct d. Qed.

Lemma preamble_has_one_check : count_occ string_dec preamble json_check_line = 1.
Proof. vm_compute. reflexivity. Qed.

Lemma build_script_checks (expected_status : option Z) (d : PyDict.t JValue) :
  count_occ string_dec (build_script expected_status d) json_check_line
  = match d with [] => 0 | _ :: _ => 1 end.
Proof.
  rewrite build_script_shape, count_occ_app.
  rewrite (count_occ_fresh _ _ (status_part_fresh expected_status)).
  destruct d as [|e d]; [reflexivity|].
  rewrite count_occ_app, preamble_has_one_check.
  now rewrite (count_occ_fresh _ _ (fields_fresh (e :: d))).
Qed.

End ScriptFacts.

(** ** What a compiled row holds *)

Section CompiledRow.
Context `{PyLib}.
Variable base_url_override : option string.
Variable cols : Columns.
Variable sheet_title : string.

Lemma process_row_compiled (st st' : Sticky) (row_num : nat) (row : list Cell)
    (key display : string) (item : Item) :
  process_row base_url_override cols sheet_title st row_num row
  = (st', Some (key, display, item)) ->
  let rv := snd (normalize_row cols st row) in
  row_is_blank row = false
  /\ exists url,
       resolve_url base_url_override (rv_raw_url rv) (rv_base_url rv) (rv_path rv) = Some url
       /\ item_name item = py_str (rv_name rv)
       /\ item_method item = rv_method rv
       /\ item_url item
          = build_url_dict
              (substitute_path_params
                 (parse_path_params (_get_cell row (idx_path_params cols))) url)
              (_parse_kv_text (_get_cell row (idx_query_params cols)))
       /\ script_of item
          = build_script (_safe_int (_get_cell row (idx_expected cols)))
              (parse_assertions (_get_cell row (idx_assertions cols)))
       /\ origin item = (sheet_title, row_num).
Proof.
  unfold process_row. intros Hp.
  destruct (row_is_blank row); [discriminate|].
  destruct (normalize_row cols st row) as [st1 rv] eqn:En. cbn [snd].
  split; [reflexivity|].
  destruct (resolve_url base_url_override (rv_raw_url rv) (rv_base_url rv) (rv_path rv))
    as [url|]; [|discriminate].
  destruct (PyStr.is_empty url); [discriminate|].
  destruct (pick_folder sheet_title (_get_cell row (idx_folder cols)) (last_folder st1))
    as [folder new_folder].
  injection Hp as _ _ _ <-.
  exists url. repeat split. unfold script_of. cbn [item_event].
  now destruct (build_script _ _).
Qed.

(** C2 (amended).  For every row that compiles to a request, the test script
    holds the line of the "Response is valid JSON" check once when the row's
    assertion cell parses to a non-empty mapping and not at all otherwise,
    whether or not there is an expected status.  When it is present the
    script is: the lines of the status assertion (if any), then the preamble
    whose line 6 is the check, then the field assertions; neither the status
    lines nor the field assertions contain the check. *)
Theorem validity_check_only_with_assertions (st st' : Sticky) (row_num : nat)
    (row : list Cell) (key display : string) (item : Item) :
  process_row base_url_override cols sheet_title st row_num row
  = (st', Some (key, display, item)) ->
  let d := parse_assertions (_get_cell row (idx_assertions cols)) in
  let expected := _safe_int (_get_cell row (idx_expected cols)) in
  count_occ string_dec (script_of item) json_check_line
  = match d with [] => 0 | _ :: _ => 1 end
  /\ (d <> [] ->
      script_of item = status_part expected ++ preamble ++ flat_map field_tests d)
  /\ ~ In json_check_line (status_part expected)
  /\ ~ In json_check_line (flat_map field_tests d)
  /\ nth_error preamble 6 = Some json_check_line.
Proof.
  intros Hp d expected.
  apply process_row_compiled in Hp. cbv zeta in Hp.
  destruct Hp as (_ & url & _ & _ & _ & _ & Hs & _).
  rewrite Hs. fold d expected.
  repeat split.
  - apply build_script_checks.
  - intros Hd. rewrite build_script_shape. destruct d; [congruence | reflexivity].
  - apply status_part_fresh.
  - apply fields_fresh.
Qed.

End CompiledRow.

(** C2, the claim as stated, fails: a row with an expected status and no
    assertion cell compiles to a script without the validity check, and a
    row with both has the status assertion on line 0 and the check on
    line 9. *)
Lemma status_only_script_has_no_check :
  let items :=
    flat_requests
      (collection_items (compile_workbook (H := pylib) (Some "https://api.test") [login_sheet])) in
  map (fun i => count_occ string_dec (script_of i) json_check_line) items = [1; 0]
  /\ map (fun i => nth_error (script_of i) 0) items
     = [Some "pm.test('Status code is 200', function () {";
        Some "pm.test('Status code is 204', function () {"]
  /\ map (fun i => nth_error (script_of i) 9) items = [Some json_check_line; None]
  /\ map (fun i => List.length (script_of i)) items = [16; 3].
Proof. vm_compute. repeat split. Qed.

(** ** Dictionaries *)

Section DictFacts.
Context {V : Type}.
Implicit Types (d e : PyDict.t V) (k : string) (v : V).

Lemma get_set_same k v d : PyDict.get k (PyDict.set k v d) = Some v.
Proof.
  induction d as [|[k' v'] d IH]; simpl.
  - now rewrite String.eqb_refl.
  - destruct (String.eqb k k') eqn:E; simpl; rewrite ?String.eqb_refl, ?E; auto.
Qed.

Lemma get_set_other k k' v d :
  k <> k' -> PyDict.get k (PyDict.set k' v d) = PyDict.get k d.
Proof.
  intros Hne. induction d as [|[k2 v2] d IH]; simpl.
  - destruct (String.eqb_spec k k'); [contradiction | reflexivity].
  - destruct (String.eqb_spec k' k2) as [->|Hk]; simpl.
    + destruct (String.eqb_spec k k2); [contradiction | reflexivity].
    + now rewrite IH.
Qed.

Lemma get_none_not_key k d : PyDict.get k d = None <-> ~ In k (PyDict.keys d).
Proof.
  induction d as [|[k' v'] d IH]; simpl; [tauto|].
  destruct (String.eqb_spec k k') as [->|Hne].
  - split; [discriminate | intros Hn; exfalso; apply Hn; now left].
  - rewrite IH. split; [intros Hn [Hk|Hk]; [congruence | contradiction] | tauto].
Qed.

Lemma mem_iff_key k d : PyDict.mem k d = true <-> In k (PyDict.keys d).
Proof.
  unfold PyDict.mem. pose proof (get_none_not_key k d) as Hn.
  destruct (PyDict.get k d).
  - split; [intros _|reflexivity].
    destruct (in_dec string_dec k (PyDict.keys d)) as [Hin|Hnot]; [assumption|].
    apply Hn in Hnot. discriminate.
  - split; [discriminate|]. intros Hin. exfalso. now apply Hn.
Qed.

Lemma keys_set k v d :
  PyDict.keys (PyDict.set k v d)
  = if PyDict.mem k d then PyDict.keys d else PyDict.keys d ++ [k].
Proof.
  unfold PyDict.mem. induction d as [|[k' v'] d IH]; simpl; [reflexivity|].
  destruct (String.eqb_spec k k') as [->|Hne]; simpl; [reflexivity|].
  rewrite IH. now destruct (PyDict.get k d).
Qed.

Lemma keys_set_nodup k v d :
  NoDup (PyDict.keys d) -> NoDup (PyDict.keys (PyDict.set k v d)).
Proof.
  intros Hd. rewrite keys_set. destruct (PyDict.mem k d) eqn:Em; [assumption|].
  apply NoDup_app; [assumption | repeat constructor; intros [] | ].
  intros x Hx [->|[]]. apply mem_iff_key in Hx. congruence.
Qed.

Lemma keys_update_nodup e : forall d,
  NoDup (PyDict.keys d) -> NoDup (PyDict.keys (PyDict.update d e)).
Proof.
  induction e as [|[k v] e IH]; intros d Hd; simpl; [assumption|].
  apply IH. now apply keys_set_nodup.
Qed.

Lemma keys_of_pairs_nodup (l : list (string * V)) : NoDup (PyDict.keys (PyDict.of_pairs l)).
Proof. apply keys_update_nodup. constructor. Qed.

(** [update] applied to a dictionary: its values win, other keys keep the
    value they had. *)
Lemma get_update k e : forall d,
  NoDup (PyDict.keys e) ->
  PyDict.get k (PyDict.update d e)
  = match PyDict.get k e with
    | Some v => Some v
    | None => PyDict.get k d
    end.
Proof.
  induction e as [|[k' v'] e IH]; intros d Hnd; simpl; [reflexivity|].
  inversion Hnd as [|? ? Hnot Hnd']; subst.
  change (PyDict.update d ((k', v') :: e)) with (PyDict.update (PyDict.set k' v' d) e).
  rewrite IH by assumption.
  destruct (String.eqb_spec k k') as [->|Hne].
  - apply get_none_not_key in Hnot. rewrite Hnot. apply get_set_same.
  - destruct (PyDict.get k e); [reflexivity|]. now apply get_set_other.
Qed.

(** [update] keeps the keys of the dictionary in place and appends the new
    ones in their own order. *)
Lemma keys_update e : forall d,
  NoDup (PyDict.keys e) ->
  PyDict.keys (PyDict.update d e)
  = PyDict.keys d ++ filter (fun k => negb (PyDict.mem k d)) (PyDict.keys e).
Proof.
  induction e as [|[k v] e IH]; intros d Hnd; simpl.
  - now rewrite app_nil_r.
  - inversion Hnd as [|? ? Hnot Hnd']; subst.
    change (PyDict.update d ((k, v) :: e)) with (PyDict.update (PyDict.set k v d) e).
    rewrite IH by assumption. rewrite keys_set.
    assert (Hsame : filter (fun k0 => negb (PyDict.mem k0 (PyDict.set k v d))) (PyDict.keys e)
                    = filter (fun k0 => negb (PyDict.mem k0 d)) (PyDict.keys e)).
    { apply filter_ext_in. intros k0 Hk0.
      assert (Hne : k0 <> k) by (intros ->; contradiction).
      unfold PyDict.mem. now rewrite get_set_other. }
    rewrite Hsame.
    destruct (PyDict.mem k d); simpl; [reflexivity|].
    now rewrite <- app_assoc.
Qed.

End DictFacts.

Lemma get_map_values {V W : Type} (f : V -> W) (k : string) (d : PyDict.t V) :
  PyDict.get k (PyDict.map_values f d) = option_map f (PyDict.get k d).
Proof.
  induction d as [|[k' v'] d IH]; simpl; [reflexivity|].
  now destruct (String.eqb k k').
Qed.

Lemma keys_map_values {V W : Type} (f : V -> W) (d : PyDict.t V) :
  PyDict.keys (PyDict.map_values f d) = PyDict.keys d.
Proof.
  unfold PyDict.keys, PyDict.map_values. rewrite map_map. reflexivity.
Qed.

Lemma in_set {V : Type} (k : string) (v : V) (d : PyDict.t V) (kv : string * V) :
  In kv (PyDict.set k v d) -> kv = (k, v) \/ In kv d.
Proof.
  induction d as [|[k' v'] d IH]; simpl.
  - intros [<-|[]]. now left.
  - destruct (String.eqb k k'); simpl.
    + intros [<-|Hin]; [now left | right; now right].
    + intros [<-|Hin]; [right; now left|]. destruct (IH Hin); [now left | right; now right].
Qed.

Lemma in_update {V : Type} (e : list (string * V)) (kv : string * V) :
  forall d : PyDict.t V, In kv (PyDict.update d e) -> In kv d \/ In kv e.
Proof.
  induction e as [|[k v] e IH]; intros d Hin; [now left|].
  change (PyDict.update d ((k, v) :: e)) with (PyDict.update (PyDict.set k v d) e) in Hin.
  destruct (IH _ Hin) as [Hd|He]; [|right; now right].
  destruct (in_set _ _ _ _ Hd) as [->|Hd']; [right; now left | now left].
Qed.

Lemma in_of_pairs {V : Type} (l : list (string * V)) (kv : string * V) :
  In kv (PyDict.of_pairs l) -> In kv l.
Proof. intros Hin. destruct (in_update l kv [] Hin) as [[]|Hl]. exact Hl. Qed.



Section QueryMerge.
Context `{PyLib}.

Lemma parse_kv_text_keys_nodup (text : Value) : NoDup (PyDict.keys (_parse_kv_text text)).
Proof.
  unfold _parse_kv_text.
  destruct (negb (truthy text)); [constructor|].
  destruct (PyStr.is_empty _); [constructor|].
  destruct (json_loads _) as [obj|].
  - destruct (as_dict obj) as [d|] eqn:Ed.
    + destruct obj; try discriminate. injection Ed as <-. apply keys_of_pairs_nodup.
    + destruct (_ && _); apply keys_of_pairs_nodup.
  - destruct (_ && _); apply keys_of_pairs_nodup.
Qed.

End QueryMerge.

(** The merge for whatever pairs [parse_qsl] returns, with the example of
    the specification evaluated. *)
Lemma query_merge_of_parsed_pairs (L : PyLib) (url : string) (cell : Value) :
  let row := _parse_kv_text cell in
  let existing := PyDict.of_pairs (parse_qsl (query (urlparse url))) in
  let merged := merge_query (parse_qsl (query (urlparse url))) row in
  (forall k,
      PyDict.get k merged
      = match PyDict.get k row with
        | Some v => Some (jstr v)
        | None => PyDict.get k existing
        end)
  /\ PyDict.keys merged
     = PyDict.keys existing
       ++ filter (fun k => negb (PyDict.mem k existing)) (PyDict.keys row)
  /\ url_query (build_url_dict url row)
     = match merged with [] => None | _ :: _ => Some merged end
  /\ raw (build_url_dict url row)
     = urlunparse
         {| scheme := scheme (urlparse url);
            netloc := netloc (urlparse url);
            path := path (urlparse url);
            params := params (urlparse url);
            query := urlencode merged;
            fragment := fragment (urlparse url) |}
  /\ build_url_dict (H := pylib) "https://h/p?a=1"
       (_parse_kv_text (H := pylib)
          (VStr ("{" +++ Lib.quoted "a" +++ ": 2, " +++ Lib.quoted "b" +++ ": 3}")))
     = {| raw := "https://h/p?a=2&b=3";
          protocol := Some "https";
          host := Some ["h"];
          url_path := Some ["p"];
          url_query := Some [("a", "2"); ("b", "3")] |}.
Proof.
  intros row existing merged.
  assert (Hnd : NoDup (PyDict.keys (PyDict.map_values jstr row))).
  { rewrite keys_map_values. apply parse_kv_text_keys_nodup. }
  repeat split.
  - intros k. unfold merged, merge_query.
    rewrite get_update by assumption. rewrite get_map_values.
    now destruct (PyDict.get k row).
  - unfold merged, merge_query.
    rewrite keys_update by assumption. now rewrite keys_map_values.
Qed.

(** The executable [parse_qsl] returns the pairs with a value, for every
    query string. *)
Lemma parse_qsl_keeps_pairs_with_a_value (qs : string) :
  Lib.parse_qsl qs = kept_pairs unquote_plus qs.
Proof.
  unfold Lib.parse_qsl, kept_pairs, query_fields.
  induction (PyStr.split_on "&" qs) as [|f fs IH]; [reflexivity|].
  cbn [flat_map]. rewrite filter_app, map_app, IH. f_equal.
  destruct f as [|c f]; [reflexivity|].
  cbn [PyStr.is_empty].
  destruct (PyStr.split1 "=" (String c f)) as [[n v]|]; [|reflexivity].
  cbn [filter]. unfold has_value. cbn [snd].
  destruct (PyStr.is_empty v); reflexivity.
Qed.




(** ** URL precedence *)




Section UrlOfRow.
Context `{PyLib}.
Variable base_url_override : option string.
Variable cols : Columns.
Variable sheet_title : string.

Lemma normalize_row_values (st : Sticky) (row : list Cell) :
  let rv := snd (normalize_row cols st row) in
  rv_raw_url rv
  = (if not_blank (_get_cell row (idx_url cols))
     then Some (py_str (_get_cell row (idx_url cols))) else last_raw_url st)
  /\ rv_base_url rv
     = (if not_blank (_get_cell row (idx_base cols))
        then Some (py_str (_get_cell row (idx_base cols))) else last_base_url st)
  /\ rv_path rv
     = (if not_blank (_get_cell row (idx_path cols))
        then Some (py_str (_get_cell row (idx_path cols))) else last_path st).
Proof.
  unfold normalize_row, carry_text.
  destruct (not_blank (_get_cell row (idx_url cols)));
    destruct (not_blank (_get_cell row (idx_base cols)));
    destruct (not_blank (_get_cell row (idx_path cols))); repeat split.
Qed.

End UrlOfRow.



(** ** Sticky fields *)

Lemma last_opt_cons {A : Type} (x : A) (l : list A) :
  last_opt (x :: l) = match last_opt l with Some y => Some y | None => Some x end.
Proof.
  destruct l as [|y l]; [reflexivity|].
  change (last_opt (x :: y :: l)) with (last_opt (y :: l)).
  destruct (last_opt (y :: l)) eqn:E; [reflexivity|].
  exfalso. revert y E. induction l as [|z l IH]; intros y E; [discriminate|].
  now apply (IH z).
Qed.

Lemma last_opt_app {A : Type} (l1 l2 : list A) :
  last_opt (l1 ++ l2) = match last_opt l2 with Some x => Some x | None => last_opt l1 end.
Proof.
  induction l1 as [|x l1 IH].
  - simpl. now destruct (last_opt l2).
  - change ((x :: l1) ++ l2) with (x :: (l1 ++ l2)).
    rewrite !last_opt_cons, IH.
    destruct (last_opt l2); [reflexivity|]. reflexivity.
Qed.

Lemma last_opt_in {A : Type} (l : list A) (x : A) : last_opt l = Some x -> In x l.
Proof.
  induction l as [|y l IH]; simpl; [discriminate|].
  destruct l as [|z l]; [intros [= ->]; now left | intros Hl; right; now apply IH].
Qed.

Lemma of_Z_nonempty (z : Z) : PyStr.is_empty (PyStr.of_Z z) = false.
Proof.
  unfold PyStr.of_Z. destruct (Z.to_int z) as [u|u]; simpl; [|reflexivity].
  unfold NilZero.string_of_uint. now destruct u.
Qed.

Lemma py_str_of_not_blank (v : Value) :
  not_blank v = true -> PyStr.is_empty (py_str v) = false.
Proof.
  destruct v as [|s|z]; simpl; [discriminate | | intros _; apply of_Z_nonempty].
  now destruct s.
Qed.

(** [pick_name] in closed form. *)
Lemma pick_name_own (name_raw tc last : Value) :
  pick_name name_raw tc last
  = if truthy name_raw then name_raw
    else if truthy tc then tc
    else py_or last (VStr "Unnamed").
Proof.
  unfold pick_name, py_or.
  destruct name_raw as [|[|c s]|[|p|p]], tc as [|[|c' s']|[|p'|p']]; simpl; reflexivity.
Qed.

Section StickyFacts.
Context `{PyLib}.
Variable base_url_override : option string.
Variable cols : Columns.
Variable sheet_title : string.

Local Abbreviation step := (after_row base_url_override cols sheet_title).

Lemma process_row_state_any_number (st : Sticky) (n m : nat) (row : list Cell) :
  fst (process_row base_url_override cols sheet_title st n row)
  = fst (process_row base_url_override cols sheet_title st m row).
Proof.
  unfold process_row.
  destruct (row_is_blank row); [reflexivity|].
  destruct (normalize_row cols st row) as [st1 rv].
  destruct (resolve_url _ _ _ _) as [url|]; [|reflexivity].
  destruct (PyStr.is_empty url); [reflexivity|].
  now destruct (pick_folder _ _ _).
Qed.

Lemma loop_fold (rows : list (list Cell)) :
  forall (k : nat) (st : Sticky) (gs : GenState),
    fst (fold_left (row_step base_url_override cols sheet_title) (enumerate k rows) (st, gs))
    = fold_left step rows st.
Proof.
  induction rows as [|r rows IH]; intros k st gs; simpl; [reflexivity|].
  unfold after_row at 2. rewrite (process_row_state_any_number st 0 k r).
  destruct (process_row base_url_override cols sheet_title st k r) as [st1 [[[key d] it]|]];
    simpl; apply IH.
Qed.

(** A carried value that every row either replaces by a value of its own or
    leaves alone ends as the last own value of a row that was not skipped. *)
Lemma fold_last_own {A : Type} (proj : Sticky -> A) (own : list Cell -> option A) :
  (forall st row,
      proj (step st row)
      = match (if row_is_blank row then None else own row) with
        | Some a => a
        | None => proj st
        end) ->
  forall rows st,
    proj (fold_left step rows st)
    = match last_opt (flat_map (fun r => match own r with Some a => [a] | None => [] end)
                        (seen_rows rows)) with
      | Some a => a
      | None => proj st
      end.
Proof.
  intros Hstep. induction rows as [|r rows IH]; intros st; simpl; [reflexivity|].
  rewrite IH, Hstep. unfold seen_rows. simpl.
  destruct (row_is_blank r); simpl; [reflexivity|].
  rewrite last_opt_app.
  destruct (last_opt _); [reflexivity|].
  now destruct (own r).
Qed.

End StickyFacts.

Lemma last_opt_map {A B : Type} (f : A -> B) (l : list A) :
  last_opt (map f l) = option_map f (last_opt l).
Proof.
  induction l as [|x l IH]; [reflexivity|].
  change (map f (x :: l)) with (f x :: map f l).
  rewrite !last_opt_cons, IH. now destruct (last_opt l).
Qed.

Lemma flat_map_optional {A B : Type} (p : A -> bool) (f : A -> B) (l : list A) :
  flat_map (fun r => match (if p r then Some (f r) else None) with
                     | Some a => [a]
                     | None => []
                     end) l
  = map f (filter p l).
Proof.
  induction l as [|x l IH]; simpl; [reflexivity|].
  destruct (p x); simpl; now rewrite IH.
Qed.

Lemma seen_rows_app (l1 l2 : list (list Cell)) :
  seen_rows (l1 ++ l2) = seen_rows l1 ++ seen_rows l2.
Proof. apply filter_app. Qed.

Lemma last_text_snoc (idx : option nat) (before : list (list Cell)) (row : list Cell) :
  row_is_blank row = false ->
  last_text idx (before ++ [row])
  = if not_blank (_get_cell row idx) then Some (py_str (_get_cell row idx))
    else last_text idx before.
Proof.
  intros Hrow. unfold last_text. rewrite seen_rows_app, filter_app, map_app, last_opt_app.
  unfold seen_rows at 1. simpl. rewrite Hrow. simpl.
  now destruct (not_blank (_get_cell row idx)).
Qed.

Lemma last_text_nonempty (idx : option nat) (rows : list (list Cell)) (m : string) :
  last_text idx rows = Some m -> PyStr.is_empty m = false.
Proof.
  unfold last_text. intros Hl. apply last_opt_in in Hl.
  apply in_map_iff in Hl. destruct Hl as (r & <- & Hr).
  apply filter_In in Hr. now apply py_str_of_not_blank.
Qed.

Lemma own_names_snoc (cols : Columns) (before : list (list Cell)) (row : list Cell) :
  row_is_blank row = false ->
  last_opt (own_names cols (before ++ [row]))
  = match own_name cols row with
    | Some v => Some v
    | None => last_opt (own_names cols before)
    end.
Proof.
  intros Hrow. unfold own_names. rewrite seen_rows_app, flat_map_app, last_opt_app.
  unfold seen_rows at 1. simpl. rewrite Hrow. simpl. rewrite app_nil_r.
  now destruct (own_name cols row).
Qed.

Section CarriedValues.
Context `{PyLib}.
Variable base_url_override : option string.
Variable cols : Columns.
Variable sheet_title : string.

Local Abbreviation step := (after_row base_url_override cols sheet_title).

(** The text fields and the name after one row, whether the row is dropped
    or compiled. *)
Lemma step_fields (st : Sticky) (row : list Cell) :
  row_is_blank row = false ->
  let st1 := fst (normalize_row cols st row) in
  last_method (step st row) = last_method st1
  /\ last_path (step st row) = last_path st1
  /\ last_raw_url (step st row) = last_raw_url st1
  /\ last_base_url (step st row) = last_base_url st1
  /\ last_name (step st row) = last_name st1.
Proof.
  intros Hrow. unfold after_row, process_row. rewrite Hrow.
  destruct (normalize_row cols st row) as [st1 rv]. cbn [fst].
  destruct (resolve_url _ _ _ _) as [url|]; [|now repeat split].
  destruct (PyStr.is_empty url); [now repeat split|].
  destruct (pick_folder _ _ _). now repeat split.
Qed.

Lemma step_blank (st : Sticky) (row : list Cell) :
  row_is_blank row = true -> step st row = st.
Proof. intros Hrow. unfold after_row, process_row. now rewrite Hrow. Qed.

Lemma normalize_row_state (st : Sticky) (row : list Cell) :
  let st1 := fst (normalize_row cols st row) in
  let carried (idx : option nat) (last : option string) :=
    if not_blank (_get_cell row idx) then Some (py_str (_get_cell row idx)) else last in
  last_method st1 = carried (idx_method cols) (last_method st)
  /\ last_path st1 = carried (idx_path cols) (last_path st)
  /\ last_raw_url st1 = carried (idx_url cols) (last_raw_url st)
  /\ last_base_url st1 = carried (idx_base cols) (last_base_url st)
  /\ last_name st1
     = pick_name (_get_cell row (idx_name cols)) (_get_cell row (idx_testcase_name cols))
         (last_name st)
  /\ last_folder st1 = last_folder st.
Proof.
  unfold normalize_row, carry_text.
  destruct (not_blank (_get_cell row (idx_url cols)));
    destruct (not_blank (_get_cell row (idx_base cols)));
    destruct (not_blank (_get_cell row (idx_path cols))); now repeat split.
Qed.

Lemma carried_text_after (proj : Sticky -> option string) (idx : option nat) :
  (forall st row, row_is_blank row = false ->
      proj (step st row)
      = if not_blank (_get_cell row idx) then Some (py_str (_get_cell row idx)) else proj st) ->
  forall rows st,
    proj (fold_left step rows st)
    = match last_text idx rows with
      | Some m => Some m
      | None => proj st
      end.
Proof.
  intros Hstep rows st.
  rewrite (fold_last_own base_url_override cols sheet_title proj
             (fun r => if not_blank (_get_cell r idx)
                       then Some (Some (py_str (_get_cell r idx))) else None)).
  - rewrite flat_map_optional. unfold last_text. rewrite !last_opt_map.
    now destruct (last_opt _).
  - intros st0 row. destruct (row_is_blank row) eqn:Hrow.
    + now rewrite (step_blank st0 row Hrow).
    + rewrite Hstep by assumption. now destruct (not_blank _).
Qed.

Lemma carried_method_after (rows : list (list Cell)) (st : Sticky) :
  last_method (fold_left step rows st)
  = match last_text (idx_method cols) rows with Some m => Some m | None => last_method st end.
Proof.
  apply carried_text_after. intros st0 row Hrow.
  destruct (step_fields st0 row Hrow) as (-> & _).
  now destruct (normalize_row_state st0 row) as (-> & _).
Qed.

Lemma carried_path_after (rows : list (list Cell)) (st : Sticky) :
  last_path (fold_left step rows st)
  = match last_text (idx_path cols) rows with Some m => Some m | None => last_path st end.
Proof.
  apply carried_text_after. intros st0 row Hrow.
  destruct (step_fields st0 row Hrow) as (_ & -> & _).
  now destruct (normalize_row_state st0 row) as (_ & -> & _).
Qed.

Lemma carried_raw_url_after (rows : list (list Cell)) (st : Sticky) :
  last_raw_url (fold_left step rows st)
  = match last_text (idx_url cols) rows with Some m => Some m | None => last_raw_url st end.
Proof.
  apply carried_text_after. intros st0 row Hrow.
  destruct (step_fields st0 row Hrow) as (_ & _ & -> & _).
  now destruct (normalize_row_state st0 row) as (_ & _ & -> & _).
Qed.

Lemma carried_base_url_after (rows : list (list Cell)) (st : Sticky) :
  last_base_url (fold_left step rows st)
  = match last_text (idx_base cols) rows with Some m => Some m | None => last_base_url st end.
Proof.
  apply carried_text_after. intros st0 row Hrow.
  destruct (step_fields st0 row Hrow) as (_ & _ & _ & -> & _).
  now destruct (normalize_row_state st0 row) as (_ & _ & _ & -> & _).
Qed.

Lemma py_or_unnamed_idem (v : Value) :
  py_or (py_or v (VStr "Unnamed")) (VStr "Unnamed") = py_or v (VStr "Unnamed").
Proof. unfold py_or. destruct (truthy v) eqn:E; [now rewrite E | reflexivity]. Qed.

Lemma carried_name_after (rows : list (list Cell)) (st : Sticky) :
  py_or (last_name (fold_left step rows st)) (VStr "Unnamed")
  = match last_opt (own_names cols rows) with
    | Some v => v
    | None => py_or (last_name st) (VStr "Unnamed")
    end.
Proof.
  apply (fold_last_own base_url_override cols sheet_title
           (fun s => py_or (last_name s) (VStr "Unnamed")) (own_name cols)).
  intros st0 row. destruct (row_is_blank row) eqn:Hrow.
  - now rewrite step_blank.
  - destruct (step_fields st0 row Hrow) as (_ & _ & _ & _ & ->).
    destruct (normalize_row_state st0 row) as (_ & _ & _ & _ & -> & _).
    rewrite pick_name_own. unfold own_name.
    destruct (truthy (_get_cell row (idx_name cols))) eqn:En.
    + unfold py_or. now rewrite En.
    + destruct (truthy (_get_cell row (idx_testcase_name cols))) eqn:Et.
      * unfold py_or. now rewrite Et.
      * apply py_or_unnamed_idem.
Qed.

End CarriedValues.

Section StickyTheorem.
Context `{PyLib}.
Variable base_url_override : option string.
Variable cols : Columns.
Variable sheet_title : string.

Local Abbreviation state_after := (loop_state base_url_override cols sheet_title).

Lemma loop_state_fold (rows : list (list Cell)) :
  state_after rows
  = fold_left (after_row base_url_override cols sheet_title) rows (initial_sticky sheet_title).
Proof. unfold loop_state. apply loop_fold. Qed.

Lemma carried_after_rows (rows : list (list Cell)) :
  last_method (state_after rows) = last_text (idx_method cols) rows
  /\ last_raw_url (state_after rows) = last_text (idx_url cols) rows
  /\ last_base_url (state_after rows) = last_text (idx_base cols) rows
  /\ last_path (state_after rows) = last_text (idx_path cols) rows
  /\ py_or (last_name (state_after rows)) (VStr "Unnamed")
     = match last_opt (own_names cols rows) with
       | Some v => v
       | None => VStr "Unnamed"
       end.
Proof.
  rewrite loop_state_fold.
  rewrite carried_method_after, carried_raw_url_after, carried_base_url_after,
    carried_path_after, carried_name_after.
  cbn [initial_sticky last_method last_raw_url last_base_url last_path last_name].
  repeat split; now destruct (last_text _ _).
Qed.

Lemma used_by_row (before : list (list Cell)) (row : list Cell) :
  row_is_blank row = false ->
  let rv := snd (normalize_row cols (state_after before) row) in
  let rows := before ++ [row] in
  rv_method rv
  = PyStr.upper (match last_text (idx_method cols) rows with Some m => m | None => "GET" end)
  /\ rv_raw_url rv = last_text (idx_url cols) rows
  /\ rv_base_url rv = last_text (idx_base cols) rows
  /\ rv_path rv = last_text (idx_path cols) rows
  /\ rv_name rv
     = match last_opt (own_names cols rows) with
       | Some v => v
       | None => VStr "Unnamed"
       end.
Proof.
  intros Hrow rv rows.
  destruct (carried_after_rows before) as (Hm & Hu & Hb & Hp & Hn).
  destruct (normalize_row_values cols (state_after before) row) as (Hru & Hrb & Hrp).
  fold rv in Hru, Hrb, Hrp.
  unfold rows. rewrite !last_text_snoc, own_names_snoc by assumption.
  rewrite Hru, Hrb, Hrp, Hu, Hb, Hp.
  repeat split.
  - unfold rv, normalize_row, carry_text.
    repeat match goal with
      | |- context [let (_, _) := (if ?b then _ else _) in _] => destruct b
      end; cbn [snd rv_method];
      destruct (not_blank (_get_cell row (idx_method cols))); try reflexivity;
      rewrite Hm;
      (destruct (last_text (idx_method cols) before) as [m|] eqn:El;
       [apply last_text_nonempty in El; unfold some_text, text_of; now rewrite El
       | reflexivity]).
  - assert (Hname : rv_name rv
                    = pick_name (_get_cell row (idx_name cols))
                        (_get_cell row (idx_testcase_name cols))
                        (last_name (state_after before))).
    { unfold rv, normalize_row, carry_text.
      repeat match goal with
        | |- context [let (_, _) := (if ?b then _ else _) in _] => destruct b
        end; reflexivity. }
    rewrite Hname, pick_name_own. unfold own_name.
    destruct (truthy (_get_cell row (idx_name cols))); [reflexivity|].
    destruct (truthy (_get_cell row (idx_testcase_name cols))); [reflexivity|].
    exact Hn.
Qed.

Lemma folder_of_compiled_row (st st' : Sticky) (row_num : nat) (row : list Cell)
    (key display : string) (item : Item) :
  process_row base_url_override cols sheet_title st row_num row
  = (st', Some (key, display, item)) ->
  let cell := _get_cell row (idx_folder cols) in
  let folder := if not_blank cell then cell else py_or (last_folder st) (VStr sheet_title) in
  key = (if PyStr.is_empty (_norm folder) then _norm (VStr sheet_title) else _norm folder)
  /\ display = py_str (py_or folder (VStr sheet_title))
  /\ last_folder st' = (if not_blank cell then cell else last_folder st).
Proof.
  unfold process_row. intros Hp.
  destruct (row_is_blank row); [discriminate|].
  pose proof (normalize_row_state cols st row) as Hst. cbv zeta in Hst.
  destruct Hst as (_ & _ & _ & _ & _ & Hf).
  destruct (normalize_row cols st row) as [st1 rv]. cbn [fst] in Hf.
  destruct (resolve_url _ _ _ _) as [url|]; [|discriminate].
  destruct (PyStr.is_empty url); [discriminate|].
  unfold pick_folder in Hp. rewrite Hf in Hp.
  destruct (not_blank (_get_cell row (idx_folder cols)));
    injection Hp as <- <- <- _; cbn [last_folder]; repeat split.
Qed.

End StickyTheorem.

(** C4 (amended).  A row whose cells are all blank is skipped and changes no
    carried value.  After any rows, the carried method, URL, base URL and
    path are the last non-blank cell of their column among the rows not
    skipped, and the carried name is the last name a row brought itself.  A
    row that is not skipped uses, for method, URL, base URL and path, the
    last non-blank cell so far (its own included), with GET when there is no
    method; for the name, its name cell, else its "testcasename" cell, else
    the last such name of an earlier row, else "Unnamed".  On a row that
    resolves a URL the folder is the folder cell when it is not blank, which
    then becomes the carried folder, else the carried folder; the carried
    folder starts as the sheet's title. *)
Theorem sticky_fields (L : PyLib) (base_url_override : option string) (cols : Columns)
    (sheet_title : string) (before : list (list Cell)) (row : list Cell) :
  let state_after := loop_state base_url_override cols sheet_title in
  (row_is_blank row = true ->
     forall st n, process_row base_url_override cols sheet_title st n row = (st, None))
  /\ (last_method (state_after before) = last_text (idx_method cols) before
      /\ last_raw_url (state_after before) = last_text (idx_url cols) before
      /\ last_base_url (state_after before) = last_text (idx_base cols) before
      /\ last_path (state_after before) = last_text (idx_path cols) before
      /\ py_or (last_name (state_after before)) (VStr "Unnamed")
         = match last_opt (own_names cols before) with
           | Some v => v
           | None => VStr "Unnamed"
           end)
  /\ (row_is_blank row = false ->
      let rv := snd (normalize_row cols (state_after before) row) in
      let rows := before ++ [row] in
      rv_method rv
      = PyStr.upper (match last_text (idx_method cols) rows with Some m => m | None => "GET" end)
      /\ rv_raw_url rv = last_text (idx_url cols) rows
      /\ rv_base_url rv = last_text (idx_base cols) rows
      /\ rv_path rv = last_text (idx_path cols) rows
      /\ rv_name rv
         = match last_opt (own_names cols rows) with
           | Some v => v
           | None => VStr "Unnamed"
           end)
  /\ (forall st st' n key display item,
        process_row base_url_override cols sheet_title st n row
        = (st', Some (key, display, item)) ->
        let cell := _get_cell row (idx_folder cols) in
        let folder := if not_blank cell then cell else py_or (last_folder st) (VStr sheet_title) in
        item_method item = rv_method (snd (normalize_row cols st row))
        /\ item_name item = py_str (rv_name (snd (normalize_row cols st row)))
        /\ key = (if PyStr.is_empty (_norm folder) then _norm (VStr sheet_title) else _norm folder)
        /\ display = py_str (py_or folder (VStr sheet_title))
        /\ last_folder st' = (if not_blank cell then cell else last_folder st))
  /\ last_folder (state_after []) = VStr sheet_title
  /\ compiled_methods (H := pylib) (Some "https://api.test")
       [visible_sheet "Sheet1"
          [[VStr "Method"; VStr "Path"]; [VStr "post"; VStr "/a"]; [VNone; VStr "/b"]]]
     = ["POST"; "POST"].
Proof.
  intros state_after. subst state_after. split; [|split; [|split; [|split; [|split]]]].
  - intros Hrow st n. unfold process_row. now rewrite Hrow.
  - exact (carried_after_rows base_url_override cols sheet_title before).
  - exact (used_by_row base_url_override cols sheet_title before row).
  - intros st st' n key display item Hp cell folder.
    pose proof (folder_of_compiled_row _ _ _ _ _ _ _ _ _ _ Hp) as (Hk & Hd & Hf).
    apply process_row_compiled in Hp. cbv zeta in Hp.
    destruct Hp as (_ & url & _ & Hn & Hm & _).
    repeat split; assumption.
  - reflexivity.
  - reflexivity.
Qed.

(** C4, the claim as stated, fails for the name: a row with a blank name
    cell and a filled "testcasename" cell takes that cell, not the name
    carried from the row above. *)
Lemma blank_name_takes_testcasename :
  let sheet :=
    visible_sheet "Sheet1"
      [[VStr "Name"; VStr "TestCaseName"; VStr "Path"];
       [VStr "Login"; VStr "TC-1"; VStr "/login"];
       [VNone; VStr "TC-2"; VStr "/logout"]] in
  compiled_names (H := pylib) (Some "https://api.test") [sheet] = ["Login"; "TC-2"]
  /\ compiled_names (H := pylib) (Some "https://api.test") [sheet] <> ["Login"; "Login"].
Proof.
  assert (Hnames : compiled_names (H := pylib) (Some "https://api.test")
                     [visible_sheet "Sheet1"
                        [[VStr "Name"; VStr "TestCaseName"; VStr "Path"];
                         [VStr "Login"; VStr "TC-1"; VStr "/login"];
                         [VNone; VStr "TC-2"; VStr "/logout"]]]
                   = ["Login"; "TC-2"]) by (vm_compute; reflexivity).
  cbv zeta. rewrite Hnames. split; [reflexivity | discriminate].
Qed.

(** ** Linkage order against collection order *)

(** C1 (defect of the code).  The linkage is appended in row order, while the
    collection lists the requests folder by folder.  On a sheet whose rows
    name the folders A, B, A the requests stand in the order of rows 2, 4, 3
    and the linkage is 2, 3, 4: the two orders differ position by position.
    A runner that executes the collection in its order and fails only the
    request compiled from row 4 gets that FAILED verdict written on row 3. *)
Theorem interleaved_folders_reorder_requests :
  let sheet :=
    visible_sheet "Sheet1"
      [[VStr "Name"; VStr "Path"; VStr "Folder"];
       [VStr "a"; VStr "/a"; VStr "A"];
       [VStr "b"; VStr "/b"; VStr "B"];
       [VStr "c"; VStr "/c"; VStr "A"]] in
  let gs := compile_workbook (H := pylib) (Some "https://api.test") [sheet] in
  let run :=
    generate_postman_collection_from_excel (H := pylib) Lib.splitext (runner_in_order "c" 200)
      "tests.xlsx" "API Tests" (Some "https://api.test") [sheet] in
  row_links gs = [("Sheet1", 2); ("Sheet1", 3); ("Sheet1", 4)]
  /\ map origin (flat_requests (collection_items gs))
     = [("Sheet1", 2); ("Sheet1", 4); ("Sheet1", 3)]
  /\ map origin (flat_requests (collection_items gs)) <> row_links gs
  /\ saved_results (fst run)
     = [("tests_results.xlsx",
         [[[VStr "Name"; VStr "Path"; VStr "Folder"; VStr "ActualStatus"; VStr "Status"];
           [VStr "a"; VStr "/a"; VStr "A"; VInt 200; VStr "PASSED"];
           [VStr "b"; VStr "/b"; VStr "B"; VInt 200; VStr "FAILED"];
           [VStr "c"; VStr "/c"; VStr "A"; VInt 200; VStr "PASSED"]]])].
Proof.
  vm_compute. repeat split. discriminate.
Qed.

(** ** The failure identifier *)

(** C8 (defect of the code).  The ID column is located before the result
    columns are inserted and is not located again.  With the ID column right
    of the expected status, the failed row's identifier is read from the
    column that now holds the actual status: "500" is recorded where the
    row's ID cell says "TC-7".  With the ID column left of the expected
    status the identifier is "TC-7". *)
Theorem stale_id_column_after_insertion :
  let right :=
    visible_sheet "Sheet1"
      [[VStr "Name"; VStr "Path"; VStr "ExpectedStatus"; VStr "ID"];
       [VStr "Login"; VStr "/login"; VInt 200; VStr "TC-7"]] in
  let left :=
    visible_sheet "Sheet1"
      [[VStr "ID"; VStr "Name"; VStr "Path"; VStr "ExpectedStatus"];
       [VStr "TC-7"; VStr "Login"; VStr "/login"; VInt 200]] in
  let failed_ids sheet :=
    snd (generate_postman_collection_from_excel (H := pylib) Lib.splitext
           (runner_in_order "Login" 500) "tests.xlsx" "API Tests"
           (Some "https://api.test") [sheet]) in
  failed_ids right
  = Returned ("API Tests_postman_collection.json", "tests_results.xlsx", ["500"])
  /\ failed_ids left
     = Returned ("API Tests_postman_collection.json", "tests_results.xlsx", ["TC-7"]).
Proof.
  vm_compute. split; reflexivity.
Qed.

(** ** A runner that fails *)

Lemma write_rows_no_executions (links : list (string * nat)) (t : string) (a s : nat)
    (id_idx : option nat) (rows : list nat) (g : Grid) :
  write_rows links t a s id_idx rows g [] = (g, [], []).
Proof.
  induction rows as [|r rows IH]; simpl; [reflexivity|].
  destruct (linked links t r); simpl; [reflexivity | exact IH].
Qed.

Lemma reconcile_no_executions (links : list (string * nat)) (wb : list Worksheet) :
  snd (reconcile links wb []) = [].
Proof.
  induction wb as [|sheet wb IH]; simpl; [reflexivity|].
  destruct (negb (String.eqb (sheet_state sheet) "visible")).
  - destruct (reconcile links wb []) as [rest ids] eqn:E. simpl in *. assumption.
  - unfold reconcile_sheet.
    destruct (place_columns _ _) as [[g a] s].
    rewrite write_rows_no_executions.
    destruct (reconcile links wb []) as [rest ids] eqn:E. simpl in *. assumption.
Qed.

Section RunnerFailure.
Context `{PyLib}.
Variable splitext : string -> string * string.
Variable newman : list Folder -> NewmanRun.

Lemma runner_aborts (run : NewmanRun) (file : string) (report : option string)
    (return_executions keep_json : bool) :
  returncode run <> 0%Z -> artifact run = None ->
  let out := run_newman_and_generate_report run file report return_executions keep_json in
  snd out = Returned (if return_executions then WithExecutions None [] else ReportOnly None)
  /\ In (Printed "newman_results.json not found, aborting.") (fst out)
  /\ existsb is_report (fst out) = false.
Proof.
  intros Hcode Hart. unfold run_newman_and_generate_report.
  apply Z.eqb_neq in Hcode. rewrite Hcode, Hart. cbn [negb andb fst snd].
  repeat split. apply in_or_app. right. apply in_or_app. right. now left.
Qed.

Lemma runner_tolerates_failures (run : NewmanRun) (file : string) (report : option string)
    (return_executions keep_json : bool) (executions : list Execution) :
  artifact run = Some executions ->
  snd (run_newman_and_generate_report run file report return_executions keep_json)
  = Returned (if return_executions
              then WithExecutions report executions else ReportOnly report).
Proof.
  intros Hart. unfold run_newman_and_generate_report. rewrite Hart.
  rewrite andb_false_r. reflexivity.
Qed.

End RunnerFailure.

(** Both cases of a failing runner, seen from the generator: without an
    output file the wrapper's empty execution list is reconciled like any
    other; with one, its executions are. *)
Lemma runner_failure_handling (L : PyLib) (splitext : string -> string * string)
    (newman : list Folder -> NewmanRun) (excel_path collection_name : string)
    (base_url_override : option string) (wb : list Worksheet) :
  let gs := compile_workbook base_url_override wb in
  let run := newman (collection_items gs) in
  let file := collection_name +++ "_postman_collection.json" in
  let output := fst (splitext excel_path) +++ "_results" +++ snd (splitext excel_path) in
  let out :=
    generate_postman_collection_from_excel splitext newman excel_path collection_name
      base_url_override wb in
  (returncode run <> 0%Z -> artifact run = None ->
     (forall report return_executions keep_json,
         let r := run_newman_and_generate_report run file report return_executions keep_json in
         snd r = Returned (if return_executions then WithExecutions None [] else ReportOnly None)
         /\ In (Printed "newman_results.json not found, aborting.") (fst r)
         /\ existsb is_report (fst r) = false)
     /\ snd out = Returned (file, output, [])
     /\ In (ResultsSaved output (fst (reconcile (row_links gs) wb []))) (fst out))
  /\ (forall executions,
        artifact run = Some executions ->
        snd out = Returned (file, output, snd (reconcile (row_links gs) wb executions))
        /\ In (ResultsSaved output (fst (reconcile (row_links gs) wb executions))) (fst out)).
Proof.
  intros gs run file output out. split.
  - intros Hcode Hart. split; [intros; now apply runner_aborts|].
    unfold out, generate_postman_collection_from_excel. fold gs run file.
    pose proof (runner_aborts run file None true false Hcode Hart) as (Hret & _).
    destruct (run_newman_and_generate_report run file None true false) as [ran ret].
    cbn [snd] in Hret. subst ret.
    pose proof (reconcile_no_executions (row_links gs) wb) as Hids.
    destruct (reconcile (row_links gs) wb []) as [wb' ids]. cbn [snd fst] in *. subst ids.
    unfold output. destruct (splitext excel_path) as [root ext]. cbn [fst snd].
    split; [reflexivity|].
    apply in_or_app. right. apply in_or_app. right. now left.
  - intros executions Hart.
    unfold out, generate_postman_collection_from_excel. fold gs run file.
    pose proof (runner_tolerates_failures run file None true false executions Hart) as Hret.
    destruct (run_newman_and_generate_report run file None true false) as [ran ret].
    cbn [snd] in Hret. subst ret.
    destruct (reconcile (row_links gs) wb executions) as [wb' ids]. cbn [snd fst].
    unfold output. destruct (splitext excel_path) as [root ext]. cbn [fst snd].
    split; [reflexivity|].
    apply in_or_app. right. apply in_or_app. right. now left.
Qed.

(** C9 (defect of the code).  With a runner that exits with status 1 and
    leaves no output file, the runner wrapper prints that it aborts and
    saves no report, yet the run goes on: for every workbook the result
    columns are placed, the results copy is saved and announced, and the
    function returns its path with no failure identifier.  On a sheet with
    one request the saved copy holds the two new headers and no result. *)
Theorem missing_output_does_not_stop_the_run (L : PyLib) (splitext : string -> string * string)
    (excel_path collection_name : string) (base_url_override : option string)
    (wb : list Worksheet) :
  let gs := compile_workbook base_url_override wb in
  let file := collection_name +++ "_postman_collection.json" in
  let output := fst (splitext excel_path) +++ "_results" +++ snd (splitext excel_path) in
  let out :=
    generate_postman_collection_from_excel splitext runner_without_output excel_path
      collection_name base_url_override wb in
  returncode (runner_without_output (collection_items gs)) = 1%Z
  /\ artifact (runner_without_output (collection_items gs)) = None
  /\ In (Printed "newman_results.json not found, aborting.") (fst out)
  /\ existsb is_report (fst out) = false
  /\ In (ResultsSaved output (fst (reconcile (row_links gs) wb []))) (fst out)
  /\ In (Printed ("Results written to: " +++ output)) (fst out)
  /\ snd out = Returned (file, output, [])
  /\ (let sheet :=
        visible_sheet "Sheet1"
          [[VStr "Name"; VStr "Path"; VStr "ExpectedStatus"];
           [VStr "Login"; VStr "/login"; VInt 200]] in
      let run :=
        generate_postman_collection_from_excel (H := pylib) Lib.splitext runner_without_output
          "tests.xlsx" "API Tests" (Some "https://api.test") [sheet] in
      saved_results (fst run)
      = [("tests_results.xlsx",
          [[[VStr "Name"; VStr "Path"; VStr "ExpectedStatus"; VStr "ActualStatus";
             VStr "Status"];
            [VStr "Login"; VStr "/login"; VInt 200]]])]
      /\ snd run
         = Returned ("API Tests_postman_collection.json", "tests_results.xlsx", [])).
Proof.
  intros gs file output out.
  split; [reflexivity|]. split; [reflexivity|].
  assert (Hout : out
                 = ([CollectionWritten file (collection_items gs);
                     Printed ("Generated Postman Collection from Excel: " +++ file)]
                      ++ [Printed ("Running Newman for collection: " +++ file);
                          Printed "Newman completed with test failures - continuing to generate report.";
                          Printed "newman_results.json not found, aborting."]
                      ++ [ResultsSaved output (fst (reconcile (row_links gs) wb []));
                          Printed ("Results written to: " +++ output)],
                    Returned (file, output, []))).
  { unfold out, generate_postman_collection_from_excel, run_newman_and_generate_report.
    fold gs file. cbn [runner_without_output returncode artifact Z.eqb negb andb app].
    pose proof (reconcile_no_executions (row_links gs) wb) as Hids.
    destruct (reconcile (row_links gs) wb []) as [wb' ids]. cbn [snd fst] in *. subst ids.
    unfold output. destruct (splitext excel_path) as [root ext]. reflexivity. }
  rewrite Hout. cbn [fst snd app].
  split; [cbn [In]; intuition|].
  split; [reflexivity|].
  split; [cbn [In]; intuition|].
  split; [cbn [In]; intuition|].
  split; [reflexivity|].
  vm_compute. split; reflexivity.
Qed.

(** ** The linkage the generator builds is what the reconciler walks *)

Lemma filter_members_of_subseq (s l : list nat) :
  subseq s l -> NoDup l ->
  filter (fun x => existsb (Nat.eqb x) s) l = s.
Proof.
  induction 1 as [|x s l Hsub IH|x s l Hsub IH]; intros Hnd.
  - reflexivity.
  - inversion Hnd as [|? ? Hx Hnd']; subst. simpl.
    assert (Hs : forall y, In y s -> In y l).
    { clear -Hsub. induction Hsub; intros y Hy; simpl in *; [auto | auto | ].
      destruct Hy as [->|Hy]; auto. }
    destruct (existsb (Nat.eqb x) s) eqn:Ex.
    + apply existsb_exists in Ex. destruct Ex as (y & Hy & Hxy).
      apply Nat.eqb_eq in Hxy. subst y. exfalso. auto.
    + now apply IH.
  - inversion Hnd as [|? ? Hx Hnd']; subst. simpl.
    rewrite Nat.eqb_refl. simpl. f_equal.
    transitivity (filter (fun y => existsb (Nat.eqb y) s) l); [|now apply IH].
    apply filter_ext_in.
    intros y Hy. destruct (Nat.eqb_spec y x) as [->|_]; [contradiction | reflexivity].
Qed.

Lemma enumerate_numbers {A : Type} (l : list A) :
  forall k, map fst (enumerate k l) = seq k (List.length l).
Proof.
  induction l as [|x l IH]; intros k; simpl; [reflexivity | now rewrite IH].
Qed.

Section LinkageFacts.
Context `{PyLib}.
Variable base_url_override : option string.

Local Abbreviation step := (row_step base_url_override).

Lemma row_step_unfold (cols : Columns) (t : string) (st : Sticky) (gs : GenState)
    (r : nat * list Cell) :
  step cols t (st, gs) r
  = match process_row base_url_override cols t st (fst r) (snd r) with
    | (st', None) => (st', gs)
    | (st', Some (folder_key, display, item)) =>
        (st',
         {| folders := add_item folder_key display item (folders gs);
            row_links := row_links gs ++ [(t, fst r)] |})
    end.
Proof. reflexivity. Qed.

(** The links a sheet adds do not depend on what was linked before. *)
Lemma row_loop_links (cols : Columns) (t : string) (rows : list (nat * list Cell)) :
  forall (st : Sticky) (gs gs0 : GenState) (base : list (string * nat)),
    row_links gs = base ++ row_links gs0 ->
    row_links (snd (fold_left (step cols t) rows (st, gs)))
    = base ++ row_links (snd (fold_left (step cols t) rows (st, gs0))).
Proof.
  induction rows as [|r rows IH]; intros st gs gs0 base Hb; cbn [fold_left]; [assumption|].
  rewrite !row_step_unfold.
  destruct (process_row base_url_override cols t st (fst r) (snd r))
    as [st1 [[[key d] it]|]]; apply IH; simpl; [|assumption].
  now rewrite Hb, <- app_assoc.
Qed.

Lemma row_loop_subseq (cols : Columns) (t : string) (rows : list (nat * list Cell)) :
  forall (st : Sticky) (gs : GenState),
    row_links gs = [] ->
    exists ns,
      subseq ns (map fst rows)
      /\ row_links (snd (fold_left (step cols t) rows (st, gs))) = map (pair t) ns.
Proof.
  induction rows as [|r rows IH]; intros st gs Hgs; cbn [fold_left map].
  - exists []. split; [constructor | assumption].
  - rewrite row_step_unfold.
    destruct (process_row base_url_override cols t st (fst r) (snd r))
      as [st1 [[[key d] it]|]].
    + destruct (IH st1 {| folders := add_item key d it (folders gs); row_links := [] |} eq_refl)
        as (ns & Hsub & Hns).
      exists (fst r :: ns). split; [now constructor|].
      rewrite (row_loop_links cols t rows st1 _
                 {| folders := add_item key d it (folders gs); row_links := [] |}
                 [(t, fst r)]).
      * now rewrite Hns.
      * simpl. now rewrite Hgs.
    + destruct (IH st1 gs Hgs) as (ns & Hsub & Hns).
      exists ns. split; [now constructor | assumption].
Qed.

Lemma process_sheet_links (gs : GenState) (sheet : Worksheet) :
  row_links (process_sheet base_url_override gs sheet)
  = row_links gs ++ sheet_links base_url_override sheet.
Proof.
  unfold sheet_links, process_sheet.
  destruct (negb (String.eqb (sheet_state sheet) "visible")); [now rewrite app_nil_r|].
  destruct (_build_header_map _) as [|e hm]; [now rewrite app_nil_r|].
  apply row_loop_links. simpl. now rewrite app_nil_r.
Qed.

Lemma sheet_links_rows (sheet : Worksheet) :
  exists ns,
    subseq ns (seq 2 (max_row (grid sheet) - 1))
    /\ sheet_links base_url_override sheet = map (pair (title sheet)) ns
    /\ (String.eqb (sheet_state sheet) "visible" = false -> ns = []).
Proof.
  assert (Hnone : forall n, subseq (@nil nat) (seq 2 n)).
  { intros n. generalize 2. induction n; intros k; simpl; constructor; auto. }
  unfold sheet_links, process_sheet.
  destruct (String.eqb (sheet_state sheet) "visible") eqn:Hvis; cbn [negb].
  - destruct (_build_header_map _) as [|e hm].
    + exists []. split; [apply Hnone|]. split; [reflexivity | discriminate].
    + destruct (row_loop_subseq (resolve_columns (e :: hm)) (title sheet)
                  (data_rows (grid sheet)) (initial_sticky (title sheet))
                  {| folders := []; row_links := [] |} eq_refl) as (ns & Hsub & Hns).
      exists ns. split; [|split; [assumption | discriminate]].
      unfold data_rows in Hsub. rewrite enumerate_numbers in Hsub.
      replace (max_row (grid sheet) - 1) with (List.length (tl (grid sheet))); [assumption|].
      unfold max_row. destruct (grid sheet); simpl; lia.
  - exists []. split; [apply Hnone|]. split; reflexivity.
Qed.

Lemma compile_links (wb : list Worksheet) :
  forall gs,
    row_links (fold_left (process_sheet base_url_override) wb gs)
    = row_links gs ++ flat_map (sheet_links base_url_override) wb.
Proof.
  induction wb as [|sheet wb IH]; intros gs; simpl; [now rewrite app_nil_r|].
  now rewrite IH, process_sheet_links, <- app_assoc.
Qed.

End LinkageFacts.

Lemma linked_iff_in (links : list (string * nat)) (t : string) (r : nat) :
  linked links t r = true <-> In (t, r) links.
Proof.
  unfold linked. rewrite existsb_exists. split.
  - intros ([t' r'] & Hin & Heq). simpl in Heq.
    apply andb_true_iff in Heq. destruct Heq as [Ht Hr].
    apply String.eqb_eq in Ht. apply Nat.eqb_eq in Hr. now subst.
  - intros Hin. exists (t, r). split; [assumption|]. simpl.
    now rewrite String.eqb_refl, Nat.eqb_refl.
Qed.

Lemma same_title_same_sheet (wb : list Worksheet) (a b : Worksheet) :
  NoDup (map title wb) -> In a wb -> In b wb -> title a = title b -> a = b.
Proof.
  induction wb as [|x wb IH]; intros Hnd Ha Hb Hab; [destruct Ha|].
  simpl in Hnd. inversion Hnd as [|? ? Hx Hnd']; subst.
  destruct Ha as [->|Ha], Hb as [->|Hb]; auto.
  - exfalso. apply Hx. rewrite Hab. now apply in_map.
  - exfalso. apply Hx. rewrite <- Hab. now apply in_map.
Qed.

Lemma flat_map_ext_on {A B : Type} (f g : A -> list B) (l : list A) :
  (forall x, In x l -> f x = g x) -> flat_map f l = flat_map g l.
Proof.
  induction l as [|x l IH]; intros Hfg; simpl; [reflexivity|].
  rewrite Hfg by now left. f_equal. apply IH. intros y Hy. apply Hfg. now right.
Qed.

Lemma targets_by_title (links : list (string * nat)) (wb : list Worksheet) :
  map (target_key wb) (targets links wb)
  = flat_map (fun sheet => map (pair (title sheet)) (sheet_targets links sheet)) wb.
Proof.
  induction wb as [|sheet wb IH]; [reflexivity|].
  cbn [targets flat_map]. rewrite map_app, !map_map. f_equal.
  rewrite <- IH. apply map_ext. now intros [i r].
Qed.

Section GeneratedLinkage.
Context `{PyLib}.
Variable base_url_override : option string.

Lemma sheet_targets_of_generated_links (wb : list Worksheet) (sheet : Worksheet) :
  NoDup (map title wb) -> In sheet wb ->
  map (pair (title sheet))
    (sheet_targets (flat_map (sheet_links base_url_override) wb) sheet)
  = sheet_links base_url_override sheet.
Proof.
  intros Hnd Hin.
  destruct (sheet_links_rows base_url_override sheet) as (ns & Hsub & Hns & Hhidden).
  rewrite Hns. f_equal. unfold sheet_targets.
  destruct (String.eqb (sheet_state sheet) "visible"); [|now rewrite Hhidden].
  transitivity (filter (fun x => existsb (Nat.eqb x) ns) (seq 2 (max_row (grid sheet) - 1)));
    [|exact (filter_members_of_subseq ns _ Hsub (seq_NoDup _ _))].
  apply filter_ext_in. intros r _.
  apply Bool.eq_iff_eq_true. rewrite linked_iff_in, existsb_exists. split.
  - intros Hl. apply in_flat_map in Hl. destruct Hl as (other & Hother & Hr).
    destruct (sheet_links_rows base_url_override other) as (ms & _ & Hms & _).
    rewrite Hms in Hr. apply in_map_iff in Hr. destruct Hr as (m & Hm & Hin_m).
    injection Hm as Ht <-.
    assert (other = sheet) by (now apply (same_title_same_sheet wb)). subst other.
    rewrite Hns in Hms. exists m. split; [|apply Nat.eqb_refl].
    assert (Hinj : forall a b : list nat,
               map (pair (title sheet)) a = map (pair (title sheet)) b -> a = b).
    { induction a as [|x a IHa]; intros [|y b] Hab; try discriminate; [reflexivity|].
      injection Hab as -> Hab. f_equal. now apply IHa. }
    now rewrite (Hinj _ _ Hms).
  - intros (m & Hm & Heq). apply Nat.eqb_eq in Heq. subst m.
    apply in_flat_map. exists sheet. split; [assumption|].
    rewrite Hns. now apply in_map.
Qed.

(** With sheet titles that are distinct (as a workbook's are), the linked
    rows the reconciler walks, in its reading order, are exactly the pairs
    the generator appended to [row_links], in their order. *)
Lemma generated_linkage_is_walked_in_order (wb : list Worksheet) :
  NoDup (map title wb) ->
  let links := row_links (compile_workbook base_url_override wb) in
  map (target_key wb) (targets links wb) = links.
Proof.
  intros Hnd links.
  assert (Hlinks : links = flat_map (sheet_links base_url_override) wb).
  { unfold links, compile_workbook. now rewrite compile_links. }
  rewrite targets_by_title, Hlinks.
  apply flat_map_ext_on. intros sheet Hin.
  now apply sheet_targets_of_generated_links.
Qed.

End GeneratedLinkage.

(** The rows of the generated linkage, whatever the number of executions:
    the row of the i-th link is the row of the i-th execution when there is
    one, and is as the placement left it otherwise. *)
Lemma short_execution_list_rows (L : PyLib) (base_url_override : option string)
    (wb : list Worksheet) (execs : list Execution) :
  NoDup (map title wb) ->
  let links := row_links (compile_workbook base_url_override wb) in
  List.length execs < List.length links ->
  forall (i : nat) (t : string) (r : nat),
    nth_error links i = Some (t, r) ->
    exists si sheet sheet',
      nth_error wb si = Some sheet
      /\ title sheet = t
      /\ nth_error (fst (reconcile links wb execs)) si = Some sheet'
      /\ (forall e, nth_error execs i = Some e ->
            row_at (grid sheet') r
            = result_row (actual_col (grid sheet)) (status_col (grid sheet)) e
                (row_at (placed_grid (grid sheet)) r))
      /\ (List.length execs <= i ->
            row_at (grid sheet') r = row_at (placed_grid (grid sheet)) r).
Proof.
  intros Hnd links _ i t r Hi.
  pose proof (generated_linkage_is_walked_in_order base_url_override wb Hnd) as Hwalk.
  cbv zeta in Hwalk. fold links in Hwalk.
  rewrite <- Hwalk, nth_error_map in Hi.
  destruct (nth_error (targets links wb) i) as [[si r']|] eqn:Ht; [|discriminate].
  destruct (reconcile_rows links wb execs i si r' Ht) as (sh & sh' & Hin & Hout & Hrow).
  simpl in Hi. unfold target_key in Hi. cbn [fst snd] in Hi. rewrite Hin in Hi.
  injection Hi as <- <-.
  exists si, sh, sh'. repeat split; auto.
  - intros e He. now rewrite Hrow, He.
  - intros Hle. apply nth_error_None in Hle. now rewrite Hrow, Hle.
Qed.

(** ** The theorems at concrete inputs *)

Lemma empty_assertions_pass_witness :
  1 <= 2 /\ 1 <= 3 /\ assertions passing_execution = []
  /\ verdict_of (assertions passing_execution) = PASSED
  /\ cell_at (write_result 2 3 2 passing_execution annotated_grid) 2 3
     = {| value := VStr "PASSED"; fill := Some GREEN |}.
Proof.
  assert (H2 : 1 <= 2) by lia. assert (H3 : 1 <= 3) by lia.
  split; [exact H2|]. split; [exact H3|]. split; [reflexivity|].
  exact (proj1 (empty_assertions_pass passing_execution 2 3 2 annotated_grid H2 H3) eq_refl).
Defined.

Lemma result_columns_placement_witness :
  find_col annotated_grid "ActualStatus" = Some 2
  /\ find_col annotated_grid "Status" = Some 3
  /\ placed annotated_grid = (annotated_grid, 2, 3)
  /\ find_synonym_col "expected_status" (headers_norm status_only_grid) = Some 1
  /\ find_col status_only_grid "ActualStatus" = None
  /\ find_col status_only_grid "Status" = Some 2
  /\ first_row (placed_grid status_only_grid)
     = firstn 1 (first_row status_only_grid)
       ++ labelled "ActualStatus" :: skipn 1 (first_row status_only_grid)
  /\ find_col actual_only_grid "ActualStatus" = Some 2
  /\ find_col actual_only_grid "Status" = None
  /\ status_col actual_only_grid = 2 + 1
  /\ find_synonym_col "expected_status" (headers_norm plain_grid) = None
  /\ first_row (placed_grid plain_grid)
     = pad (max_column plain_grid) blank_cell (first_row plain_grid)
       ++ [labelled "ActualStatus"; labelled "Status"].
Proof.
  pose proof (result_columns_placement annotated_grid) as (Hboth & _).
  pose proof (result_columns_placement status_only_grid) as (_ & _ & Hactual & _).
  pose proof (result_columns_placement actual_only_grid) as (_ & _ & _ & Hstatus & _).
  pose proof (result_columns_placement plain_grid) as (_ & _ & _ & _ & Hedge).
  split; [reflexivity|]. split; [reflexivity|].
  split; [exact (Hboth 2 3 eq_refl eq_refl)|].
  split; [reflexivity|]. split; [reflexivity|]. split; [reflexivity|].
  split; [exact (proj1 (proj2 (Hactual 1 2 eq_refl eq_refl eq_refl)))|].
  split; [reflexivity|]. split; [reflexivity|].
  split; [exact (proj2 (proj2 (proj2 (Hstatus 1 2 eq_refl eq_refl eq_refl))))|].
  split; [reflexivity|].
  exact (proj2 (Hedge eq_refl)).
Defined.

Lemma validity_check_only_with_assertions_witness :
  exists st' key display item,
    process_row (H := pylib) (Some "https://api.test") login_columns "Sheet1"
      (initial_sticky "Sheet1") 2 login_row
    = (st', Some (key, display, item))
    /\ count_occ string_dec (script_of item) json_check_line = 1
    /\ nth_error (script_of item) 0 = Some "pm.test('Status code is 200', function () {"
    /\ nth_error (script_of item) 9 = Some json_check_line.
Proof.
  do 4 eexists. split; [vm_compute; reflexivity|].
  split; [|split; reflexivity].
  exact (proj1 (validity_check_only_with_assertions (H := pylib) (Some "https://api.test")
                  login_columns "Sheet1" (initial_sticky "Sheet1") _ 2 login_row _ _ _
                  eq_refl)).
Defined.


Lemma sticky_fields_witness :
  row_is_blank logout_row = false
  /\ rv_method (snd (normalize_row login_columns
                       (loop_state (H := pylib) (Some "https://api.test") login_columns "Sheet1"
                          [login_row])
                       logout_row))
     = PyStr.upper
         (match last_text (idx_method login_columns) ([login_row] ++ [logout_row]) with
          | Some m => m
          | None => "GET"
          end)
  /\ last_text (idx_method login_columns) ([login_row] ++ [logout_row]) = None.
Proof.
  pose proof (sticky_fields pylib (Some "https://api.test") login_columns "Sheet1"
                [login_row] logout_row) as (_ & _ & Hused & _).
  split; [reflexivity|]. split; [|reflexivity].
  exact (proj1 (Hused eq_refl)).
Defined.

(** * Further properties of the code *)

(** ** Text: trimming and letter case *)

Ltac by_cases_on_char c :=
  destruct c as [[] [] [] [] [] [] [] []]; vm_compute; reflexivity.

Lemma is_space_lower_char (c : ascii) : PyStr.is_space (PyStr.lower_char c) = PyStr.is_space c.
Proof. by_cases_on_char c. Qed.

Lemma lower_char_idem (c : ascii) : PyStr.lower_char (PyStr.lower_char c) = PyStr.lower_char c.
Proof. by_cases_on_char c. Qed.

Lemma lower_upper_char (c : ascii) : PyStr.lower_char (PyStr.upper_char c) = PyStr.lower_char c.
Proof. by_cases_on_char c. Qed.

Lemma upper_char_idem (c : ascii) : PyStr.upper_char (PyStr.upper_char c) = PyStr.upper_char c.
Proof. by_cases_on_char c. Qed.

Lemma map_chars_compose (f g : ascii -> ascii) (s : string) :
  PyStr.map_chars f (PyStr.map_chars g s) = PyStr.map_chars (fun c => f (g c)) s.
Proof. induction s as [|c s IH]; simpl; [reflexivity | now rewrite IH]. Qed.

Lemma map_chars_ext (f g : ascii -> ascii) (s : string) :
  (forall c, f c = g c) -> PyStr.map_chars f s = PyStr.map_chars g s.
Proof. intros E. induction s as [|c s IH]; simpl; [reflexivity | now rewrite IH, E]. Qed.

Lemma lower_idem (s : string) : PyStr.lower (PyStr.lower s) = PyStr.lower s.
Proof.
  unfold PyStr.lower. rewrite map_chars_compose. apply map_chars_ext, lower_char_idem.
Qed.

Lemma lower_upper (s : string) : PyStr.lower (PyStr.upper s) = PyStr.lower s.
Proof.
  unfold PyStr.lower, PyStr.upper. rewrite map_chars_compose.
  apply map_chars_ext, lower_upper_char.
Qed.

Lemma upper_idem (s : string) : PyStr.upper (PyStr.upper s) = PyStr.upper s.
Proof.
  unfold PyStr.upper. rewrite map_chars_compose. apply map_chars_ext, upper_char_idem.
Qed.

Lemma is_empty_map_chars (f : ascii -> ascii) (s : string) :
  PyStr.is_empty (PyStr.map_chars f s) = PyStr.is_empty s.
Proof. now destruct s. Qed.

Lemma is_empty_true (s : string) : PyStr.is_empty s = true <-> s = EmptyString.
Proof. destruct s; simpl; split; congruence. Qed.

Section StripFacts.
Variable p : ascii -> bool.

Lemma lstrip_by_map (f : ascii -> ascii) (s : string) :
  (forall c, p (f c) = p c) ->
  PyStr.lstrip_by p (PyStr.map_chars f s) = PyStr.map_chars f (PyStr.lstrip_by p s).
Proof.
  intros E. induction s as [|c s IH]; simpl; [reflexivity|].
  rewrite E. now destruct (p c).
Qed.

Lemma rstrip_by_map (f : ascii -> ascii) (s : string) :
  (forall c, p (f c) = p c) ->
  PyStr.rstrip_by p (PyStr.map_chars f s) = PyStr.map_chars f (PyStr.rstrip_by p s).
Proof.
  intros E. induction s as [|c s IH]; simpl; [reflexivity|].
  rewrite IH, E, is_empty_map_chars.
  now destruct (p c && PyStr.is_empty (PyStr.rstrip_by p s)).
Qed.

Lemma rstrip_by_idem (s : string) :
  PyStr.rstrip_by p (PyStr.rstrip_by p s) = PyStr.rstrip_by p s.
Proof.
  induction s as [|c s IH]; simpl; [reflexivity|].
  destruct (p c && PyStr.is_empty (PyStr.rstrip_by p s)) eqn:E; simpl; [reflexivity|].
  now rewrite IH, E.
Qed.

Lemma lstrip_by_idem (s : string) :
  PyStr.lstrip_by p (PyStr.lstrip_by p s) = PyStr.lstrip_by p s.
Proof.
  induction s as [|c s IH]; simpl; [reflexivity|].
  destruct (p c) eqn:E; [assumption|]. simpl. now rewrite E.
Qed.

(** Trimming on the right leaves a text that was trimmed on the left
    trimmed on the left. *)
Lemma lstrip_rstrip_lstrip (s : string) :
  PyStr.lstrip_by p (PyStr.rstrip_by p (PyStr.lstrip_by p s))
  = PyStr.rstrip_by p (PyStr.lstrip_by p s).
Proof.
  induction s as [|c s IH]; simpl; [reflexivity|].
  destruct (p c) eqn:E; [assumption|].
  simpl. rewrite E. simpl. now rewrite E.
Qed.

Lemma rstrip_by_snoc (s : string) (c : ascii) :
  p c = true ->
  PyStr.rstrip_by p (s +++ String c EmptyString) = PyStr.rstrip_by p s.
Proof.
  intros Hc. induction s as [|a s IH]; simpl.
  - now rewrite Hc.
  - now rewrite IH.
Qed.

End StripFacts.

Lemma strip_idem (s : string) : PyStr.strip (PyStr.strip s) = PyStr.strip s.
Proof.
  unfold PyStr.strip. now rewrite lstrip_rstrip_lstrip, rstrip_by_idem.
Qed.

Lemma strip_lower (s : string) : PyStr.strip (PyStr.lower s) = PyStr.lower (PyStr.strip s).
Proof.
  unfold PyStr.strip, PyStr.lower.
  rewrite lstrip_by_map by apply is_space_lower_char.
  now rewrite rstrip_by_map by apply is_space_lower_char.
Qed.

Lemma is_space_upper_char (c : ascii) : PyStr.is_space (PyStr.upper_char c) = PyStr.is_space c.
Proof. by_cases_on_char c. Qed.

Lemma strip_upper (s : string) : PyStr.strip (PyStr.upper s) = PyStr.upper (PyStr.strip s).
Proof.
  unfold PyStr.strip, PyStr.upper.
  rewrite lstrip_by_map by apply is_space_upper_char.
  now rewrite rstrip_by_map by apply is_space_upper_char.
Qed.

Lemma norm_text (s : string) : _norm (VStr s) = PyStr.lower (PyStr.strip s).
Proof. reflexivity. Qed.

Lemma norm_text_idem (s : string) :
  PyStr.lower (PyStr.strip (PyStr.lower (PyStr.strip s))) = PyStr.lower (PyStr.strip s).
Proof. now rewrite strip_lower, strip_idem, lower_idem. Qed.

Lemma norm_of_norm (v : Value) : _norm (VStr (_norm v)) = _norm v.
Proof.
  destruct v as [|s|z]; [reflexivity | apply norm_text_idem | apply norm_text_idem].
Qed.

Lemma lower_char_ascii (c : ascii) :
  (nat_of_ascii c <? 128)%nat = true -> (nat_of_ascii (PyStr.lower_char c) <? 128)%nat = true.
Proof. destruct c as [[] [] [] [] [] [] [] []]; vm_compute; intros E; exact E || reflexivity. Qed.

Lemma ascii_text_map (f : ascii -> ascii) (s : string) :
  (forall c, (nat_of_ascii c <? 128)%nat = true -> (nat_of_ascii (f c) <? 128)%nat = true) ->
  ascii_text s = true -> ascii_text (PyStr.map_chars f s) = true.
Proof.
  intros Hf. induction s as [|c s IH]; simpl; [reflexivity|].
  intros Hs. apply andb_prop in Hs. destruct Hs as [Hc Hs].
  now rewrite (Hf c Hc), IH.
Qed.

Lemma ascii_text_lstrip (p : ascii -> bool) (s : string) :
  ascii_text s = true -> ascii_text (PyStr.lstrip_by p s) = true.
Proof.
  induction s as [|c s IH]; simpl; [reflexivity|].
  intros Hs. destruct (p c); [|exact Hs].
  apply andb_prop in Hs. now apply IH.
Qed.

Lemma ascii_text_rstrip (p : ascii -> bool) (s : string) :
  ascii_text s = true -> ascii_text (PyStr.rstrip_by p s) = true.
Proof.
  induction s as [|c s IH]; simpl; [reflexivity|].
  intros Hs. apply andb_prop in Hs. destruct Hs as [Hc Hs].
  destruct (p c && PyStr.is_empty (PyStr.rstrip_by p s)); [reflexivity|].
  simpl. now rewrite Hc, IH.
Qed.

(** X1.  For a text of ASCII characters, _norm does not see letter case:
    the text, its upper-case form and its lower-case form have the same
    normal form.  Normalising a normal form changes nothing, a normal form
    has no white space around it, and it is ASCII text again. *)
Theorem header_names_match_in_any_case (s : string) :
  ascii_text s = true ->
  _norm (VStr (PyStr.upper s)) = _norm (VStr s)
  /\ _norm (VStr (PyStr.lower s)) = _norm (VStr s)
  /\ _norm (VStr (_norm (VStr s))) = _norm (VStr s)
  /\ PyStr.strip (_norm (VStr s)) = _norm (VStr s)
  /\ ascii_text (_norm (VStr s)) = true.
Proof.
  intros Hs. split; [|split; [|split; [|split]]].
  - rewrite !norm_text. now rewrite strip_upper, lower_upper.
  - rewrite !norm_text. now rewrite strip_lower, lower_idem.
  - apply norm_of_norm.
  - simpl. now rewrite strip_lower, strip_idem.
  - rewrite norm_text. unfold PyStr.lower, PyStr.strip.
    apply ascii_text_map; [apply lower_char_ascii|].
    apply ascii_text_rstrip, ascii_text_lstrip, Hs.
Qed.

Lemma header_names_match_in_any_case_witness :
  ascii_text " Expected Status " = true
  /\ _norm (VStr (PyStr.upper " Expected Status ")) = "expected status"
  /\ _norm (VStr " Expected Status ") = "expected status".
Proof.
  split; [reflexivity|].
  pose proof (header_names_match_in_any_case " Expected Status " eq_refl) as (Hu & _).
  split; [rewrite Hu|]; reflexivity.
Defined.

(** ** The schema resolver *)

Lemma get_update_last {V : Type} (k : string) (e : list (string * V)) :
  forall d : PyDict.t V,
    PyDict.get k (PyDict.update d e)
    = match last_opt (filter (fun kv => String.eqb k (fst kv)) e) with
      | Some kv => Some (snd kv)
      | None => PyDict.get k d
      end.
Proof.
  induction e as [|[k' v'] e IH]; intros d; [reflexivity|].
  change (PyDict.update d ((k', v') :: e)) with (PyDict.update (PyDict.set k' v' d) e).
  rewrite IH. cbn [filter fst].
  destruct (String.eqb_spec k k') as [->|Hne].
  - rewrite last_opt_cons.
    destruct (last_opt (filter (fun kv => String.eqb k' (fst kv)) e)); [reflexivity|].
    apply get_set_same.
  - destruct (last_opt (filter (fun kv => String.eqb k (fst kv)) e)); [reflexivity|].
    now apply get_set_other.
Qed.

(** The index kept for a name by a dictionary built from (name, index)
    pairs in the order of the columns, blank names left out. *)
Lemma index_of_last_occurrence (k : string) (names : list string) :
  forall i,
    PyDict.get k
      (PyDict.update []
         (map (fun p => (snd p, fst p))
            (filter (fun p : nat * string => negb (PyStr.is_empty (snd p)))
               (enumerate i names))))
    = if PyStr.is_empty k then None else last_index_from (String.eqb k) i names.
Proof.
  intros i. rewrite get_update_last. simpl PyDict.get.
  revert i. induction names as [|x names IH]; intros i.
  - simpl. now destruct (PyStr.is_empty k).
  - cbn [enumerate filter snd last_index_from].
    specialize (IH (S i)).
    destruct (PyStr.is_empty x) eqn:Ex; cbn [negb map filter fst snd].
    + apply is_empty_true in Ex. subst x. rewrite IH.
      destruct (PyStr.is_empty k) eqn:Ek; [reflexivity|].
      destruct (last_index_from (String.eqb k) (S i) names); [reflexivity|].
      destruct (String.eqb_spec k EmptyString); [subst k; discriminate | reflexivity].
    + destruct (String.eqb_spec k x) as [->|Hne].
      * rewrite last_opt_cons, Ex. rewrite Ex in IH.
        destruct (last_opt (filter _ _)) as [kv|]; rewrite <- IH; reflexivity.
      * rewrite IH. destruct (PyStr.is_empty k); [reflexivity|].
        now destruct (last_index_from (String.eqb k) (S i) names).
Qed.

Lemma header_map_get (header_values : list Value) (k : string) :
  PyDict.get k (_build_header_map header_values)
  = if PyStr.is_empty k then None
    else last_index (String.eqb k) (map _norm header_values).
Proof. apply index_of_last_occurrence. Qed.

Lemma last_index_from_spec {A : Type} (p : A -> bool) (l : list A) (d : A) :
  forall i,
    match last_index_from p i l with
    | Some j =>
        i <= j < i + List.length l /\ p (nth (j - i) l d) = true
        /\ forall m, j < m < i + List.length l -> p (nth (m - i) l d) = false
    | None => forall x, In x l -> p x = false
    end.
Proof.
  induction l as [|x l IH]; intros i; cbn [last_index_from].
  - intros x [].
  - specialize (IH (S i)). cbn [List.length].
    destruct (last_index_from p (S i) l) as [j|].
    + destruct IH as (Hj & Hp & Hlast). split; [lia|]. split.
      * replace (j - i) with (S (j - S i)) by lia. exact Hp.
      * intros m Hm. replace (m - i) with (S (m - S i)) by lia. apply Hlast. lia.
    + destruct (p x) eqn:Ex.
      * split; [lia|]. split; [now rewrite Nat.sub_diag|].
        intros m Hm. replace (m - i) with (S (m - S i)) by lia.
        cbn [nth]. apply IH, nth_In. lia.
      * intros y [<-|Hy]; auto.
Qed.

Lemma last_index_norm (header_values : list Value) (k : string) :
  match last_index (String.eqb k) (map _norm header_values) with
  | Some i =>
      i < List.length header_values
      /\ _norm (nth i header_values VNone) = k
      /\ forall j, i < j < List.length header_values -> _norm (nth j header_values VNone) <> k
  | None => forall h, In h header_values -> _norm h <> k
  end.
Proof.
  unfold last_index.
  pose proof (last_index_from_spec (String.eqb k) (map _norm header_values) EmptyString 0) as Hs.
  destruct (last_index_from (String.eqb k) 0 (map _norm header_values)) as [i|].
  - destruct Hs as (Hi & Hp & Hlast). rewrite length_map in *. simpl in Hi.
    rewrite Nat.sub_0_r in Hp.
    assert (Hnth : forall j, j < List.length header_values ->
              nth j (map _norm header_values) EmptyString = _norm (nth j header_values VNone)).
    { intros j Hj. rewrite (nth_indep _ EmptyString (_norm VNone)) by now rewrite length_map.
      apply map_nth. }
    split; [lia|]. split.
    + rewrite <- Hnth by lia. symmetry. now apply String.eqb_eq.
    + intros j Hj E. specialize (Hlast j). rewrite Nat.sub_0_r, Hnth in Hlast by lia.
      rewrite E, String.eqb_refl in Hlast. simpl in Hlast.
      specialize (Hlast ltac:(lia)). discriminate.
  - intros h Hh E. specialize (Hs (_norm h) (in_map _ _ _ Hh)).
    rewrite E, String.eqb_refl in Hs. discriminate.
Qed.

(** X2.  A lookup in the map of _build_header_map that succeeds gives, for
    a non-empty name, the index of the last header cell whose normal form is
    the name; a lookup that fails was for the empty name or for a name that
    no header cell has. *)
Theorem header_map_keeps_last_column (header_values : list Value) (k : string) :
  match PyDict.get k (_build_header_map header_values) with
  | Some i =>
      k <> EmptyString
      /\ i < List.length header_values
      /\ _norm (nth i header_values VNone) = k
      /\ forall j, i < j < List.length header_values -> _norm (nth j header_values VNone) <> k
  | None =>
      k = EmptyString \/ forall h, In h header_values -> _norm h <> k
  end.
Proof.
  rewrite header_map_get. destruct (PyStr.is_empty k) eqn:Ek.
  - left. now apply is_empty_true.
  - assert (Hk : k <> EmptyString) by (intros ->; discriminate).
    pose proof (last_index_norm header_values k) as Hs.
    destruct (last_index (String.eqb k) (map _norm header_values)) as [i|].
    + split; [exact Hk | exact Hs].
    + right. exact Hs.
Qed.

Lemma first_some_ext {A B : Type} (f g : A -> option B) (l : list A) :
  (forall x, f x = g x) -> first_some f l = first_some g l.
Proof.
  intros E. induction l as [|x l IH]; simpl; [reflexivity|]. now rewrite E, IH.
Qed.

(** X3.  _find_idx of one logical field on the map of a header row is the
    column of the first of the field's synonyms, in their listed order, that
    has a column; the column of a synonym is what the map holds for its
    normal form, it lies within the header row and the header there has the
    synonym's normal form. *)
Theorem logical_column_is_first_synonym_present (header_values : list Value) (logical : string) :
  _find_idx (_build_header_map header_values) [logical]
  = first_some (column_of header_values) (synonyms_of logical)
  /\ (forall syn,
        column_of header_values syn
        = PyDict.get (_norm (VStr syn)) (_build_header_map header_values))
  /\ (forall syn i,
        column_of header_values syn = Some i ->
        i < List.length header_values
        /\ _norm (nth i header_values VNone) = _norm (VStr syn)).
Proof.
  assert (Hcol : forall syn,
             column_of header_values syn
             = PyDict.get (_norm (VStr syn)) (_build_header_map header_values)).
  { intros syn. unfold column_of. now rewrite header_map_get. }
  split; [|split; [exact Hcol|]].
  - unfold _find_idx. cbn [first_some].
    rewrite (first_some_ext _ (column_of header_values)) by (intros x; now rewrite Hcol).
    now destruct (first_some (column_of header_values) (synonyms_of logical)).
  - intros syn i Hi. unfold column_of in Hi.
    destruct (PyStr.is_empty (_norm (VStr syn))); [discriminate|].
    pose proof (last_index_norm header_values (_norm (VStr syn))) as Hm.
    rewrite Hi in Hm. tauto.
Qed.

(** ** Joining a base URL and a path *)

Lemma lstrip_slash_cons (s : string) :
  PyStr.lstrip_slash (String "/" s) = PyStr.lstrip_slash s.
Proof. reflexivity. Qed.

Lemma rstrip_slash_snoc (s : string) :
  PyStr.rstrip_slash (s +++ "/") = PyStr.rstrip_slash s.
Proof. apply rstrip_by_snoc. reflexivity. Qed.

Lemma some_text_nonempty (s : string) : s <> EmptyString -> some_text (Some s) = true.
Proof. destruct s; [congruence | reflexivity]. Qed.

Lemma some_text_snoc (s t : string) : some_text (Some (s +++ String "/" t)) = true.
Proof. now destruct s. Qed.

(** X4.  For a non-empty base and a non-empty path, one more slash at the
    end of the base and at the head of the path gives the same URL, for the
    override and for the row's base URL alike; the URL is a base that is
    trimmed of slashes on the right, one slash, and a path that is trimmed
    of slashes on the left. *)
Theorem slashes_at_the_join_do_not_matter (o p : string) (r b : option string) :
  o <> EmptyString -> p <> EmptyString ->
  resolve_url (Some (o +++ "/")) r b (Some ("/" +++ p)) = resolve_url (Some o) r b (Some p)
  /\ resolve_url None None (Some (o +++ "/")) (Some ("/" +++ p))
     = resolve_url None None (Some o) (Some p)
  /\ exists o' p',
       resolve_url (Some o) r b (Some p) = Some (o' +++ "/" +++ p')
       /\ PyStr.rstrip_slash o' = o' /\ PyStr.lstrip_slash p' = p'.
Proof.
  intros Ho Hp.
  assert (E1 : forall r0 b0, resolve_url (Some o) r0 b0 (Some p)
               = Some (PyStr.rstrip_slash o +++ "/" +++ PyStr.lstrip_slash p)).
  { intros r0 b0. unfold resolve_url.
    now rewrite (some_text_nonempty o Ho), (some_text_nonempty p Hp). }
  assert (E2 : forall r0 b0, resolve_url (Some (o +++ "/")) r0 b0 (Some ("/" +++ p))
               = Some (PyStr.rstrip_slash o +++ "/" +++ PyStr.lstrip_slash p)).
  { intros r0 b0. unfold resolve_url.
    rewrite some_text_snoc. cbn [some_text PyStr.is_empty append negb andb text_of].
    now rewrite rstrip_slash_snoc, lstrip_slash_cons. }
  split; [now rewrite E1, E2|]. split.
  - unfold resolve_url.
    rewrite some_text_snoc, (some_text_nonempty o Ho), (some_text_nonempty p Hp).
    cbn [some_text PyStr.is_empty append negb andb text_of].
    now rewrite rstrip_slash_snoc, lstrip_slash_cons.
  - exists (PyStr.rstrip_slash o), (PyStr.lstrip_slash p).
    split; [apply E1|]. split; [apply rstrip_by_idem | apply lstrip_by_idem].
Qed.

Lemma slashes_at_the_join_do_not_matter_witness :
  resolve_url (Some ("https://api.test" +++ "/")) None None (Some ("/" +++ "users"))
  = resolve_url (Some "https://api.test") None None (Some "users")
  /\ resolve_url None None (Some ("https://api.test" +++ "/")) (Some ("/" +++ "users"))
     = resolve_url None None (Some "https://api.test") (Some "users")
  /\ exists o' p',
       resolve_url (Some "https://api.test") None None (Some "users")
       = Some (o' +++ "/" +++ p')
       /\ PyStr.rstrip_slash o' = o' /\ PyStr.lstrip_slash p' = p'.
Proof.
  apply (slashes_at_the_join_do_not_matter "https://api.test" "users" None None);
    discriminate.
Defined.

(** ** Path parameters *)

Lemma replace_fuel_absent (c : ascii) (old new : string) (s : string) :
  PyStr.contains_char c s = false ->
  forall fuel, PyStr.replace_fuel fuel (String c old) new s = s.
Proof.
  induction s as [|d s IH]; intros Hc fuel; destruct fuel; try reflexivity.
  simpl in Hc. apply orb_false_elim in Hc. destruct Hc as [Hd Hs].
  cbn [PyStr.replace_fuel String.prefix].
  destruct (ascii_dec c d) as [->|Hne]; [now rewrite Ascii.eqb_refl in Hd|].
  now rewrite IH.
Qed.

Lemma replace_absent (c : ascii) (old new s : string) :
  PyStr.contains_char c s = false -> PyStr.replace (String c old) new s = s.
Proof. intros Hc. unfold PyStr.replace. simpl PyStr.is_empty. now apply replace_fuel_absent. Qed.

(** X5.  A URL without an opening brace is left as it is by the
    substitution of the path parameters, whatever the parameters are. *)
Theorem url_without_placeholder_is_kept (L : PyLib) (path_params : PyDict.t JValue)
    (url : string) :
  PyStr.contains_char "{" url = false ->
  substitute_path_params path_params url = url.
Proof.
  intros Hc. unfold substitute_path_params.
  induction path_params as [|[k v] pp IH]; [reflexivity|].
  cbn [fold_left fst snd].
  change ("{" +++ k +++ "}") with (String "{" (k +++ "}")).
  now rewrite replace_absent.
Qed.

Lemma url_without_placeholder_is_kept_witness :
  PyStr.contains_char "{" "https://api.test/users" = false
  /\ substitute_path_params (H := pylib) [("id", JInt 7)] "https://api.test/users"
     = "https://api.test/users".
Proof.
  split; [reflexivity|].
  apply (url_without_placeholder_is_kept pylib [("id", JInt 7)] "https://api.test/users").
  reflexivity.
Defined.

(** ** Escaping of field paths *)

Lemma replace_fuel_char (c : ascii) (new s : string) :
  forall fuel, String.length s < fuel ->
    PyStr.replace_fuel fuel (String c EmptyString) new s = replace_char c new s.
Proof.
  induction s as [|d s IH]; intros fuel Hf; destruct fuel; try reflexivity; simpl in Hf; [lia|].
  cbn [PyStr.replace_fuel String.prefix replace_char String.length PyStr.drop].
  destruct (ascii_dec c d) as [->|Hne].
  - rewrite Ascii.eqb_refl.
    replace (String.prefix EmptyString s) with true by now destruct s.
    now rewrite IH by lia.
  - destruct (Ascii.eqb_spec d c) as [->|_]; [contradiction|].
    now rewrite IH by lia.
Qed.

Lemma replace_one_char (c : ascii) (new s : string) :
  PyStr.replace (String c EmptyString) new s = replace_char c new s.
Proof. unfold PyStr.replace. simpl PyStr.is_empty. apply replace_fuel_char. lia. Qed.

Lemma replace_char_app (c : ascii) (new a b : string) :
  replace_char c new (a +++ b) = replace_char c new a +++ replace_char c new b.
Proof.
  induction a as [|d a IH]; simpl; [reflexivity|].
  destruct (Ascii.eqb d c); simpl; rewrite IH; [now rewrite append_assoc | reflexivity].
Qed.

Lemma escape_js_string_chars (v : string) : _escape_js_string v = escaped v.
Proof.
  unfold _escape_js_string.
  change (PyStr.replace backslash) with (PyStr.replace (String (ascii_of_nat 92) EmptyString)).
  rewrite !replace_one_char.
  induction v as [|c v IH]; [reflexivity|].
  cbn [replace_char escaped]. unfold escaped_char.
  destruct (Ascii.eqb c (ascii_of_nat 92)) eqn:Eb.
  - rewrite replace_char_app, IH. reflexivity.
  - cbn [replace_char]. rewrite IH.
    destruct (Ascii.eqb c "'") eqn:Eq; reflexivity.
Qed.

Lemma escaped_injective (a : string) : forall b, escaped a = escaped b -> a = b.
Proof.
  induction a as [|c a IH]; intros [|d b] E.
  - reflexivity.
  - exfalso. cbn [escaped] in E. unfold escaped_char in E.
    destruct (Ascii.eqb d (ascii_of_nat 92)); [discriminate|].
    destruct (Ascii.eqb d "'"); discriminate.
  - exfalso. cbn [escaped] in E. unfold escaped_char in E.
    destruct (Ascii.eqb c (ascii_of_nat 92)); [discriminate|].
    destruct (Ascii.eqb c "'"); discriminate.
  - cbn [escaped] in E. unfold escaped_char in E.
    destruct (Ascii.eqb_spec c (ascii_of_nat 92)) as [Hc|Hc];
      destruct (Ascii.eqb_spec d (ascii_of_nat 92)) as [Hd|Hd].
    + injection E as E. subst. f_equal. now apply IH.
    + destruct (Ascii.eqb_spec d "'") as [Hq|Hq].
      * injection E as E1 E2. discriminate.
      * injection E as E1 E2. congruence.
    + destruct (Ascii.eqb_spec c "'") as [Hq|Hq].
      * injection E as E1 E2. discriminate.
      * injection E as E1 E2. congruence.
    + destruct (Ascii.eqb_spec c "'") as [Hq|Hq]; destruct (Ascii.eqb_spec d "'") as [Hq'|Hq'].
      * injection E as E. subst. f_equal. now apply IH.
      * injection E as E1 E2. congruence.
      * injection E as E1 E2. congruence.
      * injection E as E1 E2. subst. f_equal. now apply IH.
Qed.

Lemma escaped_plain (v : string) : plain_text v = true -> escaped v = v.
Proof.
  induction v as [|c v IH]; [reflexivity|]. cbn [plain_text escaped].
  intros Hp. apply andb_prop in Hp. destruct Hp as [Hp Hv].
  apply andb_prop in Hp. destruct Hp as [Hb Hq].
  unfold escaped_char.
  apply negb_true_iff in Hb. apply negb_true_iff in Hq. rewrite Hb, Hq.
  simpl. now rewrite IH.
Qed.

(** X6.  _escape_js_string maps different texts to different texts.  It
    is the text with every backslash doubled and a backslash before every
    single quote; a text without a backslash and without a single quote is
    returned as it is. *)
Theorem escaping_is_injective :
  (forall a b, _escape_js_string a = _escape_js_string b -> a = b)
  /\ (forall v, _escape_js_string v = escaped v)
  /\ (forall v, plain_text v = true -> _escape_js_string v = v).
Proof.
  split; [|split].
  - intros a b. rewrite !escape_js_string_chars. apply escaped_injective.
  - exact escape_js_string_chars.
  - intros v Hv. rewrite escape_js_string_chars. now apply escaped_plain.
Qed.

(** ** The size of a compiled script *)

Section ScriptSize.
Context `{PyLib}.

Lemma condition_tests_length (field value_expr op : string) (expected : JValue) :
  List.length (condition_tests field value_expr op expected)
  = if recognised op then 4 else 0.
Proof.
  unfold condition_tests, recognised, operator_names, op_in. cbv zeta.
  cbn [existsb].
  repeat match goal with
         | |- context [String.eqb (PyStr.lower op) ?name] =>
             destruct (String.eqb (PyStr.lower op) name);
             cbn [orb test_block List.length]; try reflexivity
         end.
Qed.

Lemma length_flat_map_sum {A B : Type} (f : A -> list B) (l : list A) :
  List.length (flat_map f l) = list_sum (map (fun x => List.length (f x)) l).
Proof.
  induction l as [|x l IH]; simpl; [reflexivity|]. now rewrite length_app, IH.
Qed.

Lemma field_tests_length (entry : string * JValue) :
  List.length (field_tests entry)
  = 4 * match as_dict (snd entry) with
        | Some conds => List.length (filter (fun c => recognised (fst c)) conds)
        | None => 0
        end.
Proof.
  destruct entry as [field conditions]. unfold field_tests. cbn [snd].
  destruct (as_dict conditions) as [conds|]; [|reflexivity].
  cbv zeta. generalize ("_.get(jsonData, '" +++ _escape_js_string field +++ "')") as ve.
  intros ve. induction conds as [|[op e] conds IH]; [reflexivity|].
  cbn [flat_map filter fst snd]. rewrite length_app, condition_tests_length, IH.
  destruct (recognised op); simpl; lia.
Qed.

(** X7.  The script of _build_assertion_tests has nine lines and four more
    for every condition whose field holds a mapping and whose operator is
    known; nothing else adds a line. *)
Theorem script_has_four_lines_per_known_operator (assertions_dict : PyDict.t JValue) :
  List.length (_build_assertion_tests assertions_dict)
  = 9 + 4 * recognised_conditions assertions_dict.
Proof.
  unfold _build_assertion_tests, recognised_conditions.
  rewrite length_app. change (List.length preamble) with 9. f_equal.
  induction assertions_dict as [|entry d IH]; [reflexivity|].
  cbn [flat_map map]. unfold list_sum in *. cbn [fold_right].
  rewrite length_app, field_tests_length, IH. lia.
Qed.

(** X8.  An operator written in ASCII gives the same test lines in upper
    case and in lower case as it gives itself, and an operator whose
    lower-case form is not a known name gives no line. *)
Theorem operators_match_in_any_case (field value_expr op : string) (expected : JValue) :
  (ascii_text op = true ->
   condition_tests field value_expr (PyStr.upper op) expected
   = condition_tests field value_expr op expected
   /\ condition_tests field value_expr (PyStr.lower op) expected
      = condition_tests field value_expr op expected)
  /\ (recognised op = false -> condition_tests field value_expr op expected = []).
Proof.
  split; [intros _; split|].
  - unfold condition_tests. now rewrite lower_upper.
  - unfold condition_tests. now rewrite lower_idem.
  - intros Hr. pose proof (condition_tests_length field value_expr op expected) as Hl.
    rewrite Hr in Hl. now apply length_zero_iff_nil.
Qed.

End ScriptSize.

(** ** Parameter cells that are not JSON *)

Section PlainParameters.
Context `{PyLib}.

Lemma kv_pairs_trimmed (sep : ascii) (parts : list string) (k : string) (v : JValue) :
  In (k, v) (kv_pairs sep parts) ->
  PyStr.strip k = k /\ exists s, v = JStr s /\ PyStr.strip s = s.
Proof.
  unfold kv_pairs. intros Hin. apply in_flat_map in Hin. destruct Hin as (part & _ & Hin).
  destruct (PyStr.split1 sep part) as [[a b]|]; [|contradiction].
  destruct Hin as [E|[]]. injection E as <- <-.
  split; [apply strip_idem|]. exists (PyStr.strip b). split; [reflexivity | apply strip_idem].
Qed.

(** X9.  When the trimmed text of a cell is not the text of a JSON object,
    every entry of the mapping _parse_kv_text returns has a key with no
    white space around it and a value that is a text with no white space
    around it. *)
Theorem plain_parameter_cells_give_trimmed_text (text : Value) :
  match json_loads (PyStr.strip (py_str text)) with
  | Some obj => as_dict obj
  | None => None
  end = None ->
  forall k v,
    In (k, v) (_parse_kv_text text) ->
    PyStr.strip k = k /\ exists s, v = JStr s /\ PyStr.strip s = s.
Proof.
  intros Hjson k v. unfold _parse_kv_text.
  destruct (negb (truthy text)); [intros []|].
  cbv zeta. destruct (PyStr.is_empty (PyStr.strip (py_str text))); [intros []|].
  rewrite Hjson.
  destruct (PyStr.contains_char "&" _ && PyStr.contains_char "=" _);
    intros Hin; apply in_of_pairs in Hin; now apply kv_pairs_trimmed in Hin.
Qed.

End PlainParameters.

Lemma plain_parameter_cells_give_trimmed_text_witness :
  In ("page", JStr "2") (_parse_kv_text (H := pylib) (VStr " page : 2 ; size: 10"))
  /\ PyStr.strip "page" = "page"
  /\ exists s, JStr "2" = JStr s /\ PyStr.strip s = s.
Proof.
  split; [vm_compute; now left|].
  apply (plain_parameter_cells_give_trimmed_text (H := pylib) (VStr " page : 2 ; size: 10")).
  - vm_compute. reflexivity.
  - vm_compute. now left.
Defined.

Lemma operators_match_in_any_case_witness :
  ascii_text "Gte" = true
  /\ condition_tests (H := pylib) "total" "_.get(jsonData, 'total')" (PyStr.upper "Gte") (JInt 3)
     = condition_tests (H := pylib) "total" "_.get(jsonData, 'total')" "Gte" (JInt 3)
  /\ List.length
       (condition_tests (H := pylib) "total" "_.get(jsonData, 'total')" "Gte" (JInt 3)) = 4.
Proof.
  split; [reflexivity|]. split; [|reflexivity].
  exact (proj1 (proj1 (operators_match_in_any_case (H := pylib) "total"
                         "_.get(jsonData, 'total')" "Gte" (JInt 3)) eq_refl)).
Defined.

(** ** Merging the default headers *)

Lemma update_nth_app_l {A : Type} (f : A -> A) (l1 l2 : list A) :
  forall n, n < List.length l1 -> update_nth n f (l1 ++ l2) = update_nth n f l1 ++ l2.
Proof.
  induction l1 as [|x l1 IH]; intros n Hn; simpl in Hn; [lia|].
  destruct n; simpl; [reflexivity|]. now rewrite IH by lia.
Qed.

Lemma update_nth_nth_error {A : Type} (f : A -> A) (l : list A) :
  forall n i,
    nth_error (update_nth n f l) i
    = if (i =? n)%nat then option_map f (nth_error l i) else nth_error l i.
Proof.
  induction l as [|x l IH]; intros n i.
  - destruct n, i; simpl; try reflexivity; now destruct (i =? n)%nat.
  - destruct n, i; simpl; try reflexivity. apply IH.
Qed.

Lemma update_nth_map {A B : Type} (f : A -> A) (g : A -> B) (l : list A) :
  (forall x, g (f x) = g x) -> forall n, map g (update_nth n f l) = map g l.
Proof.
  intros E. induction l as [|x l IH]; intros n; destruct n; simpl; try reflexivity.
  - now rewrite E.
  - now rewrite IH.
Qed.

Lemma key_to_index_get (headers : list Header) (k : string) :
  PyDict.get k (key_to_index headers)
  = if PyStr.is_empty k then None
    else last_index (String.eqb k) (map (fun h => PyStr.lower (header_key h)) headers).
Proof. apply index_of_last_occurrence. Qed.

Lemma key_to_index_bound (headers : list Header) (k : string) (i : nat) :
  PyDict.get k (key_to_index headers) = Some i ->
  exists h, nth_error headers i = Some h /\ PyStr.lower (header_key h) = k.
Proof.
  rewrite key_to_index_get. destruct (PyStr.is_empty k); [discriminate|].
  unfold last_index. intros Hi.
  pose proof (last_index_from_spec (String.eqb k)
                (map (fun h => PyStr.lower (header_key h)) headers) EmptyString 0) as Hs.
  rewrite Hi in Hs. destruct Hs as (Hb & Hp & _). rewrite length_map in Hb. simpl in Hb.
  rewrite Nat.sub_0_r in Hp. apply String.eqb_eq in Hp.
  pose proof (nth_error_nth' (map (fun h => PyStr.lower (header_key h)) headers) EmptyString
                (n := i)) as Hn.
  rewrite length_map, nth_error_map in Hn. specialize (Hn ltac:(lia)).
  destruct (nth_error headers i) as [h|]; [|discriminate].
  exists h. split; [reflexivity|]. simpl in Hn. congruence.
Qed.

Lemma merge_default_step (index : PyDict.t nat) (headers : list Header) (kv : Value * Value) :
  merge_default index headers kv
  = match default_key kv with
    | None => headers
    | Some k =>
        match PyDict.get k index with
        | Some i =>
            update_nth i
              (fun h => {| header_key := header_key h;
                           header_value := default_value_text (snd kv) |})
              headers
        | None => headers ++ [header_of_default kv]
        end
    end.
Proof.
  unfold merge_default, default_key, header_of_default. now destruct (fst kv).
Qed.

Section MergeLoop.
Variable index : PyDict.t nat.

Let writes (i : nat) (kv : Value * Value) : bool :=
  match default_key kv with
  | Some k => match PyDict.get k index with Some j => (j =? i)%nat | None => false end
  | None => false
  end.

Let appends (kv : Value * Value) : bool :=
  match default_key kv with
  | Some k => negb (PyDict.mem k index)
  | None => false
  end.

Lemma merge_loop (defaults : list (Value * Value)) :
  forall base extra : list Header,
    (forall k i, PyDict.get k index = Some i -> i < List.length base) ->
    exists kept,
      fold_left (merge_default index) defaults (base ++ extra)
      = kept ++ extra ++ map header_of_default (filter appends defaults)
      /\ map header_key kept = map header_key base
      /\ forall i h,
           nth_error base i = Some h ->
           nth_error kept i
           = Some {| header_key := header_key h;
                     header_value :=
                       match last_opt (filter (writes i) defaults) with
                       | Some kv => default_value_text (snd kv)
                       | None => header_value h
                       end |}.
Proof.
  induction defaults as [|d ds IH]; intros base extra Hb.
  - exists base. simpl. rewrite app_nil_r. split; [reflexivity|]. split; [reflexivity|].
    intros i h Hi. rewrite Hi. now destruct h.
  - cbn [fold_left filter]. rewrite merge_default_step.
    unfold writes at 1, appends at 1. unfold PyDict.mem.
    destruct (default_key d) as [k|] eqn:Ek.
    + destruct (PyDict.get k index) as [j|] eqn:Ej.
      * pose proof (Hb _ _ Ej) as Hj.
        rewrite update_nth_app_l by assumption.
        destruct (IH (update_nth j (fun h => {| header_key := header_key h;
                                               header_value := default_value_text (snd d) |})
                        base) extra) as (kept & E & Hk & Hv).
        { intros k' i Hi. rewrite update_nth_length. eauto. }
        exists kept. cbn [negb]. split; [exact E|]. split.
        { rewrite Hk. now apply update_nth_map. }
        intros i h Hi. specialize (Hv i).
        rewrite update_nth_nth_error, Hi in Hv.
        destruct (Nat.eqb_spec i j) as [->|Hne].
        -- rewrite Nat.eqb_refl. rewrite last_opt_cons.
           rewrite (Hv _ eq_refl). cbn [header_key header_value].
           now destruct (last_opt _).
        -- destruct (Nat.eqb_spec j i) as [->|_]; [congruence|].
           now apply Hv.
      * cbn [negb]. rewrite <- app_assoc.
        destruct (IH base (extra ++ [header_of_default d]) Hb) as (kept & E & Hk & Hv).
        exists kept. split; [|split; [exact Hk | exact Hv]].
        rewrite E. now rewrite <- !app_assoc.
    + destruct (IH base extra Hb) as (kept & E & Hk & Hv).
      exists kept. split; [exact E|]. split; [exact Hk|]. exact Hv.
Qed.

End MergeLoop.

Lemma merge_headers_fold (existing : list Header) (o : option (list (Value * Value))) :
  _merge_headers existing o
  = fold_left (merge_default (key_to_index existing)) (defaults_of o) existing.
Proof. destruct o as [[|d ds]|]; reflexivity. Qed.

Lemma merge_headers_parts (existing : list Header) (o : option (list (Value * Value))) :
  exists kept,
    _merge_headers existing o
    = kept ++ map header_of_default (filter (appended existing) (defaults_of o))
    /\ map header_key kept = map header_key existing
    /\ forall i h,
         nth_error existing i = Some h ->
         nth_error kept i
         = Some {| header_key := header_key h;
                   header_value :=
                     match last_opt (filter (written_to existing i) (defaults_of o)) with
                     | Some kv => default_value_text (snd kv)
                     | None => header_value h
                     end |}.
Proof.
  rewrite merge_headers_fold.
  destruct (merge_loop (key_to_index existing) (defaults_of o) existing []) as (kept & E & Hk & Hv).
  { intros k i Hi. destruct (key_to_index_bound _ _ _ Hi) as (h & Hh & _).
    apply nth_error_Some. congruence. }
  exists kept. rewrite app_nil_r in E. split; [exact E|]. split; [exact Hk | exact Hv].
Qed.

(** X10.  The list _merge_headers returns is the existing headers, with
    their keys as they were and in their places, followed by one new header
    for every default whose key is not None and is not, in lower case, the
    key of an existing header; the new headers stand in the order of the
    defaults. *)
Theorem merged_headers_keep_the_existing_keys (existing : list Header)
    (default_headers : option (list (Value * Value))) :
  exists kept,
    _merge_headers existing default_headers
    = kept ++ map header_of_default (filter (appended existing) (defaults_of default_headers))
    /\ map header_key kept = map header_key existing.
Proof.
  destruct (merge_headers_parts existing default_headers) as (kept & E & Hk & _).
  exists kept. split; assumption.
Qed.

(** X11.  After _merge_headers the header at a position of the existing
    list has the key it had; its value is the text of the last default that
    is filed under that position (the last header with the default's key in
    lower case), and its old value when no default is. *)
Theorem merged_header_takes_the_last_default (existing : list Header)
    (default_headers : option (list (Value * Value))) (i : nat) (h : Header) :
  nth_error existing i = Some h ->
  nth_error (_merge_headers existing default_headers) i
  = Some {| header_key := header_key h;
            header_value :=
              match last_opt (filter (written_to existing i) (defaults_of default_headers)) with
              | Some kv => default_value_text (snd kv)
              | None => header_value h
              end |}.
Proof.
  intros Hi. destruct (merge_headers_parts existing default_headers) as (kept & E & Hk & Hv).
  rewrite E, nth_error_app1; [now apply Hv|].
  apply (f_equal (@List.length string)) in Hk. rewrite !length_map in Hk. rewrite Hk.
  apply nth_error_Some. congruence.
Qed.

Lemma merged_header_takes_the_last_default_witness :
  nth_error
    (_merge_headers
       [ {| header_key := "Accept"; header_value := "*/*" |};
         {| header_key := "authorization"; header_value := "none" |} ]
       (Some [(VStr "Authorization", VStr "Bearer t")]))
    1
  = Some {| header_key := "authorization"; header_value := "Bearer t" |}.
Proof.
  exact (merged_header_takes_the_last_default
           [ {| header_key := "Accept"; header_value := "*/*" |};
             {| header_key := "authorization"; header_value := "none" |} ]
           (Some [(VStr "Authorization", VStr "Bearer t")]) 1
           {| header_key := "authorization"; header_value := "none" |} eq_refl).
Defined.

(** ** The headers of a request *)

(** X12.  With the one default header that main passes, the headers of a
    row's request hold a header of that name, up to letter case, whose value
    is the default's.  The headers of a request are never empty, and a row
    without a headers cell gets the JSON content type when there is no
    default. *)
Theorem every_request_carries_the_auth_header (L : PyLib) (headers_raw : Value)
    (name value : string) :
  (exists h,
      In h (row_headers headers_raw (Some [(VStr name, VStr value)]))
      /\ PyStr.lower (header_key h) = PyStr.lower name
      /\ header_value h = value)
  /\ (forall default_headers, row_headers headers_raw default_headers <> [])
  /\ row_headers VNone None = [content_type_json].
Proof.
  split; [|split].
  - unfold row_headers. cbv zeta.
    set (existing := match map _ (_parse_kv_text headers_raw) with
                     | [] => [content_type_json]
                     | _ :: _ => _
                     end).
    destruct (merge_headers_parts existing (Some [(VStr name, VStr value)]))
      as (kept & E & Hk & Hv).
    rewrite E. cbn [defaults_of filter] in *.
    unfold appended, written_to, default_key in *. cbn [fst snd py_str] in *.
    unfold PyDict.mem in *.
    destruct (PyDict.get (PyStr.lower name) (key_to_index existing)) as [i|] eqn:Ei.
    + destruct (key_to_index_bound _ _ _ Ei) as (h & Hh & Hl).
      specialize (Hv i h Hh). rewrite Nat.eqb_refl in Hv. cbn in Hv.
      eexists. split; [apply in_or_app; left; eapply nth_error_In; exact Hv|].
      split; [exact Hl | reflexivity].
    + cbn [negb map]. eexists. split; [apply in_or_app; right; left; reflexivity|].
      split; reflexivity.
  - intros o. unfold row_headers. cbv zeta.
    set (existing := match map _ (_parse_kv_text headers_raw) with
                     | [] => [content_type_json]
                     | _ :: _ => _
                     end).
    assert (Hne : existing <> []).
    { unfold existing. destruct (map _ (_parse_kv_text headers_raw)); discriminate. }
    destruct (merge_headers_parts existing o) as (kept & E & Hk & _).
    rewrite E. destruct kept as [|x kept]; [|discriminate].
    destruct existing; [congruence | discriminate].
  - reflexivity.
Qed.

(** ** Bearer authentication *)

Lemma drop_length_app (p t : string) : PyStr.drop (String.length p) (p +++ t) = t.
Proof. induction p as [|c p IH]; simpl; [now destruct t | exact IH]. Qed.

Lemma if_same {A : Type} (b : bool) (x : A) : (if b then x else x) = x.
Proof. now destruct b. Qed.

(** X13.  Whatever the configured header name and prefix, a bearer block on
    the collection carries the fetched token itself; the default header is
    the configured name (Authorization when there is none) with the value
    made of the configured prefix ("Bearer " when there is none, nothing
    when it is null) followed by the token; the bearer block is there when
    the name is Authorization in any letter case and the trimmed prefix
    starts with "bearer" in any letter case.  Without a configured name and
    prefix the header is Authorization with the value "Bearer " and the
    token, and the bearer block is there. *)
Theorem bearer_token_is_the_fetched_token (header_name : option string)
    (header_prefix : option (option string)) (token : string) :
  (forall t,
      bearer_auth (snd (auth_of_token header_name header_prefix token)) = Some t -> t = token)
  /\ fst (auth_of_token header_name header_prefix token)
     = [(VStr (configured_name header_name),
         VStr (configured_prefix header_prefix +++ token))]
  /\ (PyStr.lower (configured_name header_name) = "authorization" ->
      PyStr.startswith "bearer"
        (PyStr.lower (PyStr.strip (configured_prefix header_prefix))) = true ->
      snd (auth_of_token header_name header_prefix token)
      = Some {| auth_type := "bearer"; auth_token := token |})
  /\ auth_of_token None None token
     = ([(VStr "Authorization", VStr ("Bearer " +++ token))],
        Some {| auth_type := "bearer"; auth_token := token |}).
Proof.
  assert (E : auth_of_token header_name header_prefix token
              = ([(VStr (configured_name header_name),
                   VStr (configured_prefix header_prefix +++ token))],
                 if String.eqb (PyStr.lower (configured_name header_name)) "authorization"
                    && PyStr.startswith "bearer"
                         (PyStr.lower (PyStr.strip (configured_prefix header_prefix)))
                 then Some {| auth_type := "bearer"; auth_token := token |}
                 else None)).
  { unfold auth_of_token, configured_name, configured_prefix. cbv zeta.
    destruct header_prefix as [[[|ch p]|]|];
      cbn [some_text PyStr.is_empty negb text_of];
      rewrite ?drop_length_app, ?if_same;
      (destruct (String.eqb _ "authorization" && _); reflexivity). }
  split; [|split; [|split]].
  - intros t. rewrite E. cbn [snd].
    destruct (String.eqb _ "authorization" && _); [|discriminate].
    cbn [bearer_auth auth_type auth_token String.eqb Ascii.eqb Bool.eqb].
    now intros [= <-].
  - now rewrite E.
  - intros Hn Hp. rewrite E. cbn [snd]. rewrite Hn, Hp. reflexivity.
  - unfold auth_of_token. cbv zeta.
    change (String.eqb (PyStr.lower "Authorization") "authorization"
            && PyStr.startswith "bearer"
                 (PyStr.lower (PyStr.strip (if some_text (Some "Bearer ")
                                            then text_of (Some "Bearer ") else EmptyString))))
      with true.
    cbn [some_text PyStr.is_empty negb text_of].
    now rewrite (drop_length_app "Bearer " token), if_same.
Qed.

(** ** The attachment type *)

Lemma split1_some (d : ascii) (s a b : string) :
  PyStr.split1 d s = Some (a, b) ->
  s = a +++ String d b /\ PyStr.contains_char d a = false.
Proof.
  revert a b. induction s as [|c s IH]; intros a b; simpl; [discriminate|].
  destruct (Ascii.eqb_spec c d) as [->|Hne].
  - intros [= <- <-]. split; reflexivity.
  - destruct (PyStr.split1 d s) as [[k v]|]; [|discriminate].
    intros [= <- <-]. destruct (IH k v eq_refl) as (-> & Hk). split; [reflexivity|].
    simpl. rewrite Hk. destruct (Ascii.eqb_spec d c); [congruence | reflexivity].
Qed.

Lemma split1_none (d : ascii) (s : string) :
  PyStr.split1 d s = None -> PyStr.contains_char d s = false.
Proof.
  induction s as [|c s IH]; simpl; [reflexivity|].
  destruct (Ascii.eqb_spec c d) as [->|Hne]; [discriminate|].
  destruct (PyStr.split1 d s) as [[k v]|]; [discriminate|].
  intros _. rewrite IH by reflexivity.
  destruct (Ascii.eqb_spec d c); [congruence | reflexivity].
Qed.

(** X14.  When no type is guessed _guess_mime_type gives
    application/octet-stream; else the two parts it gives, joined by a
    slash, are the guessed type and the first part holds no slash.  It
    fails exactly for a guessed type that is not empty and holds no
    slash. *)
Theorem mime_type_is_split_at_the_first_slash (guess_type : string -> option string)
    (file_path : string) :
  match _guess_mime_type guess_type file_path with
  | Some (major, minor) =>
      ((guess_type file_path = None \/ guess_type file_path = Some EmptyString)
       /\ (major, minor) = ("application", "octet-stream"))
      \/ (guess_type file_path = Some (major +++ "/" +++ minor)
          /\ PyStr.contains_char "/" major = false)
  | None =>
      exists mime_type,
        guess_type file_path = Some mime_type
        /\ mime_type <> EmptyString
        /\ PyStr.contains_char "/" mime_type = false
  end.
Proof.
  unfold _guess_mime_type.
  destruct (guess_type file_path) as [m|]; [|left; split; [now left | reflexivity]].
  destruct m as [|c m]; [left; split; [now right | reflexivity]|].
  cbn [PyStr.is_empty].
  destruct (PyStr.split1 "/" (String c m)) as [[a b]|] eqn:Es.
  - right. apply split1_some in Es. destruct Es as (-> & Ha). split; [reflexivity | exact Ha].
  - exists (String c m). split; [reflexivity|]. split; [discriminate|].
    now apply split1_none.
Qed.

(** ** The token client *)

Lemma split_on_nonempty (d : ascii) (s : string) : PyStr.split_on d s <> [].
Proof.
  induction s as [|c s IH]; simpl; [discriminate|].
  destruct (Ascii.eqb c d); [discriminate|].
  destruct (PyStr.split_on d s); discriminate.
Qed.

Lemma split_on_app (d : ascii) (a b : string) :
  PyStr.split_on d (a +++ String d b) = PyStr.split_on d a ++ PyStr.split_on d b.
Proof.
  induction a as [|c a IH]; simpl.
  - now rewrite Ascii.eqb_refl.
  - destruct (Ascii.eqb c d); [now rewrite IH|].
    rewrite IH. pose proof (split_on_nonempty d a) as Hne.
    destruct (PyStr.split_on d a); [congruence | reflexivity].
Qed.

Lemma walk_path_null (parts : list string) : walk_path parts JNull = JNull.
Proof. destruct parts; reflexivity. Qed.

Lemma walk_path_app (l1 l2 : list string) :
  forall current, walk_path (l1 ++ l2) current = walk_path l2 (walk_path l1 current).
Proof.
  induction l1 as [|p l1 IH]; intros current; [reflexivity|].
  cbn [app walk_path].
  destruct (step_into p current); rewrite ?IH; try reflexivity.
  now rewrite walk_path_null.
Qed.

Section Extract.
Context `{PyLib}.

(** X15.  For non-empty paths p and q, extracting the path p.q is
    extracting p and then extracting q from what was found. *)
Theorem dotted_path_is_walked_part_by_part (data : JValue) (p q : string) :
  p <> EmptyString -> q <> EmptyString ->
  _extract_from_path data (JStr (p +++ "." +++ q))
  = _extract_from_path (_extract_from_path data (JStr p)) (JStr q).
Proof.
  intros Hp Hq. unfold _extract_from_path. cbn [j_truthy jstr].
  destruct p as [|c p]; [congruence|]. destruct q as [|c' q]; [congruence|].
  cbn [PyStr.is_empty negb append].
  change (String c (p +++ String "." (String c' q)))
    with (String c p +++ String "." (String c' q)).
  now rewrite split_on_app, walk_path_app.
Qed.

(** X16.  With a path that is false (None, the empty text, zero)
    _extract_from_path gives the data back; with any other path it gives
    None when the data is not a mapping; for a mapping and a non-empty key
    without a dot it gives the value under the key, and None when there is
    none. *)
Theorem path_edge_cases (data path : JValue) :
  (j_truthy path = false -> _extract_from_path data path = data)
  /\ (j_truthy path = true -> as_dict data = None -> _extract_from_path data path = JNull)
  /\ (forall members key,
        data = JObj members -> key <> EmptyString -> PyStr.contains_char "." key = false ->
        _extract_from_path data (JStr key)
        = match PyDict.get key (PyDict.of_pairs members) with
          | Some v => v
          | None => JNull
          end).
Proof.
  split; [|split].
  - intros Hp. unfold _extract_from_path. now rewrite Hp.
  - intros Hp Hd. unfold _extract_from_path. rewrite Hp. cbn [negb].
    pose proof (split_on_nonempty "." (jstr path)) as Hne.
    destruct (PyStr.split_on "." (jstr path)) as [|part rest]; [congruence|].
    cbn [walk_path]. unfold step_into. now rewrite Hd.
  - intros members key -> Hk Hdot. unfold _extract_from_path. cbn [j_truthy jstr].
    destruct key as [|c key]; [congruence|]. cbn [PyStr.is_empty negb].
    assert (Hs : PyStr.split_on "." (String c key) = [String c key]).
    { clear Hk. revert Hdot. generalize (String c key) as s. clear.
      induction s as [|d s IH]; [reflexivity|]. simpl.
      intros Hd. apply orb_false_elim in Hd. destruct Hd as [Hd Hs].
      destruct (Ascii.eqb_spec d "."%char) as [->|_]; [discriminate|].
      now rewrite IH. }
    rewrite Hs. cbn [walk_path]. unfold step_into. cbn [as_dict].
    now destruct (PyDict.get (String c key) (PyDict.of_pairs members)) as [[]|].
Qed.

Section Fetch.
Variable urljoin : string -> string -> string.
Variable request : string -> string -> JValue -> JValue -> JValue -> JValue -> HttpResult.

Ltac fetch_cases base_url auth_config :=
  unfold fetch_auth_token; cbv zeta;
  destruct auth_config as [|entry rest];
  [ destruct (j_truthy base_url) eqn:?; cbn [negb fst snd]
  | set (cfg := entry :: rest);
    generalize (config_get_default "token_path" (JStr "token") cfg);
    generalize (config_get_default "timeout" (JInt 30) cfg);
    generalize (config_get_default "verify" (JBool true) cfg);
    generalize (j_or (config_get "headers" cfg)
                  (JObj [("Content-Type", JStr "application/json")]));
    generalize (j_or (config_get "body" cfg) (JObj []));
    generalize (j_or (config_get "method" cfg) (JStr "POST"));
    generalize (config_get "endpoint" cfg);
    intros endpoint method body headers verify timeout token_path;
    destruct base_url as [| | | |[|cb b]| |]; cbn [j_truthy PyStr.is_empty negb fst snd];
    try match goal with |- context [if ?c then _ else _] => destruct c eqn:? end;
    cbn [negb fst snd];
    destruct endpoint as [| | | |[|ce e]| |]; cbn [j_truthy PyStr.is_empty negb fst snd];
    try match goal with |- context [if ?c then _ else _] => destruct c eqn:? end;
    cbn [negb fst snd];
    destruct method as [| | | |m| |]; cbn [fst snd];
    try match goal with
        | |- context [request ?a ?b ?c ?d ?e ?f] =>
            destruct (request a b c d e f) as [exc|text] eqn:?; cbn [fst snd];
            [ | destruct (json_loads text) as [payload|] eqn:?; cbn [fst snd];
                [ match goal with
                  | |- context [if negb ?c then _ else _] =>
                      destruct c eqn:?; cbn [negb fst snd]
                  end
                | ] ]
        end ].

(** X17.  fetch_auth_token sends at most one request.  Unless the base URL
    and the endpoint are both non-empty texts it raises without any effect.
    When it returns a token, it sent one request and printed the token, the
    response was JSON, and the token is the text of the value at the token
    path, which is a true value. *)
Theorem token_is_fetched_after_validation (base_url : JValue)
    (auth_config : PyDict.t JValue) :
  let r := fetch_auth_token urljoin request base_url auth_config in
  List.length (filter is_request (fst r)) <= 1
  /\ (text_present base_url && text_present (config_get "endpoint" auth_config) = false ->
      fst r = [] /\ exists exn, snd r = Raised exn)
  /\ (forall t,
        snd r = Returned t ->
        exists method url body headers timeout verify text payload,
          fst r = [AuthRequested method url body headers timeout verify; AuthPrinted t]
          /\ request method url body headers timeout verify = HttpBody text
          /\ json_loads text = Some payload
          /\ j_truthy (_extract_from_path payload
                         (config_get_default "token_path" (JStr "token") auth_config)) = true
          /\ t = jstr (_extract_from_path payload
                         (config_get_default "token_path" (JStr "token") auth_config))).
Proof.
  cbv zeta. split; [|split].
  - fetch_cases base_url auth_config; simpl; lia.
  - fetch_cases base_url auth_config;
      try (intros _; split; [reflexivity | eexists; reflexivity]);
      cbn [text_present PyStr.is_empty negb andb]; discriminate.
  - intros t. fetch_cases base_url auth_config; try discriminate.
    intros [= <-]. repeat eexists; eassumption.
Qed.

End Fetch.
End Extract.

Lemma dotted_path_is_walked_part_by_part_witness :
  _extract_from_path (H := pylib)
    (JObj [("data", JObj [("token", JStr "abc")])]) (JStr ("data" +++ "." +++ "token"))
  = _extract_from_path (H := pylib)
      (_extract_from_path (H := pylib)
         (JObj [("data", JObj [("token", JStr "abc")])]) (JStr "data"))
      (JStr "token").
Proof.
  apply (dotted_path_is_walked_part_by_part (H := pylib)); discriminate.
Defined.

(** ** The two verdict loops *)

Lemma report_verdict_failed (l : list Assertion) :
  fold_left (fun r a => match error a with Some _ => FAILED | None => r end) l FAILED = FAILED.
Proof. induction l as [|a l IH]; simpl; [reflexivity|]. now destruct (error a). Qed.

Lemma report_verdict_is_verdict_of (l : list Assertion) : report_verdict l = verdict_of l.
Proof.
  unfold report_verdict. induction l as [|a l IH]; simpl; [reflexivity|].
  destruct (error a); [apply report_verdict_failed | exact IH].
Qed.

Lemma verdict_of_has_failure (e : Execution) :
  verdict_of (assertions e) = if has_failure e then FAILED else PASSED.
Proof.
  unfold has_failure. induction (assertions e) as [|a l IH]; simpl; [reflexivity|].
  now destruct (error a).
Qed.

(** X18.  The verdict of the runner's own report and the verdict the
    reconciler writes into the workbook are the same for every execution:
    FAILED when some assertion has an error, PASSED otherwise. *)
Theorem report_and_workbook_verdicts_agree (e : Execution) :
  report_verdict (assertions e) = verdict_of (assertions e)
  /\ verdict_of (assertions e) = (if has_failure e then FAILED else PASSED).
Proof.
  split.
  - unfold report_verdict. induction (assertions e) as [|a l IH]; simpl; [reflexivity|].
    destruct (error a); [apply report_verdict_failed | exact IH].
  - unfold has_failure. induction (assertions e) as [|a l IH]; simpl; [reflexivity|].
    now destruct (error a).
Qed.

(** ** The expected status of the report *)

Lemma leading_digits_of_uint (d : Decimal.uint) :
  leading_digits (NilEmpty.string_of_uint d) = NilEmpty.string_of_uint d.
Proof. induction d; simpl; [reflexivity | now rewrite IHd ..]. Qed.

Lemma of_Z_digits (n : Z) :
  (0 <= n)%Z ->
  leading_digits (PyStr.of_Z n) = PyStr.of_Z n
  /\ int_of_digits (PyStr.of_Z n) = Some n.
Proof.
  intros Hn. unfold PyStr.of_Z, int_of_digits. destruct n as [|p|p]; [| |lia].
  - split; reflexivity.
  - cbn [Z.to_int NilZero.string_of_int].
    pose proof (DecimalPos.Unsigned.to_uint_nonnil p) as Hnil.
    rewrite (NilZero.usu _ Hnil). unfold N.of_uint. rewrite DecimalPos.Unsigned.of_to.
    split; [|reflexivity].
    unfold NilZero.string_of_uint. destruct (Pos.to_uint p) eqn:E; [congruence | ..];
      rewrite <- E; apply leading_digits_of_uint.
Qed.

Lemma search_status_title (n : Z) :
  (0 <= n)%Z -> search_status (status_title n) = Some (PyStr.of_Z n).
Proof.
  intros Hn. unfold status_title.
  assert (Hm : match_status_at (status_prefix +++ PyStr.of_Z n) = Some (PyStr.of_Z n)).
  { unfold match_status_at. rewrite prefix_append, drop_length_app.
    rewrite (proj1 (of_Z_digits n Hn)). now rewrite of_Z_nonempty. }
  destruct (status_prefix +++ PyStr.of_Z n) eqn:E; cbn [search_status]; now rewrite Hm.
Qed.

Lemma status_title_named (n : Z) : PyStr.substringb "Status code is" (status_title n) = true.
Proof.
  apply substringb_of_prefix.
  change (status_title n) with ("Status code is" +++ " " +++ PyStr.of_Z n).
  apply prefix_append.
Qed.

(** X19.  For an expected status that is not negative, the runner's report
    reads the status back from the name of the status assertion, whatever
    assertions stand before it; that name is the title in the first line of
    the status assertion the generator writes. *)
Theorem report_reads_back_the_expected_status (n : Z) (err : option string)
    (before : list Assertion) :
  (0 <= n)%Z ->
  report_expected_status (before ++ [ {| assertion := status_title n; error := err |} ])
  = Some n
  /\ hd EmptyString (status_lines n) = "pm.test('" +++ status_title n +++ "', function () {".
Proof.
  intros Hn. split; [|reflexivity].
  unfold report_expected_status. rewrite fold_left_app. cbn [fold_left assertion].
  rewrite status_title_named, (search_status_title n Hn).
  now rewrite (proj2 (of_Z_digits n Hn)).
Qed.

Lemma report_reads_back_the_expected_status_witness :
  report_expected_status
    ([ {| assertion := "Status code is 500"; error := None |} ]
       ++ [ {| assertion := status_title 200; error := Some "AssertionError" |} ])
  = Some 200%Z
  /\ hd EmptyString (status_lines 200)
     = "pm.test('" +++ status_title 200 +++ "', function () {".
Proof.
  apply (report_reads_back_the_expected_status 200 (Some "AssertionError")
           [ {| assertion := "Status code is 500"; error := None |} ]).
  lia.
Defined.

(** ** The summary of the report *)

Lemma filter_split_length {A : Type} (p : A -> bool) (l : list A) :
  List.length (filter p l) + List.length (filter (fun x => negb (p x)) l) = List.length l.
Proof.
  induction l as [|x l IH]; simpl; [reflexivity|]. destruct (p x); simpl; lia.
Qed.

(** X20.  In the summary of the runner's report the total is the number of
    executions, the failed count is the number of executions with an
    assertion error, the passed count is the number of the others, and the
    two counts add up to the total. *)
Theorem summary_counts_the_failed_executions (executions : list Execution) :
  let '(total, passed, failed) := report_summary executions in
  total = Z.of_nat (List.length executions)
  /\ failed = Z.of_nat (List.length (filter has_failure executions))
  /\ passed = Z.of_nat (List.length (filter (fun e => negb (has_failure e)) executions))
  /\ (passed + failed = total)%Z.
Proof.
  unfold report_summary. cbv zeta.
  assert (E : filter (fun e => match report_verdict (assertions e) with
                               | PASSED => true
                               | FAILED => false
                               end) executions
              = filter (fun e => negb (has_failure e)) executions).
  { apply filter_ext. intros e.
    rewrite report_verdict_is_verdict_of, verdict_of_has_failure.
    now destruct (has_failure e). }
  rewrite E. pose proof (filter_split_length has_failure executions) as Hs.
  repeat split; lia.
Qed.

(** ** The folders of the collection *)

Section SetFacts.
Context {V : Type}.

Lemma set_absent (k : string) (v : V) (d : PyDict.t V) :
  PyDict.get k d = None -> PyDict.set k v d = d ++ [(k, v)].
Proof.
  induction d as [|[k' v'] d IH]; simpl; [reflexivity|].
  destruct (String.eqb k k'); [discriminate|]. intros Hn. now rewrite IH.
Qed.

Lemma set_present (k : string) (d : PyDict.t V) (f : V) :
  PyDict.get k d = Some f ->
  exists l1 l2,
    d = l1 ++ (k, f) :: l2
    /\ forall v, PyDict.set k v d = l1 ++ (k, v) :: l2.
Proof.
  induction d as [|[k' v'] d IH]; simpl; [discriminate|].
  destruct (String.eqb_spec k k') as [->|Hne].
  - intros [= ->]. exists [], d. split; reflexivity.
  - intros Hg. destruct (IH Hg) as (l1 & l2 & -> & Hs).
    exists ((k', v') :: l1), l2. split; [reflexivity|]. intros v. simpl. now rewrite Hs.
Qed.

Lemma set_set (k : string) (v w : V) (d : PyDict.t V) :
  PyDict.set k w (PyDict.set k v d) = PyDict.set k w d.
Proof.
  induction d as [|[k' v'] d IH]; simpl.
  - now rewrite String.eqb_refl.
  - destruct (String.eqb k k') eqn:E; simpl.
    + now rewrite String.eqb_refl.
    + now rewrite E, IH.
Qed.

End SetFacts.

(** The two ways [add_item] changes [folders]. *)
Lemma add_item_cases (k display : string) (item : Item) (fs : PyDict.t Folder) :
  (exists l1 f l2,
      fs = l1 ++ (k, f) :: l2
      /\ add_item k display item fs
         = l1 ++ (k, {| folder_name := folder_name f;
                        folder_items := folder_items f ++ [item] |}) :: l2)
  \/ (~ In k (PyDict.keys fs)
      /\ add_item k display item fs
         = fs ++ [(k, {| folder_name := display; folder_items := [item] |})]).
Proof.
  unfold add_item, PyDict.mem. destruct (PyDict.get k fs) as [f|] eqn:Eg.
  - left. rewrite Eg. destruct (set_present k fs f Eg) as (l1 & l2 & E & Hs).
    exists l1, f, l2. split; [exact E | apply Hs].
  - right. split; [now apply get_none_not_key|].
    rewrite get_set_same, set_set. cbn [folder_name folder_items app].
    now apply set_absent.
Qed.

Lemma flat_requests_values_app (l1 l2 : PyDict.t Folder) :
  flat_requests (PyDict.values (l1 ++ l2))
  = flat_requests (PyDict.values l1) ++ flat_requests (PyDict.values l2).
Proof. unfold flat_requests, PyDict.values. now rewrite map_app, flat_map_app. Qed.

Lemma add_item_requests (k display : string) (item : Item) (fs : PyDict.t Folder) :
  Permutation (flat_requests (PyDict.values (add_item k display item fs)))
    (flat_requests (PyDict.values fs) ++ [item]).
Proof.
  destruct (add_item_cases k display item fs) as [(l1 & f & l2 & -> & ->)|(_ & ->)].
  - rewrite !flat_requests_values_app.
    unfold flat_requests, PyDict.values. cbn [map flat_map snd folder_items].
    rewrite <- !app_assoc. apply Permutation_app_head. apply Permutation_app_head.
    apply Permutation_app_comm.
  - rewrite flat_requests_values_app. unfold flat_requests at 2, PyDict.values at 2.
    cbn [map flat_map snd folder_items]. now rewrite app_nil_r.
Qed.

Section CompileInvariant.
Context `{PyLib}.
Variable base_url_override : option string.
Variable I : GenState -> Prop.
Hypothesis I_step :
  forall gs cols t st n row st' k d it,
    I gs ->
    process_row base_url_override cols t st n row = (st', Some (k, d, it)) ->
    I {| folders := add_item k d it (folders gs); row_links := row_links gs ++ [(t, n)] |}.

Lemma row_loop_invariant (cols : Columns) (t : string) (rows : list (nat * list Cell)) :
  forall st gs,
    I gs -> I (snd (fold_left (row_step base_url_override cols t) rows (st, gs))).
Proof.
  induction rows as [|r rows IH]; intros st gs Hgs; cbn [fold_left]; [exact Hgs|].
  rewrite row_step_unfold.
  destruct (process_row base_url_override cols t st (fst r) (snd r))
    as [st1 [[[k d] it]|]] eqn:Ep; apply IH; [|exact Hgs].
  eapply I_step; eassumption.
Qed.

Lemma process_sheet_invariant (gs : GenState) (sheet : Worksheet) :
  I gs -> I (process_sheet base_url_override gs sheet).
Proof.
  intros Hgs. unfold process_sheet.
  destruct (negb (String.eqb (sheet_state sheet) "visible")); [exact Hgs|].
  destruct (_build_header_map _); [exact Hgs|]. now apply row_loop_invariant.
Qed.

Lemma compile_invariant (wb : list Worksheet) :
  I {| folders := []; row_links := [] |} -> I (compile_workbook base_url_override wb).
Proof.
  unfold compile_workbook. generalize {| folders := []; row_links := [] |} as gs.
  induction wb as [|sheet wb IH]; intros gs Hgs; cbn [fold_left]; [exact Hgs|].
  apply IH. now apply process_sheet_invariant.
Qed.

End CompileInvariant.

Lemma compiled_origin (L : PyLib) (o : option string) (cols : Columns) (t : string)
    (st st' : Sticky) (n : nat) (row : list Cell) (k d : string) (it : Item) :
  process_row o cols t st n row = (st', Some (k, d, it)) -> origin it = (t, n).
Proof.
  intros Hp. apply process_row_compiled in Hp. cbv zeta in Hp.
  destruct Hp as (_ & url & _ & _ & _ & _ & _ & Ho). exact Ho.
Qed.

Lemma requests_are_the_linked_rows (L : PyLib) (o : option string) (wb : list Worksheet) :
  Permutation
    (map origin (flat_requests (collection_items (compile_workbook o wb))))
    (row_links (compile_workbook o wb)).
Proof.
  apply (compile_invariant o
           (fun gs => Permutation (map origin (flat_requests (collection_items gs)))
                        (row_links gs))); [|constructor].
  intros gs cols t st n row st' k d it Hgs Hp. unfold collection_items in *.
  cbn [folders row_links].
  rewrite (Permutation_map origin (add_item_requests k d it (folders gs))).
  rewrite map_app. cbn [map]. rewrite (compiled_origin _ _ _ _ _ _ _ _ _ _ _ Hp).
  now apply Permutation_app_tail.
Qed.

(** X21.  The rows the requests of the collection were compiled from are
    the linkage up to order: every linked row has one request and every
    request one linked row. *)
Theorem every_linked_row_has_one_request (L : PyLib) (base_url_override : option string)
    (wb : list Worksheet) :
  let gs := compile_workbook base_url_override wb in
  Permutation (map origin (flat_requests (collection_items gs))) (row_links gs)
  /\ List.length (flat_requests (collection_items gs)) = List.length (row_links gs).
Proof.
  cbv zeta. pose proof (requests_are_the_linked_rows L base_url_override wb) as Hp.
  split; [exact Hp|]. apply Permutation_length in Hp. now rewrite length_map in Hp.
Qed.

(** *** Within a folder the requests keep the order of the rows *)

Lemma subseq_nil_any {A : Type} (l : list A) : subseq [] l.
Proof. induction l; [apply subseq_nil | now apply subseq_skip]. Qed.

Lemma subseq_app_r {A : Type} (s l : list A) (x : A) : subseq s l -> subseq s (l ++ [x]).
Proof.
  induction 1; simpl.
  - apply subseq_skip, subseq_nil.
  - now apply subseq_skip.
  - now apply subseq_take.
Qed.

Lemma subseq_snoc {A : Type} (s l : list A) (x : A) :
  subseq s l -> subseq (s ++ [x]) (l ++ [x]).
Proof.
  induction 1; simpl.
  - apply subseq_take, subseq_nil.
  - now apply subseq_skip.
  - now apply subseq_take.
Qed.

Lemma subseq_length {A : Type} (s l : list A) : subseq s l -> List.length s <= List.length l.
Proof. induction 1; simpl; lia. Qed.

Lemma subseq_same_length {A : Type} (s l : list A) :
  subseq s l -> List.length s = List.length l -> s = l.
Proof.
  induction 1 as [|x s l Hs IH|x s l Hs IH]; simpl; intros Hl.
  - reflexivity.
  - apply subseq_length in Hs. lia.
  - f_equal. apply IH. lia.
Qed.

Lemma folders_in_row_order (L : PyLib) (o : option string) (wb : list Worksheet) :
  let gs := compile_workbook o wb in
  NoDup (PyDict.keys (folders gs))
  /\ Forall (fun f => folder_items f <> []
                      /\ subseq (map origin (folder_items f)) (row_links gs))
       (collection_items gs).
Proof.
  cbv zeta.
  apply (compile_invariant o
           (fun gs => NoDup (PyDict.keys (folders gs))
                      /\ Forall (fun f => folder_items f <> []
                                          /\ subseq (map origin (folder_items f))
                                               (row_links gs))
                           (collection_items gs)));
    [|split; constructor].
  intros gs cols t st n row st' k d it (Hnd & Hall) Hp. unfold collection_items in *.
  cbn [folders row_links].
  pose proof (compiled_origin _ _ _ _ _ _ _ _ _ _ _ Hp) as Ho.
  assert (Hweak : forall f,
             folder_items f <> []
             /\ subseq (map origin (folder_items f)) (row_links gs) ->
             folder_items f <> []
             /\ subseq (map origin (folder_items f)) (row_links gs ++ [(t, n)])).
  { intros f (Hne & Hs). split; [exact Hne | now apply subseq_app_r]. }
  destruct (add_item_cases k d it (folders gs)) as [(l1 & f & l2 & E & ->)|(Hk & ->)].
  - rewrite E in Hnd, Hall. split.
    + unfold PyDict.keys in *. rewrite map_app in *. exact Hnd.
    + unfold PyDict.values in *. rewrite map_app in *. cbn [map snd] in *.
      apply Forall_app in Hall. destruct Hall as (H1 & H2).
      inversion H2 as [|? ? (Hne & Hs) H3]; subst.
      apply Forall_app. split; [eapply Forall_impl; [exact Hweak | exact H1]|].
      constructor; [|eapply Forall_impl; [exact Hweak | exact H3]].
      cbn [folder_items]. split; [now destruct (folder_items f)|].
      rewrite map_app. cbn [map]. rewrite Ho. now apply subseq_snoc.
  - split.
    + unfold PyDict.keys in *. rewrite map_app. cbn [map fst].
      apply NoDup_app; [exact Hnd | repeat constructor; intros [] |].
      intros x Hx [<-|[]]. contradiction.
    + unfold PyDict.values in *. rewrite map_app. cbn [map snd].
      apply Forall_app. split; [eapply Forall_impl; [exact Hweak | exact Hall]|].
      constructor; [|constructor]. cbn [folder_items map]. split; [discriminate|].
      rewrite Ho. apply (subseq_snoc [] (row_links gs)), subseq_nil_any.
Qed.

(** X22.  A folder of the collection is never empty, and the rows of its
    requests are a subsequence of the linkage: within a folder the requests
    keep the order of the rows. *)
Theorem folder_requests_follow_the_rows (L : PyLib) (base_url_override : option string)
    (wb : list Worksheet) (f : Folder) :
  let gs := compile_workbook base_url_override wb in
  In f (collection_items gs) ->
  folder_items f <> [] /\ subseq (map origin (folder_items f)) (row_links gs).
Proof.
  cbv zeta. intros Hin.
  destruct (folders_in_row_order L base_url_override wb) as (_ & Hall).
  rewrite Forall_forall in Hall. now apply Hall.
Qed.

(** X23.  When the collection has at most one folder, the rows of its
    requests, in the order of the collection, are the linkage. *)
Theorem single_folder_keeps_the_linkage_order (L : PyLib) (base_url_override : option string)
    (wb : list Worksheet) :
  let gs := compile_workbook base_url_override wb in
  List.length (collection_items gs) <= 1 ->
  map origin (flat_requests (collection_items gs)) = row_links gs.
Proof.
  cbv zeta. intros Hone.
  pose proof (requests_are_the_linked_rows L base_url_override wb) as Hp.
  destruct (folders_in_row_order L base_url_override wb) as (_ & Hall). cbv zeta in Hall.
  destruct (collection_items (compile_workbook base_url_override wb)) as [|f [|g rest]].
  - simpl in Hp. apply Permutation_nil in Hp. now rewrite Hp.
  - unfold flat_requests in *. cbn [flat_map] in *. rewrite app_nil_r in *.
    inversion Hall as [|? ? (_ & Hs) _]; subst.
    apply subseq_same_length; [exact Hs|]. now apply Permutation_length.
  - simpl in Hone. lia.
Qed.

(** ** The URL object of a request *)

Lemma split_on_parts (d : ascii) (s : string) :
  Forall (fun part => PyStr.contains_char d part = false) (PyStr.split_on d s).
Proof.
  induction s as [|c s IH]; simpl; [repeat constructor|].
  destruct (Ascii.eqb_spec c d) as [->|Hne]; [constructor; [reflexivity | exact IH]|].
  destruct (PyStr.split_on d s) as [|h t]; [repeat constructor|].
  - simpl. destruct (Ascii.eqb_spec d c); [congruence | reflexivity].
  - inversion IH as [|? ? Hh Ht]; subst. constructor; [|exact Ht].
    simpl. rewrite Hh. destruct (Ascii.eqb_spec d c); [congruence | reflexivity].
Qed.

(** X24.  The path of a request's url object is there exactly when the
    final URL has a path, and then no segment is empty or holds a slash;
    the host is there exactly when the final URL has a network location,
    and then it is that one name. *)
Theorem url_object_has_clean_path_segments (L : PyLib) (url : string)
    (query_params : PyDict.t JValue) :
  let u := build_url_dict url query_params in
  match url_path u with
  | Some segments =>
      Forall (fun seg => seg <> EmptyString /\ PyStr.contains_char "/" seg = false) segments
      /\ path (urlparse (raw u)) <> EmptyString
  | None => path (urlparse (raw u)) = EmptyString
  end
  /\ match host u with
     | Some names => names = [netloc (urlparse (raw u))] /\ netloc (urlparse (raw u)) <> EmptyString
     | None => netloc (urlparse (raw u)) = EmptyString
     end.
Proof.
  cbv zeta. unfold build_url_dict. cbv zeta. cbn [url_path host raw].
  set (final := urlparse (urlunparse _)).
  unfold nonempty_opt. split.
  - destruct (path final) as [|c p] eqn:Ep; cbn [PyStr.is_empty option_map]; [reflexivity|].
    split; [|discriminate].
    pose proof (split_on_parts "/" (String c p)) as Hparts.
    induction Hparts as [|seg segs Hseg _ IH]; [constructor|].
    cbn [filter]. destruct seg as [|a seg]; cbn [PyStr.is_empty negb]; [exact IH|].
    constructor; [split; [discriminate | exact Hseg] | exact IH].
  - destruct (netloc final) as [|c n] eqn:En; cbn [PyStr.is_empty option_map]; [reflexivity|].
    split; [reflexivity | discriminate].
Qed.

Lemma folder_requests_follow_the_rows_witness :
  let gs := compile_workbook (H := pylib) (Some "https://api.test") [login_sheet] in
  let f := hd {| folder_name := EmptyString; folder_items := [] |} (collection_items gs) in
  In f (collection_items gs)
  /\ folder_items f <> []
  /\ subseq (map origin (folder_items f)) (row_links gs).
Proof.
  cbv zeta.
  assert (Hin : In (hd {| folder_name := EmptyString; folder_items := [] |}
                      (collection_items (compile_workbook (H := pylib)
                                           (Some "https://api.test") [login_sheet])))
                  (collection_items (compile_workbook (H := pylib)
                                       (Some "https://api.test") [login_sheet])))
    by (vm_compute; left; reflexivity).
  split; [exact Hin|].
  exact (folder_requests_follow_the_rows pylib (Some "https://api.test") [login_sheet] _ Hin).
Defined.

Lemma single_folder_keeps_the_linkage_order_witness :
  let gs := compile_workbook (H := pylib) (Some "https://api.test") [login_sheet] in
  List.length (collection_items gs) <= 1
  /\ map origin (flat_requests (collection_items gs)) = row_links gs.
Proof.
  cbv zeta.
  assert (Hone : List.length (collection_items (compile_workbook (H := pylib)
                                                  (Some "https://api.test") [login_sheet]))
                 <= 1) by (vm_compute; lia).
  split; [exact Hone|].
  exact (single_folder_keeps_the_linkage_order pylib (Some "https://api.test")
           [login_sheet] Hone).
Defined.

(** ** Every request has a name and an upper-case method *)

Lemma truthy_text (v : Value) : truthy v = true -> PyStr.is_empty (py_str v) = false.
Proof.
  destruct v as [|s|z]; simpl; [discriminate | | intros _; apply of_Z_nonempty].
  now destruct s.
Qed.

Lemma pick_name_text (name_raw tc last : Value) :
  PyStr.is_empty (py_str (pick_name name_raw tc last)) = false.
Proof.
  rewrite pick_name_own. apply truthy_text.
  destruct (truthy name_raw) eqn:En; [exact En|].
  destruct (truthy tc) eqn:Et; [exact Et|].
  unfold py_or. destruct (truthy last) eqn:El; [exact El | reflexivity].
Qed.

Lemma normalize_row_name_method (cols : Columns) (st : Sticky) (row : list Cell) :
  let rv := snd (normalize_row cols st row) in
  PyStr.is_empty (py_str (rv_name rv)) = false
  /\ PyStr.upper (rv_method rv) = rv_method rv.
Proof.
  unfold normalize_row, carry_text.
  destruct (not_blank (_get_cell row (idx_url cols)));
    destruct (not_blank (_get_cell row (idx_base cols)));
    destruct (not_blank (_get_cell row (idx_path cols)));
    cbn [snd rv_name rv_method]; (split; [apply pick_name_text | apply upper_idem]).
Qed.

Lemma compiled_requests_all (L : PyLib) (o : option string) (wb : list Worksheet) :
  Forall (fun item => item_name item <> EmptyString
                      /\ PyStr.upper (item_method item) = item_method item)
    (flat_requests (collection_items (compile_workbook o wb))).
Proof.
  apply (compile_invariant o
           (fun gs => Forall (fun item => item_name item <> EmptyString
                                          /\ PyStr.upper (item_method item) = item_method item)
                        (flat_requests (collection_items gs)))); [|constructor].
  intros gs cols t st n row st' k d it Hgs Hp. unfold collection_items in *.
  cbn [folders].
  apply (Permutation_Forall (Permutation_sym (add_item_requests k d it (folders gs)))).
  apply Forall_app. split; [exact Hgs|]. constructor; [|constructor].
  apply process_row_compiled in Hp. cbv zeta in Hp.
  destruct Hp as (_ & url & _ & Hn & Hm & _).
  destruct (normalize_row_name_method cols st row) as (Hname & Hupper).
  rewrite Hn, Hm. split; [|exact Hupper].
  intros E. rewrite E in Hname. discriminate.
Qed.

(** X25.  Every request of the collection has a name that is not empty and
    a method that is in upper case, and the row it was compiled from is in
    the linkage. *)
Theorem requests_have_a_name_and_an_upper_case_method (L : PyLib)
    (base_url_override : option string) (wb : list Worksheet) (item : Item) :
  let gs := compile_workbook base_url_override wb in
  In item (flat_requests (collection_items gs)) ->
  item_name item <> EmptyString
  /\ PyStr.upper (item_method item) = item_method item
  /\ In (origin item) (row_links gs).
Proof.
  cbv zeta. intros Hin.
  pose proof (compiled_requests_all L base_url_override wb) as Hall.
  rewrite Forall_forall in Hall. destruct (Hall _ Hin) as (Hn & Hm).
  split; [exact Hn|]. split; [exact Hm|].
  apply (Permutation_in _ (requests_are_the_linked_rows L base_url_override wb)).
  now apply in_map.
Qed.

Lemma requests_have_a_name_and_an_upper_case_method_witness :
  let gs := compile_workbook (H := pylib) (Some "https://api.test") [login_sheet] in
  let item := hd {| item_name := EmptyString; item_method := EmptyString;
                    item_url := {| raw := EmptyString; protocol := None; host := None;
                                   url_path := None; url_query := None |};
                    item_event := None; origin := (EmptyString, 0) |}
                (flat_requests (collection_items gs)) in
  In item (flat_requests (collection_items gs))
  /\ item_name item <> EmptyString
  /\ PyStr.upper (item_method item) = item_method item
  /\ In (origin item) (row_links gs).
Proof.
  cbv zeta.
  match goal with
  | |- In ?i ?l /\ _ =>
      assert (Hin : In i l) by (vm_compute; left; reflexivity);
      split; [exact Hin|];
      exact (requests_have_a_name_and_an_upper_case_method pylib (Some "https://api.test")
               [login_sheet] i Hin)
  end.
Defined.

(** ** What the linkage points to *)

Lemma subseq_in {A : Type} (s l : list A) (x : A) : subseq s l -> In x s -> In x l.
Proof.
  induction 1 as [|y s l Hs IH|y s l Hs IH]; simpl; [tauto | auto |].
  intros [->|Hx]; auto.
Qed.

(** X26.  Every pair of the linkage names a visible sheet of the workbook
    and a row of it from row 2 on. *)
Theorem links_point_to_data_rows_of_visible_sheets (L : PyLib)
    (base_url_override : option string) (wb : list Worksheet) (t : string) (r : nat) :
  In (t, r) (row_links (compile_workbook base_url_override wb)) ->
  exists sheet,
    In sheet wb /\ title sheet = t /\ is_visible sheet = true
    /\ 2 <= r <= List.length (grid sheet).
Proof.
  unfold compile_workbook. rewrite compile_links. cbn [row_links app].
  intros Hin. apply in_flat_map in Hin. destruct Hin as (sheet & Hs & Hin).
  destruct (sheet_links_rows base_url_override sheet) as (ns & Hsub & E & Hhidden).
  rewrite E in Hin. apply in_map_iff in Hin. destruct Hin as (r' & [= <- <-] & Hr).
  exists sheet. split; [exact Hs|]. split; [reflexivity|]. split.
  - unfold is_visible. destruct (String.eqb (sheet_state sheet) "visible"); [reflexivity|].
    rewrite (Hhidden eq_refl) in Hr. destruct Hr.
  - pose proof (subseq_in _ _ _ Hsub Hr) as Hseq. apply in_seq in Hseq.
    unfold max_row in Hseq. lia.
Qed.

Lemma links_point_to_data_rows_of_visible_sheets_witness :
  In ("Sheet1", 3)
    (row_links (compile_workbook (H := pylib) (Some "https://api.test") [login_sheet]))
  /\ exists sheet,
       In sheet [login_sheet] /\ title sheet = "Sheet1" /\ is_visible sheet = true
       /\ 2 <= 3 <= List.length (grid sheet).
Proof.
  assert (Hin : In ("Sheet1", 3)
                  (row_links (compile_workbook (H := pylib) (Some "https://api.test")
                                [login_sheet])))
    by (vm_compute; right; left; reflexivity).
  split; [exact Hin|].
  exact (links_point_to_data_rows_of_visible_sheets pylib (Some "https://api.test")
           [login_sheet] "Sheet1" 3 Hin).
Defined.

(** ** Hidden sheets *)

Lemma reconcile_sheet_keeps_identity (links : list (string * nat)) (sheet : Worksheet)
    (es : list Execution) :
  title (fst (fst (reconcile_sheet links sheet es))) = title sheet
  /\ sheet_state (fst (fst (reconcile_sheet links sheet es))) = sheet_state sheet.
Proof.
  unfold reconcile_sheet.
  destruct (place_columns _ _) as [[g a] s].
  destruct (write_rows _ _ _ _ _ _ _ _) as [[g' it] ids]. split; reflexivity.
Qed.

Lemma compile_skips_hidden (L : PyLib) (o : option string) (wb : list Worksheet) :
  forall gs,
    fold_left (process_sheet o) wb gs = fold_left (process_sheet o) (filter is_visible wb) gs.
Proof.
  induction wb as [|sheet wb IH]; intros gs; [reflexivity|].
  cbn [fold_left filter].
  destruct (is_visible sheet) eqn:Ev.
  - cbn [fold_left]. apply IH.
  - rewrite <- IH. f_equal. unfold process_sheet. unfold is_visible in Ev. now rewrite Ev.
Qed.

Lemma reconcile_skips_hidden (links : list (string * nat)) (wb : list Worksheet) :
  forall es,
    snd (reconcile links wb es) = snd (reconcile links (filter is_visible wb) es)
    /\ filter is_visible (fst (reconcile links wb es))
       = fst (reconcile links (filter is_visible wb) es)
    /\ filter (fun s => negb (is_visible s)) (fst (reconcile links wb es))
       = filter (fun s => negb (is_visible s)) wb
    /\ map title (fst (reconcile links wb es)) = map title wb
    /\ map sheet_state (fst (reconcile links wb es)) = map sheet_state wb.
Proof.
  induction wb as [|sheet wb IH]; intros es; [repeat split|].
  cbn [reconcile filter].
  destruct (is_visible sheet) eqn:Ev; pose proof Ev as E; unfold is_visible in E;
    rewrite E; cbn [negb].
  - cbn [reconcile]. rewrite E. cbn [negb].
    pose proof (reconcile_sheet_keeps_identity links sheet es) as (Ht & Hst).
    destruct (reconcile_sheet links sheet es) as [[sheet' it] ids]. cbn [fst] in Ht, Hst.
    assert (Ev' : is_visible sheet' = true) by (unfold is_visible; now rewrite Hst).
    destruct (IH it) as (H1 & H2 & H3 & H4 & H5).
    destruct (reconcile links wb it) as [rest more].
    destruct (reconcile links (filter is_visible wb) it) as [rest' more'].
    cbn [fst snd filter map] in *. rewrite Ev'. cbn [negb].
    repeat split; congruence.
  - destruct (IH es) as (H1 & H2 & H3 & H4 & H5).
    destruct (reconcile links wb es) as [rest more].
    cbn [fst snd filter map] in *. rewrite Ev. cbn [negb].
    repeat split; congruence.
Qed.

(** X27.  Compiling a workbook is compiling its visible sheets.  The
    reconciler gives the same failure identifiers and the same visible
    sheets as on the visible sheets alone, leaves every other sheet as it
    was, and keeps the titles and the visibility of the sheets in their
    order. *)
Theorem hidden_sheets_are_left_alone (L : PyLib) (base_url_override : option string)
    (links : list (string * nat)) (wb : list Worksheet) (es : list Execution) :
  compile_workbook base_url_override wb
  = compile_workbook base_url_override (filter is_visible wb)
  /\ snd (reconcile links wb es) = snd (reconcile links (filter is_visible wb) es)
  /\ filter is_visible (fst (reconcile links wb es))
     = fst (reconcile links (filter is_visible wb) es)
  /\ filter (fun s => negb (is_visible s)) (fst (reconcile links wb es))
     = filter (fun s => negb (is_visible s)) wb
  /\ map title (fst (reconcile links wb es)) = map title wb
  /\ map sheet_state (fst (reconcile links wb es)) = map sheet_state wb.
Proof.
  split; [apply compile_skips_hidden | apply reconcile_skips_hidden].
Qed.

(** ** The failure identifiers *)

Lemma failure_id_length (id_idx : option nat) (r : nat) (e : Execution) (g : Grid) :
  List.length (failure_id id_idx r e g) <= (if has_failure e then 1 else 0).
Proof.
  unfold failure_id. rewrite verdict_of_has_failure.
  destruct (has_failure e); [|apply Nat.le_refl].
  destruct id_idx as [i|].
  - destruct (not_blank _); [apply Nat.le_refl|].
    destruct (exec_name e) as [n|]; [destruct (PyStr.is_empty n)|]; simpl; lia.
  - destruct (exec_name e) as [n|]; [destruct (PyStr.is_empty n)|]; simpl; lia.
Qed.

Lemma write_rows_failures (links : list (string * nat)) (t : string) (a s : nat)
    (id_idx : option nat) (rows : list nat) :
  forall g es,
    List.length (snd (write_rows links t a s id_idx rows g es))
    + List.length (filter has_failure (snd (fst (write_rows links t a s id_idx rows g es))))
    <= List.length (filter has_failure es).
Proof.
  induction rows as [|r rows IH]; intros g es; cbn [write_rows].
  - simpl. lia.
  - destruct (negb (linked links t r)); [apply IH|].
    destruct es as [|e es]; [simpl; lia|].
    pose proof (failure_id_length id_idx r e (write_result a s r e g)) as Hf.
    specialize (IH (write_result a s r e g) es).
    destruct (write_rows links t a s id_idx rows (write_result a s r e g) es)
      as [[g' it] more].
    cbn [fst snd filter] in *. rewrite length_app.
    destruct (has_failure e); simpl; lia.
Qed.

Lemma reconcile_failures (links : list (string * nat)) (wb : list Worksheet) :
  forall es,
    List.length (snd (reconcile links wb es)) <= List.length (filter has_failure es).
Proof.
  induction wb as [|sheet wb IH]; intros es; cbn [reconcile]; [simpl; lia|].
  destruct (negb (String.eqb (sheet_state sheet) "visible")).
  - specialize (IH es). destruct (reconcile links wb es) as [rest ids]. exact IH.
  - unfold reconcile_sheet.
    destruct (place_columns _ _) as [[g a] s].
    pose proof (write_rows_failures links (title sheet) a s
                  (find_synonym_col "id"
                     (map (fun c => _norm (value c)) (first_row (grid sheet))))
                  (seq 2 (max_row g - 1)) g es) as Hw.
    destruct (write_rows _ _ _ _ _ _ _ _) as [[g' it] ids].
    specialize (IH it). destruct (reconcile links wb it) as [rest more].
    cbn [fst snd] in *. rewrite length_app. lia.
Qed.

(** X28.  There are never more failure identifiers than executions with an
    assertion error, and none when no execution has one. *)
Theorem failure_identifiers_come_from_failed_executions (links : list (string * nat))
    (wb : list Worksheet) (es : list Execution) :
  List.length (snd (reconcile links wb es)) <= List.length (filter has_failure es)
  /\ ((forall e, In e es -> has_failure e = false) -> snd (reconcile links wb es) = []).
Proof.
  pose proof (reconcile_failures links wb es) as Hl. split; [exact Hl|].
  intros Hall.
  assert (E : filter has_failure es = []).
  { clear Hl. induction es as [|e es IH]; [reflexivity|]. simpl.
    rewrite (Hall e (or_introl eq_refl)). apply IH. intros x Hx. apply Hall. now right. }
  rewrite E in Hl. simpl in Hl. now apply length_zero_iff_nil, Nat.le_0_r.
Qed.

(** ** The results copy *)

Lemma length_append (a b : string) :
  String.length (a +++ b) = String.length a + String.length b.
Proof. induction a as [|c a IH]; simpl; [reflexivity | now rewrite IH]. Qed.

Lemma results_path_differs (root ext : string) : root +++ "_results" +++ ext <> root +++ ext.
Proof.
  intros E. apply (f_equal String.length) in E.
  rewrite !length_append in E. simpl in E. lia.
Qed.

Lemma saved_results_app (l1 l2 : list Event) :
  saved_results (l1 ++ l2) = saved_results l1 ++ saved_results l2.
Proof. unfold saved_results. apply flat_map_app. Qed.

Lemma runner_saves_no_results (run : NewmanRun) (file : string) (ret keep : bool) :
  saved_results (fst (run_newman_and_generate_report run file None ret keep)) = [].
Proof.
  unfold run_newman_and_generate_report.
  destruct (returncode run =? 0)%Z, (artifact run) as [es|], keep; reflexivity.
Qed.

(** X29.  When the two parts splitext gives for the path of the workbook
    make up the path, a run that returns has saved one results workbook,
    under the path it returns, which is not the path of the source, and the
    collection file is named after the collection; a run that raises has
    saved no results workbook. *)
Theorem results_never_overwrite_the_source (L : PyLib) (splitext : string -> string * string)
    (newman : list Folder -> NewmanRun) (excel_path collection_name : string)
    (base_url_override : option string) (wb : list Worksheet) :
  fst (splitext excel_path) +++ snd (splitext excel_path) = excel_path ->
  let r := generate_postman_collection_from_excel splitext newman excel_path collection_name
             base_url_override wb in
  match snd r with
  | Returned (collection_file, output_excel_path, _) =>
      output_excel_path <> excel_path
      /\ map fst (saved_results (fst r)) = [output_excel_path]
      /\ collection_file = collection_name +++ "_postman_collection.json"
  | Raised _ => saved_results (fst r) = []
  end.
Proof.
  intros Hsplit. cbv zeta. unfold generate_postman_collection_from_excel.
  pose proof (runner_saves_no_results
                (newman (collection_items (compile_workbook base_url_override wb)))
                (collection_name +++ "_postman_collection.json") true false) as Hran.
  destruct (run_newman_and_generate_report _ _ None true false) as [ran out].
  cbn [fst] in Hran.
  destruct out as [[report|report executions]|exn]; cbn [fst snd].
  - rewrite saved_results_app, Hran. reflexivity.
  - destruct (reconcile _ wb executions) as [wb' ids].
    destruct (splitext excel_path) as [root ext]. cbn [fst snd] in *.
    split; [|split; [|reflexivity]].
    + rewrite <- Hsplit. apply results_path_differs.
    + rewrite !saved_results_app, Hran. reflexivity.
  - rewrite saved_results_app, Hran. reflexivity.
Qed.

Lemma results_never_overwrite_the_source_witness :
  fst (Lib.splitext "tests.xlsx") +++ snd (Lib.splitext "tests.xlsx") = "tests.xlsx"
  /\ match snd (generate_postman_collection_from_excel (H := pylib) Lib.splitext
                  (runner_in_order "Logout" 200) "tests.xlsx" "API Tests"
                  (Some "https://api.test") [login_sheet]) with
     | Returned (collection_file, output_excel_path, _) =>
         output_excel_path <> "tests.xlsx"
         /\ map fst (saved_results
                       (fst (generate_postman_collection_from_excel (H := pylib) Lib.splitext
                               (runner_in_order "Logout" 200) "tests.xlsx" "API Tests"
                               (Some "https://api.test") [login_sheet])))
            = [output_excel_path]
         /\ collection_file = "API Tests" +++ "_postman_collection.json"
     | Raised _ =>
         saved_results
           (fst (generate_postman_collection_from_excel (H := pylib) Lib.splitext
                   (runner_in_order "Logout" 200) "tests.xlsx" "API Tests"
                   (Some "https://api.test") [login_sheet])) = []
     end.
Proof.
  assert (Hsplit : fst (Lib.splitext "tests.xlsx") +++ snd (Lib.splitext "tests.xlsx")
                   = "tests.xlsx") by reflexivity.
  split; [exact Hsplit|].
  exact (results_never_overwrite_the_source pylib Lib.splitext (runner_in_order "Logout" 200)
           "tests.xlsx" "API Tests" (Some "https://api.test") [login_sheet] Hsplit).
Defined.

(** ** Placement keeps the data of the sheet *)

Lemma update_cell_elsewhere (row column : nat) (f : Cell -> Cell) (g : Grid) (r c : nat) :
  1 <= row -> 1 <= column -> 1 <= r -> 1 <= c ->
  r <> row \/ c <> column ->
  cell_at (update_cell row column f g) r c = cell_at g r c.
Proof.
  intros Hrow Hcol Hr Hc Hne. unfold cell_at.
  fold (row_at (update_cell row column f g) r). fold (row_at g r).
  destruct (Nat.eq_dec r row) as [->|Hrr].
  - rewrite update_cell_row by assumption.
    rewrite update_nth_miss by lia. apply pad_nth.
  - now rewrite update_cell_other_row by auto.
Qed.

Lemma insert_cols_row (p k : nat) (g : Grid) (r : nat) :
  1 <= p ->
  row_at (insert_cols p k g) r
  = if (p <=? List.length (row_at g r))%nat
    then firstn (p - 1) (row_at g r) ++ repeat blank_cell k ++ skipn (p - 1) (row_at g r)
    else row_at g r.
Proof.
  intros Hp. unfold row_at, insert_cols.
  destruct p as [|p]; [lia|].
  set (F := fun row : list Cell =>
              if (S p <=? List.length row)%nat
              then firstn (S p - 1) row ++ repeat blank_cell k ++ skipn (S p - 1) row
              else row).
  change (@nil Cell) with (F []) at 1. now rewrite map_nth.
Qed.

Lemma nth_firstn_lt {A : Type} (l : list A) (d : A) :
  forall n i, i < n -> nth i (firstn n l) d = nth i l d.
Proof.
  induction l as [|x l IH]; intros n i Hi.
  - now rewrite firstn_nil.
  - destruct n; [lia|]. destruct i; simpl; [reflexivity|]. apply IH. lia.
Qed.

Lemma nth_skipn_add {A : Type} (l : list A) (d : A) :
  forall n i, nth i (skipn n l) d = nth (n + i) l d.
Proof.
  induction l as [|x l IH]; intros n i.
  - rewrite skipn_nil. now destruct i, n.
  - destruct n; simpl; [reflexivity|]. apply IH.
Qed.

Lemma insert_cols_shift (p k : nat) (g : Grid) (r c : nat) :
  1 <= p -> 1 <= c ->
  cell_at (insert_cols p k g) r (if (c <? p)%nat then c else c + k) = cell_at g r c.
Proof.
  intros Hp Hc. unfold cell_at.
  fold (row_at (insert_cols p k g) r). fold (row_at g r).
  rewrite insert_cols_row by assumption.
  destruct (Nat.leb_spec p (List.length (row_at g r))) as [Hlen|Hlen];
    destruct (Nat.ltb_spec c p) as [Hcp|Hcp].
  - rewrite app_nth1 by (rewrite length_firstn; lia).
    apply nth_firstn_lt. lia.
  - rewrite app_nth2 by (rewrite length_firstn; lia).
    rewrite length_firstn.
    rewrite app_nth2 by (rewrite repeat_length; lia).
    rewrite repeat_length, nth_skipn_add. f_equal. lia.
  - reflexivity.
  - rewrite !nth_overflow by lia. reflexivity.
Qed.

Lemma insert_cols_blank (p k : nat) (g : Grid) (r q : nat) :
  1 <= p -> p <= q < p + k ->
  cell_at (insert_cols p k g) r q = blank_cell.
Proof.
  intros Hp Hq. unfold cell_at.
  fold (row_at (insert_cols p k g) r).
  rewrite insert_cols_row by assumption.
  destruct (Nat.leb_spec p (List.length (row_at g r))) as [Hlen|Hlen].
  - rewrite app_nth2 by (rewrite length_firstn; lia).
    rewrite length_firstn.
    rewrite app_nth1 by (rewrite repeat_length; lia).
    apply nth_repeat.
  - apply nth_overflow. lia.
Qed.

Lemma kept_within_trans (k1 k2 : nat) (g g1 g2 : Grid) :
  kept_within k1 g g1 -> kept_within k2 g1 g2 -> kept_within (k1 + k2) g g2.
Proof.
  intros H1 H2 r c Hr Hc Hv.
  destruct (H1 r c Hr Hc Hv) as (c1 & Hc1 & E1).
  destruct (H2 r c1 Hr ltac:(lia) ltac:(now rewrite E1)) as (c2 & Hc2 & E2).
  exists c2. split; [lia | congruence].
Qed.

Lemma kept_within_weaken (k k' : nat) (g g' : Grid) :
  k <= k' -> kept_within k g g' -> kept_within k' g g'.
Proof.
  intros Hk H r c Hr Hc Hv. destruct (H r c Hr Hc Hv) as (c' & Hc' & E).
  exists c'. split; [lia | exact E].
Qed.

Lemma kept_within_refl (g : Grid) : kept_within 0 g g.
Proof. intros r c _ _ _. exists c. split; [lia | reflexivity]. Qed.

Lemma kept_after_insert (p k : nat) (g : Grid) :
  1 <= p -> kept_within k g (insert_cols p k g).
Proof.
  intros Hp r c Hr Hc _. exists (if (c <? p)%nat then c else c + k).
  split; [destruct (c <? p)%nat; lia | now apply insert_cols_shift].
Qed.

(** A label written into an empty cell of the header row. *)
Lemma kept_after_label (p : nat) (v : Value) (g : Grid) :
  1 <= p -> value (cell_at g 1 p) = VNone -> kept_within 0 g (set_value 1 p v g).
Proof.
  intros Hp Hblank r c Hr Hc Hv. exists c. split; [lia|].
  unfold set_value. apply update_cell_elsewhere; try lia.
  destruct (Nat.eq_dec r 1) as [->|]; [|now left].
  right. intros ->. contradiction.
Qed.

Lemma kept_after_insert_and_label (p : nat) (v : Value) (g : Grid) :
  1 <= p -> kept_within 1 g (set_value 1 p v (insert_cols p 1 g)).
Proof.
  intros Hp. apply (kept_within_trans 1 0 g (insert_cols p 1 g)).
  - now apply kept_after_insert.
  - apply kept_after_label; [assumption|]. rewrite insert_cols_blank by lia. reflexivity.
Qed.

Lemma beyond_the_edge_is_blank (g : Grid) (c : nat) :
  max_column g < c -> cell_at g 1 c = blank_cell.
Proof.
  intros Hc. unfold cell_at. apply nth_overflow.
  pose proof (first_row_within_max_column g) as Hf. unfold first_row in Hf.
  change (nth (1 - 1) g []) with (nth 0 g []). destruct g as [|row g]; simpl in *; lia.
Qed.

(** X30.  The placement of the result columns loses no cell: every cell
    of the sheet that holds a value is found, as it was, in the same row of
    the sheet after placement, at most two columns to the right. *)
Theorem placement_keeps_every_value (g : Grid) : kept_within 2 g (placed_grid g).
Proof.
  unfold placed_grid, placed, place_columns.
  destruct (find_synonym_col "expected_status" (headers_norm g)) as [e|].
  - destruct (find_col g "ActualStatus") as [a|] eqn:Ea;
      destruct (find_col g "Status") as [s|] eqn:Es; cbn [fst snd].
    + apply (kept_within_weaken 0); [lia | apply kept_within_refl].
    + apply (kept_within_weaken 1); [lia|]. apply kept_after_insert_and_label. lia.
    + destruct (find_col (set_value 1 (e + 1) (VStr "ActualStatus") (insert_cols (e + 1) 1 g))
                  "Status"); cbn [fst snd].
      * apply (kept_within_weaken 1); [lia|]. apply kept_after_insert_and_label. lia.
      * apply (kept_within_trans 1 1 g
                 (set_value 1 (e + 1) (VStr "ActualStatus") (insert_cols (e + 1) 1 g)));
          apply kept_after_insert_and_label; lia.
    + apply (kept_within_trans 2 0 g (insert_cols (e + 1) 2 g));
        [apply kept_after_insert; lia|].
      apply (kept_within_trans 0 0 _
               (set_value 1 (e + 1) (VStr "ActualStatus") (insert_cols (e + 1) 2 g))).
      * apply kept_after_label; [lia|]. rewrite insert_cols_blank by lia. reflexivity.
      * apply kept_after_label; [lia|]. unfold set_value.
        rewrite update_cell_elsewhere by (try lia; right; lia).
        rewrite insert_cols_blank by lia. reflexivity.
  - destruct (find_col g "ActualStatus") as [a|] eqn:Ea;
      destruct (find_col g "Status") as [s|] eqn:Es; cbn [fst snd].
    + apply (kept_within_weaken 0); [lia | apply kept_within_refl].
    + apply (kept_within_weaken 0); [lia|]. apply kept_after_label; [lia|].
      rewrite beyond_the_edge_is_blank by lia. reflexivity.
    + apply (kept_within_weaken 0); [lia|]. apply kept_after_label; [lia|].
      rewrite beyond_the_edge_is_blank by lia. reflexivity.
    + apply (kept_within_weaken 0); [lia|].
      apply (kept_within_trans 0 0 _
               (set_value 1 (max_column g + 1) (VStr "ActualStatus") g)).
      * apply kept_after_label; [lia|].
        rewrite beyond_the_edge_is_blank by lia. reflexivity.
      * apply kept_after_label; [lia|]. unfold set_value.
        rewrite update_cell_elsewhere by (try lia; right; lia).
        rewrite beyond_the_edge_is_blank by lia. reflexivity.
Qed.

(** ** The cells of a reconciled row *)

Lemma value_is_text (name : string) (v : Value) : value_is name v = true -> v = VStr name.
Proof.
  destruct v; simpl; try discriminate. intros E. apply String.eqb_eq in E. now subst.
Qed.

Lemma find_from_value (name : string) (row : list Cell) :
  forall k i, find_from name k row = Some i -> value (nth (i - k) row blank_cell) = VStr name.
Proof.
  induction row as [|c row IH]; intros k i Hf; simpl in Hf; [discriminate|].
  destruct (value_is name (value c)) eqn:Hc.
  - injection Hf as <-. rewrite Nat.sub_diag. cbn [nth]. now apply value_is_text.
  - pose proof (find_from_bounds name row _ _ Hf) as Hb.
    apply IH in Hf. replace (i - k) with (S (i - S k)) by lia. exact Hf.
Qed.

(** A column [find_col] returns is a column of the header row, and the
    header there is the name looked for. *)
Lemma find_col_cell (g : Grid) (name : string) (i : nat) :
  find_col g name = Some i ->
  1 <= i <= List.length (first_row g) /\ value (cell_at g 1 i) = VStr name.
Proof.
  unfold find_col. intros Hf.
  pose proof (find_from_bounds name _ _ _ Hf) as Hb.
  split; [lia|]. apply find_from_value in Hf.
  unfold cell_at, first_row in *. cbn [Nat.sub]. now destruct g.
Qed.

Lemma set_value_read (r c : nat) (v : Value) (g : Grid) :
  1 <= r -> 1 <= c -> value (cell_at (set_value r c v g) r c) = v.
Proof.
  intros Hr Hc. unfold set_value. now rewrite update_cell_read.
Qed.

(** The two result columns are columns of the sheet, and they differ. *)
Lemma placed_columns_distinct (g : Grid) (expected_idx : option nat) :
  let a := snd (fst (place_columns g expected_idx)) in
  let s := snd (place_columns g expected_idx) in
  1 <= a /\ 1 <= s /\ a <> s.
Proof.
  unfold place_columns.
  pose proof (first_row_within_max_column g) as Hmax.
  destruct (find_col g "ActualStatus") as [a0|] eqn:Ea;
    destruct (find_col g "Status") as [s0|] eqn:Es.
  - apply find_col_cell in Ea. apply find_col_cell in Es.
    destruct Ea as [Ha Hva], Es as [Hs Hvs].
    assert (Hne : a0 <> s0) by (intros ->; rewrite Hva in Hvs; discriminate).
    destruct expected_idx as [e|]; cbn [fst snd]; repeat split; lia || assumption.
  - apply find_col_cell in Ea. destruct Ea as [Ha Hva].
    destruct expected_idx as [e|]; cbn [fst snd].
    + destruct (a0 =? 0)%nat eqn:E0; [apply Nat.eqb_eq in E0; lia|].
      repeat split; lia.
    + repeat split; lia.
  - apply find_col_cell in Es. destruct Es as [Hs Hvs].
    destruct expected_idx as [e|]; cbn [fst snd].
    + destruct (find_col (set_value 1 (e + 1) (VStr "ActualStatus") (insert_cols (e + 1) 1 g))
                  "Status") as [s1|] eqn:Es1; cbn [fst snd].
      * apply find_col_cell in Es1. destruct Es1 as [Hs1 Hvs1].
        repeat split; try lia.
        intros <-. rewrite set_value_read in Hvs1 by lia. discriminate.
      * destruct (e + 1 =? 0)%nat eqn:E0; [apply Nat.eqb_eq in E0; lia|].
        repeat split; lia.
    + repeat split; lia.
  - destruct expected_idx as [e|]; cbn [fst snd]; repeat split; lia.
Qed.

(** What [write_result] leaves in the sheet, cell by cell. *)
Lemma write_result_cells (a s r : nat) (e : Execution) (g : Grid) :
  1 <= r -> 1 <= a -> 1 <= s -> a <> s ->
  cell_at (write_result a s r e g) r a
  = {| value := match response_code e with Some z => VInt z | None => VNone end;
       fill := fill (cell_at g r a) |}
  /\ cell_at (write_result a s r e g) r s
     = (if has_failure e
        then {| value := VStr "FAILED"; fill := Some RED |}
        else {| value := VStr "PASSED"; fill := Some GREEN |})
  /\ (forall c, 1 <= c -> c <> a -> c <> s ->
        cell_at (write_result a s r e g) r c = cell_at g r c).
Proof.
  intros Hr Ha Hs Hne. unfold write_result, set_fill, set_value.
  rewrite verdict_of_has_failure.
  split; [|split].
  - rewrite !update_cell_elsewhere by (auto; right; auto).
    rewrite update_cell_read by assumption. reflexivity.
  - rewrite !update_cell_read by assumption. cbn [value fill].
    now destruct (has_failure e).
  - intros c Hc Hca Hcs.
    now rewrite !update_cell_elsewhere by (auto; right; auto).
Qed.

Lemma cell_of_row (g : Grid) (r c : nat) : cell_at g r c = nth (c - 1) (row_at g r) blank_cell.
Proof. reflexivity. Qed.

Lemma result_row_cells (a s : nat) (e : Execution) (row : list Cell) :
  1 <= a -> 1 <= s -> a <> s ->
  nth (a - 1) (result_row a s e row) blank_cell
  = {| value := match response_code e with Some z => VInt z | None => VNone end;
       fill := fill (nth (a - 1) row blank_cell) |}
  /\ nth (s - 1) (result_row a s e row) blank_cell
     = (if has_failure e
        then {| value := VStr "FAILED"; fill := Some RED |}
        else {| value := VStr "PASSED"; fill := Some GREEN |})
  /\ (forall c, 1 <= c -> c <> a -> c <> s ->
        nth (c - 1) (result_row a s e row) blank_cell = nth (c - 1) row blank_cell).
Proof.
  intros Ha Hs Hne.
  exact (write_result_cells a s 1 e [row] (Nat.le_refl 1) Ha Hs Hne).
Qed.

(** ** Rows that are not linked *)

Lemma write_rows_unlinked (links : list (string * nat)) (t : string) (a s : nat)
    (id_idx : option nat) (rows : list nat) :
  forall (g : Grid) (es : list Execution) (r : nat),
    1 <= r -> (forall x, In x rows -> 1 <= x) -> linked links t r = false ->
    row_at (fst (fst (write_rows links t a s id_idx rows g es))) r = row_at g r.
Proof.
  induction rows as [|x rows IH]; intros g es r Hr Hpos Hun; [reflexivity|].
  assert (Hx : 1 <= x) by (apply Hpos; now left).
  assert (Hpos' : forall y, In y rows -> 1 <= y) by (intros y Hy; apply Hpos; now right).
  cbn [write_rows].
  destruct (linked links t x) eqn:Hl; cbn [negb].
  - destruct es as [|e es]; [reflexivity|].
    assert (Hxr : x <> r) by (intros ->; congruence).
    specialize (IH (write_result a s x e g) es r Hr Hpos' Hun).
    destruct (write_rows links t a s id_idx rows (write_result a s x e g) es)
      as [[g2 it] more].
    cbn [fst] in *. rewrite IH. now apply write_result_other_row.
  - now apply IH.
Qed.

Lemma reconcile_sheet_unlinked (links : list (string * nat)) (sheet : Worksheet)
    (es : list Execution) (r : nat) :
  1 <= r -> linked links (title sheet) r = false ->
  row_at (grid (fst (fst (reconcile_sheet links sheet es)))) r
  = row_at (placed_grid (grid sheet)) r.
Proof.
  intros Hr Hun.
  unfold reconcile_sheet, placed_grid, placed, headers_norm.
  destruct (place_columns (grid sheet) _) as [[g a] s].
  pose proof (write_rows_unlinked links (title sheet) a s
                (find_synonym_col "id" (map (fun c => _norm (value c)) (first_row (grid sheet))))
                (seq 2 (max_row g - 1)) g es r Hr) as Hrows.
  destruct (write_rows links (title sheet) a s _ (seq 2 (max_row g - 1)) g es)
    as [[g' it] ids].
  cbn [fst grid] in *. apply Hrows; [|assumption].
  intros x Hx. apply in_seq in Hx. lia.
Qed.

(** Every sheet has its counterpart in the reconciled workbook: a hidden
    sheet is itself, a visible sheet is changed in its linked rows only. *)
Lemma reconcile_unlinked_rows (links : list (string * nat)) (wb : list Worksheet) :
  forall (es : list Execution) (si : nat) (sheet : Worksheet),
    nth_error wb si = Some sheet ->
    exists sheet',
      nth_error (fst (reconcile links wb es)) si = Some sheet'
      /\ (is_visible sheet = false -> sheet' = sheet)
      /\ (is_visible sheet = true ->
          forall r, 1 <= r -> linked links (title sheet) r = false ->
                    row_at (grid sheet') r = row_at (placed_grid (grid sheet)) r).
Proof.
  induction wb as [|x wb IH]; intros es si sheet Hsi; [destruct si; discriminate|].
  cbn [reconcile].
  destruct (String.eqb (sheet_state x) "visible") eqn:Hvis; cbn [negb].
  - pose proof (reconcile_sheet_unlinked links x es) as Hhere.
    destruct (reconcile_sheet links x es) as [[x' it] ids]. cbn [fst] in Hhere.
    destruct si as [|si].
    + injection Hsi as <-.
      destruct (reconcile links wb it) as [rest' more]. cbn [fst nth_error].
      exists x'. split; [reflexivity|]. split.
      * unfold is_visible. rewrite Hvis. discriminate.
      * intros _ r Hr Hun. now apply Hhere.
    + destruct (IH it si sheet Hsi) as (sheet' & Hout & Hrest).
      destruct (reconcile links wb it) as [rest' more]. cbn [fst nth_error] in *.
      exists sheet'. split; assumption.
  - destruct si as [|si].
    + injection Hsi as <-.
      destruct (reconcile links wb es) as [rest' more]. cbn [fst nth_error].
      exists x. split; [reflexivity|]. split; [reflexivity|].
      unfold is_visible. rewrite Hvis. discriminate.
    + destruct (IH es si sheet Hsi) as (sheet' & Hout & Hrest).
      destruct (reconcile links wb es) as [rest' more]. cbn [fst nth_error] in *.
      exists sheet'. split; assumption.
Qed.

(** C7.  When there are fewer executions than linked rows, the run returns
    (the iterator's exhaustion ends the row loop, nothing is raised).  The
    two result columns differ.  For i below the number of executions, the
    i-th linked row in reading order holds the response code of the i-th
    execution in the actual-status column, and in the status column FAILED
    on the failure fill when an assertion of that execution has an error,
    PASSED on the success fill otherwise; its other cells are as the
    placement of the columns left them.  Every later linked row is as the
    placement left it.  A hidden sheet is unchanged, and every row of a
    visible sheet that is not linked is as the placement left it. *)
Theorem short_execution_list_partial_write (L : PyLib) (base_url_override : option string)
    (wb : list Worksheet) (execs : list Execution) :
  NoDup (map title wb) ->
  let links := row_links (compile_workbook base_url_override wb) in
  List.length execs < List.length links ->
  (forall (splitext : string -> string * string) (newman : list Folder -> NewmanRun)
          (excel_path collection_name : string),
      artifact (newman (collection_items (compile_workbook base_url_override wb)))
      = Some execs ->
      snd (generate_postman_collection_from_excel splitext newman excel_path collection_name
             base_url_override wb)
      = Returned (collection_name +++ "_postman_collection.json",
                  fst (splitext excel_path) +++ "_results" +++ snd (splitext excel_path),
                  snd (reconcile links wb execs)))
  /\ (forall (i : nat) (t : string) (r : nat),
        nth_error links i = Some (t, r) ->
        exists si sheet sheet',
          nth_error wb si = Some sheet
          /\ title sheet = t
          /\ nth_error (fst (reconcile links wb execs)) si = Some sheet'
          /\ actual_col (grid sheet) <> status_col (grid sheet)
          /\ (forall e, nth_error execs i = Some e ->
                cell_at (grid sheet') r (actual_col (grid sheet))
                = {| value := match response_code e with Some z => VInt z | None => VNone end;
                     fill := fill (cell_at (placed_grid (grid sheet)) r
                                     (actual_col (grid sheet))) |}
                /\ cell_at (grid sheet') r (status_col (grid sheet))
                   = (if has_failure e
                      then {| value := VStr "FAILED"; fill := Some RED |}
                      else {| value := VStr "PASSED"; fill := Some GREEN |})
                /\ (forall c, 1 <= c ->
                      c <> actual_col (grid sheet) -> c <> status_col (grid sheet) ->
                      cell_at (grid sheet') r c = cell_at (placed_grid (grid sheet)) r c))
          /\ (List.length execs <= i ->
                row_at (grid sheet') r = row_at (placed_grid (grid sheet)) r))
  /\ (forall (si : nat) (sheet : Worksheet),
        nth_error wb si = Some sheet ->
        exists sheet',
          nth_error (fst (reconcile links wb execs)) si = Some sheet'
          /\ (is_visible sheet = false -> sheet' = sheet)
          /\ (is_visible sheet = true ->
              forall r, 1 <= r -> ~ In (title sheet, r) links ->
                        row_at (grid sheet') r = row_at (placed_grid (grid sheet)) r)).
Proof.
  intros Hnd links Hshort. split; [|split].
  - intros splitext newman excel_path collection_name Hart.
    exact (proj1 (proj2 (runner_failure_handling L splitext newman excel_path collection_name
                           base_url_override wb) execs Hart)).
  - intros i t r Hi.
    destruct (short_execution_list_rows L base_url_override wb execs Hnd Hshort i t r Hi)
      as (si & sheet & sheet' & Hin & Ht & Hout & Hrow).
    exists si, sheet, sheet'.
    pose proof (placed_columns_distinct (grid sheet)
                  (find_synonym_col "expected_status" (headers_norm (grid sheet))))
      as (Ha & Hs & Hne).
    fold (placed (grid sheet)) in Ha, Hs, Hne.
    fold (actual_col (grid sheet)) in Ha, Hne. fold (status_col (grid sheet)) in Hs, Hne.
    split; [assumption|]. split; [assumption|]. split; [assumption|].
    split; [assumption|]. split.
    + intros e He. rewrite !cell_of_row.
      assert (Hrow' : forall c, cell_at (grid sheet') r c
                                = nth (c - 1)
                                    (result_row (actual_col (grid sheet)) (status_col (grid sheet))
                                       e (row_at (placed_grid (grid sheet)) r)) blank_cell).
      { intros c. rewrite cell_of_row. now rewrite (proj1 Hrow e He). }
      rewrite <- !cell_of_row. rewrite !Hrow'.
      destruct (result_row_cells (actual_col (grid sheet)) (status_col (grid sheet)) e
                  (row_at (placed_grid (grid sheet)) r) Ha Hs Hne) as (Hca & Hcs & Hco).
      split; [exact Hca|]. split; [exact Hcs|].
      intros c Hc Hc1 Hc2. rewrite Hrow'. now apply Hco.
    + exact (proj2 Hrow).
  - intros si sheet Hsi.
    destruct (reconcile_unlinked_rows links wb execs si sheet Hsi) as (sheet' & Hout & Hh & Hv).
    exists sheet'. split; [assumption|]. split; [assumption|].
    intros Hvis r Hr Hnot. apply Hv; try assumption.
    destruct (linked links (title sheet) r) eqn:Hl; [|reflexivity].
    apply linked_iff_in in Hl. contradiction.
Qed.

Lemma short_execution_list_partial_write_witness :
  let links := row_links (compile_workbook (H := pylib) (Some "https://api.test") [login_sheet]) in
  let sheet' := hd login_sheet (fst (reconcile links [login_sheet] [failing_execution])) in
  NoDup (map title [login_sheet])
  /\ List.length [failing_execution] < List.length links
  /\ links = [("Sheet1", 2); ("Sheet1", 3)]
  /\ actual_col (grid login_sheet) = 4
  /\ status_col (grid login_sheet) = 5
  /\ cell_at (grid sheet') 2 4 = {| value := VInt 500; fill := None |}
  /\ cell_at (grid sheet') 2 5 = {| value := VStr "FAILED"; fill := Some RED |}
  /\ row_at (grid sheet') 3 = row_at (placed_grid (grid login_sheet)) 3
  /\ cell_at (grid sheet') 3 4 = blank_cell
  /\ cell_at (grid sheet') 3 5 = blank_cell.
Proof.
  intros links sheet'.
  assert (Hnd : NoDup (map title [login_sheet])).
  { simpl. constructor; [intros [] | constructor]. }
  assert (Hshort : List.length [failing_execution] < List.length links)
    by (vm_compute; lia).
  assert (Hlinks : links = [("Sheet1", 2); ("Sheet1", 3)]) by reflexivity.
  pose proof (short_execution_list_partial_write pylib (Some "https://api.test") [login_sheet]
                [failing_execution] Hnd Hshort) as (_ & Hrows & _).
  fold links in Hrows.
  assert (H0 : nth_error links 0 = Some ("Sheet1", 2)) by reflexivity.
  assert (H1 : nth_error links 1 = Some ("Sheet1", 3)) by reflexivity.
  destruct (Hrows 0 "Sheet1" 2 H0) as (si0 & sh0 & sh0' & Hin0 & _ & Hout0 & _ & Hw0 & _).
  destruct (Hrows 1 "Sheet1" 3 H1) as (si1 & sh1 & sh1' & Hin1 & _ & Hout1 & _ & _ & Hu1).
  destruct si0 as [|[|si0]]; try discriminate. injection Hin0 as <-.
  destruct si1 as [|[|si1]]; try discriminate. injection Hin1 as <-.
  assert (E0 : sh0' = sheet').
  { unfold sheet'. destruct (fst (reconcile links [login_sheet] [failing_execution]));
      [discriminate | now injection Hout0]. }
  assert (E1 : sh1' = sheet').
  { unfold sheet'. destruct (fst (reconcile links [login_sheet] [failing_execution]));
      [discriminate | now injection Hout1]. }
  subst sh0' sh1'.
  destruct (Hw0 failing_execution eq_refl) as (Ha & Hs & _).
  specialize (Hu1 (Nat.le_refl 1)).
  split; [exact Hnd|]. split; [exact Hshort|]. split; [exact Hlinks|].
  split; [reflexivity|]. split; [reflexivity|].
  split; [exact Ha|]. split; [exact Hs|]. split; [exact Hu1|].
  split; reflexivity.
Defined.
